(** * The RISC-V hart model and the per-hart reset unit

    A shallow embedding of [target/riscv/cpu.c] (configuration at realize
    time, reset, the textual state dump and its loader) and of
    [hw/cpu/sifive_d_reset.c] (the memory-mapped reset unit), followed by the
    properties of the hart life cycle, of the snapshot text format and of the
    reset protocol.

    The embedding is of the 64-bit system-mode build: [target_ulong] is a
    64-bit unsigned integer (the loader reads every [target_ulong] field with
    the conversion [%lx]) and [CONFIG_USER_ONLY] is not defined.  Unsigned
    machine integers are values of [Z] with the wrap-around written out. *)

From Stdlib Require Import ZArith String Ascii List Bool Lia.
From stdpp Require Import base numbers list strings.

Local Open Scope Z_scope.

(** ** Machine integers *)

Module Int.

Definition u64_modulus : Z := 2 ^ 64.
Definition u32_modulus : Z := 2 ^ 32.

Definition ULONG_MAX : Z := u64_modulus - 1.
Definition LONG_MAX : Z := 2 ^ 63 - 1.
Definition LONG_MIN : Z := - 2 ^ 63.
Definition INT_MAX : Z := 2 ^ 31 - 1.

(** Conversion to [uint64_t] / [target_ulong]. *)
Definition to_u64 (z : Z) : Z := z mod u64_modulus.

(** Conversion to [uint32_t]. *)
Definition to_u32 (z : Z) : Z := z mod u32_modulus.

(** Conversion to [int] (two's complement, as the compilers QEMU supports
    define it). *)
Definition to_int (z : Z) : Z :=
  let r := z mod u32_modulus in
  if r <? 2 ^ 31 then r else r - u32_modulus.

End Int.

(** ** Text: the C library functions the dump and the loader call *)

Module Text.

Definition NUL : ascii := Ascii.ascii_of_nat 0.
Definition LF : ascii := Ascii.ascii_of_nat 10.

Definition code (c : ascii) : Z := Z.of_nat (Ascii.nat_of_ascii c).

(** [isspace] in the C locale: space, and the controls 9 to 13. *)
Definition isspace (c : ascii) : bool :=
  (code c =? 32) || ((9 <=? code c) && (code c <=? 13)).

Definition dec_value (c : ascii) : option Z :=
  if (48 <=? code c) && (code c <=? 57) then Some (code c - 48) else None.

Definition hex_value (c : ascii) : option Z :=
  if (48 <=? code c) && (code c <=? 57) then Some (code c - 48)
  else if (97 <=? code c) && (code c <=? 102) then Some (code c - 87)
  else if (65 <=? code c) && (code c <=? 70) then Some (code c - 55)
  else None.

(** *** Output conversions of [fprintf] *)

Definition digit_char (d : Z) : ascii :=
  if d <? 10 then Ascii.ascii_of_nat (Z.to_nat (48 + d))
  else Ascii.ascii_of_nat (Z.to_nat (87 + d)).

(** The [n] low digits of [v] in base [base], most significant first. *)
Fixpoint digits (base : Z) (n : nat) (v : Z) (acc : string) : string :=
  match n with
  | O => acc
  | S n' => digits base n' (v / base) (String (digit_char (v mod base)) acc)
  end.

(** Leading zeros dropped, the last digit kept. *)
Fixpoint strip_zeros (s : string) : string :=
  match s with
  | String c (String _ _ as r) =>
      if Ascii.eqb c "0" then strip_zeros r else s
  | _ => s
  end.

(** [%016lx] of a 64-bit value: [TARGET_FMT_lx] of the 64-bit target, and
    the 16-digit [PRIx64] conversion of the floating-point registers. *)
Definition fmt_016lx (v : Z) : string := digits 16 16 (Int.to_u64 v) "".

(** [%x] of an [unsigned int]. *)
Definition fmt_x (v : Z) : string :=
  strip_zeros (digits 16 8 (Int.to_u32 v) "").

(** [%d] of an [int]. *)
Definition fmt_d (v : Z) : string :=
  let i := Int.to_int v in
  if i <? 0 then String "-" (strip_zeros (digits 10 10 (- i) ""))
  else strip_zeros (digits 10 10 i "").

(** *** [fgets] *)

(** At most [n] characters of the stream, up to and including the first
    line feed; the rest of the stream is returned with them. *)
Fixpoint read_line (n : nat) (fp : string) : string * string :=
  match n, fp with
  | S n', String c r =>
      if Ascii.eqb c LF then (String c "", r)
      else let '(l, r') := read_line n' r in (String c l, r')
  | _, _ => (""%string, fp)
  end.

(** [fgets(buf, size, fp)]: the new content of [buf] and the rest of the
    stream.  At end of file nothing is stored: the buffer keeps what it
    held (the loader never looks at the value [fgets] returns). *)
Definition fgets (size : nat) (buf fp : string) : string * string :=
  match fp with
  | EmptyString => (buf, fp)
  | _ => read_line (size - 1) fp
  end.

(** *** [sscanf] *)

(** A C string ends at its first NUL. *)
Fixpoint c_str (s : string) : string :=
  match s with
  | String c r => if Ascii.eqb c NUL then ""%string else String c (c_str r)
  | EmptyString => ""%string
  end.

Inductive directive : Type :=
| D_space                  (* white space in the format *)
| D_char (c : ascii)       (* an ordinary character *)
| D_lx                     (* %lx *)
| D_x                      (* %x *)
| D_d                      (* %d *)
| D_s.                     (* %s *)

Fixpoint parse_format (fmt : string) : list directive :=
  match fmt with
  | EmptyString => []
  | String "%" (String "l" (String "x" r)) => D_lx :: parse_format r
  | String "%" (String "x" r) => D_x :: parse_format r
  | String "%" (String "d" r) => D_d :: parse_format r
  | String "%" (String "s" r) => D_s :: parse_format r
  | String c r =>
      (if isspace c then D_space else D_char c) :: parse_format r
  end.

(** What a conversion stores through its pointer argument. *)
Inductive scanned : Type :=
| V_int (z : Z)
| V_str (s : string).

Fixpoint skip_space (s : string) : string :=
  match s with
  | String c r => if isspace c then skip_space r else s
  | EmptyString => s
  end.

Fixpoint scan_digits (value : ascii -> option Z) (base acc : Z)
    (s : string) : Z * string :=
  match s with
  | String c r =>
      match value c with
      | Some d => scan_digits value base (acc * base + d) r
      | None => (acc, s)
      end
  | EmptyString => (acc, s)
  end.

(** An optional sign: [true] for a minus. *)
Definition scan_sign (s : string) : bool * string :=
  match s with
  | String "-" r => (true, r)
  | String "+" r => (false, r)
  | _ => (false, s)
  end.

(** The magnitude of a number in base [base]; [None] when no digit is
    there.  After a leading zero the C library of the build accepts (and
    drops) the [x] of a hexadecimal prefix. *)
Definition scan_magnitude (value : ascii -> option Z) (base : Z)
    (s : string) : option (Z * string) :=
  match s with
  | String "0" r =>
      let r' :=
        match r with
        | String c r2 =>
            if (base =? 16) && (Ascii.eqb c "x" || Ascii.eqb c "X")
            then r2 else r
        | EmptyString => r
        end in
      Some (scan_digits value base 0 r')
  | String c r =>
      match value c with
      | Some d => Some (scan_digits value base d r)
      | None => None
      end
  | EmptyString => None
  end.

(** [strtoul]: out of range gives [ULONG_MAX]; a minus negates modulo
    2^64. *)
Definition strtoul_value (neg : bool) (m : Z) : Z :=
  if Int.ULONG_MAX <? m then Int.ULONG_MAX
  else if neg then Int.to_u64 (- m) else m.

(** [strtol]: out of range saturates. *)
Definition strtol_value (neg : bool) (m : Z) : Z :=
  let v := if neg then - m else m in
  if v <? Int.LONG_MIN then Int.LONG_MIN
  else if Int.LONG_MAX <? v then Int.LONG_MAX
  else v.

(** [%lx]: white space is skipped, then a hexadecimal number is read as
    by [strtoul]. *)
Definition scan_lx (s : string) : option (Z * string) :=
  let '(neg, s1) := scan_sign (skip_space s) in
  match scan_magnitude hex_value 16 s1 with
  | Some (m, r) => Some (strtoul_value neg m, r)
  | None => None
  end.

(** [%x]: as [%lx], stored into an [unsigned int]. *)
Definition scan_x (s : string) : option (Z * string) :=
  match scan_lx s with
  | Some (v, r) => Some (Int.to_u32 v, r)
  | None => None
  end.

(** [%d]: a decimal number read as by [strtol], stored into an [int]. *)
Definition scan_d (s : string) : option (Z * string) :=
  let '(neg, s1) := scan_sign (skip_space s) in
  match scan_magnitude dec_value 10 s1 with
  | Some (m, r) => Some (Int.to_int (strtol_value neg m), r)
  | None => None
  end.

Fixpoint scan_token (s : string) : string * string :=
  match s with
  | String c r =>
      if isspace c then (""%string, s)
      else let '(t, r') := scan_token r in (String c t, r')
  | EmptyString => (""%string, s)
  end.

(** [%s]: white space is skipped, then the characters up to the next white
    space are stored; at the end of the input nothing is. *)
Definition scan_s (s : string) : option (string * string) :=
  match skip_space s with
  | EmptyString => None
  | s1 => Some (scan_token s1)
  end.

(** The directives are executed in turn; the first one that fails ends the
    call.  The result lists what was stored, in order. *)
Fixpoint scan (ds : list directive) (s : string) : list scanned :=
  match ds with
  | [] => []
  | D_space :: ds' => scan ds' (skip_space s)
  | D_char c :: ds' =>
      match s with
      | String c' r => if Ascii.eqb c c' then scan ds' r else []
      | EmptyString => []
      end
  | D_lx :: ds' =>
      match scan_lx s with
      | Some (v, r) => V_int v :: scan ds' r
      | None => []
      end
  | D_x :: ds' =>
      match scan_x s with
      | Some (v, r) => V_int v :: scan ds' r
      | None => []
      end
  | D_d :: ds' =>
      match scan_d s with
      | Some (v, r) => V_int v :: scan ds' r
      | None => []
      end
  | D_s :: ds' =>
      match scan_s s with
      | Some (t, r) => V_str t :: scan ds' r
      | None => []
      end
  end.

(** [sscanf(str, fmt, ...)]: the values stored through the pointer
    arguments, in order.  The C function returns their number (or [EOF],
    which is negative, when the input ends before the first conversion);
    the loader only compares that number with the number of conversions of
    the format, so a call succeeds there exactly when the list has that
    length. *)
Definition sscanf (str fmt : string) : list scanned :=
  scan (parse_format fmt) (c_str str).

End Text.


(** ** Constants of the headers *)

(** The values [cpu.c] takes from [cpu.h], [cpu_bits.h] and [pmp.h], which
    are not among the sources, are parameters of the development. *)
Class cpu_bits : Type := {
  (* the base of [misa] *)
  RV32 : Z;
  RV64 : Z;
  (* the extension bits of [misa] *)
  RVI : Z; RVE : Z; RVM : Z; RVA : Z; RVF : Z; RVD : Z; RVC : Z;
  RVS : Z; RVU : Z; RVH : Z; RVB : Z; RVV : Z;
  (* privilege levels and [mstatus] bits; the two masks are constants of
     type [int] *)
  PRV_M : Z;
  MSTATUS_MIE : Z;
  MSTATUS_MPRV : Z;
  RISCV_EXCP_NONE : Z;
  MAX_RISCV_PMPS : nat;
  RV_VLEN_MAX : Z;
  PRIV_VERSION_1_10_0 : Z;
  PRIV_VERSION_1_11_0 : Z;
  BEXT_VERSION_0_93_0 : Z;
  VEXT_VERSION_0_07_1 : Z;
  RISCV_FEATURE_MMU : Z;
  RISCV_FEATURE_PMP : Z;
  RISCV_FEATURE_EPMP : Z;
  DEFAULT_RSTVEC : Z
}.

(** ** The state of a hart *)

(** Modelled from the spec: [float_status] is declared in the soft-float
    headers; of the FP unit the specification names the default NaN
    behaviour and the rounding mode. *)
Record float_status : Type := {
  default_nan_mode : bool;
  float_rounding_mode : Z
}.

(** Modelled from the spec: [set_default_nan_mode] of
    [fpu/softfloat-helpers.h] selects the default NaN behaviour of the FP
    unit. *)
Definition set_default_nan_mode (val : bool) (status : float_status) :
    float_status :=
  {| default_nan_mode := val;
     float_rounding_mode := float_rounding_mode status |}.

(** Modelled from the spec: the PMP table of [pmp.h] is an ordered list of
    rules, each with an address value and a packed configuration byte,
    together with the derived match ranges and the derived rule count. *)
Record pmp_entry_t : Type := { addr_reg : Z; cfg_reg : Z }.
Record pmp_addr_t : Type := { sa : Z; ea : Z }.
Record pmp_table_t : Type := {
  pmp : list pmp_entry_t;
  addr : list pmp_addr_t;
  num_rules : Z
}.

(** The fields of [CPURISCVState] that [cpu.c] reads or writes; the scalar
    ones are 64-bit unless noted. *)
Record CPURISCVState : Type := Build_env {
  gpr : list Z;                 (* target_ulong gpr[32] *)
  fpr : list Z;                 (* uint64_t fpr[32] *)
  pc : Z; load_res : Z; load_val : Z; frm : Z; badaddr : Z;
  guest_phys_fault_addr : Z;
  priv_ver : Z; bext_ver : Z; vext_ver : Z; misa : Z; misa_mask : Z;
  features : Z;                 (* uint32_t *)
  priv : Z; virt : Z; resetvec : Z; mhartid : Z;
  mstatus : Z; mip : Z; mie : Z; mideleg : Z; medeleg : Z;
  mtvec : Z; stvec : Z; mepc : Z; sepc : Z; mcause : Z; scause : Z;
  mtval : Z; stval : Z; mscratch : Z; sscratch : Z; satp : Z;
  scounteren : Z; mcounteren : Z; mfromhost : Z; mtohost : Z; timecmp : Z;
  (* hypervisor *)
  hstatus : Z; vsstatus : Z; htval : Z; vscause : Z; mtval2 : Z;
  hideleg : Z; hedeleg : Z; vstvec : Z; vsepc : Z;
  two_stage_lookup : bool;
  pmp_state : pmp_table_t;
  fp_status : float_status
}.

(** The scalar fields by name: the assignment [env->f = v] is
    [env_set F v env]. *)
Inductive field : Type :=
| PC | LOAD_RES | LOAD_VAL | FRM | BADADDR | GUEST_PHYS_FAULT_ADDR
| PRIV_VER | BEXT_VER | VEXT_VER | MISA | MISA_MASK | FEATURES | PRIV
| VIRT | RESETVEC | MHARTID | MSTATUS | MIP | MIE | MIDELEG | MEDELEG
| MTVEC | STVEC | MEPC | SEPC | MCAUSE | SCAUSE | MTVAL | STVAL
| MSCRATCH | SSCRATCH | SATP | SCOUNTEREN | MCOUNTEREN | MFROMHOST
| MTOHOST | TIMECMP | HSTATUS | VSSTATUS | HTVAL | VSCAUSE | MTVAL2
| HIDELEG | HEDELEG | VSTVEC | VSEPC.

Definition env_get (f : field) (e : CPURISCVState) : Z :=
  match f with
  | PC => pc e
  | LOAD_RES => load_res e
  | LOAD_VAL => load_val e
  | FRM => frm e
  | BADADDR => badaddr e
  | GUEST_PHYS_FAULT_ADDR => guest_phys_fault_addr e
  | PRIV_VER => priv_ver e
  | BEXT_VER => bext_ver e
  | VEXT_VER => vext_ver e
  | MISA => misa e
  | MISA_MASK => misa_mask e
  | FEATURES => features e
  | PRIV => priv e
  | VIRT => virt e
  | RESETVEC => resetvec e
  | MHARTID => mhartid e
  | MSTATUS => mstatus e
  | MIP => mip e
  | MIE => mie e
  | MIDELEG => mideleg e
  | MEDELEG => medeleg e
  | MTVEC => mtvec e
  | STVEC => stvec e
  | MEPC => mepc e
  | SEPC => sepc e
  | MCAUSE => mcause e
  | SCAUSE => scause e
  | MTVAL => mtval e
  | STVAL => stval e
  | MSCRATCH => mscratch e
  | SSCRATCH => sscratch e
  | SATP => satp e
  | SCOUNTEREN => scounteren e
  | MCOUNTEREN => mcounteren e
  | MFROMHOST => mfromhost e
  | MTOHOST => mtohost e
  | TIMECMP => timecmp e
  | HSTATUS => hstatus e
  | VSSTATUS => vsstatus e
  | HTVAL => htval e
  | VSCAUSE => vscause e
  | MTVAL2 => mtval2 e
  | HIDELEG => hideleg e
  | HEDELEG => hedeleg e
  | VSTVEC => vstvec e
  | VSEPC => vsepc e
  end.

Definition env_set (f : field) (v : Z) (e : CPURISCVState) :
    CPURISCVState :=
  {| gpr := gpr e;
     fpr := fpr e;
     pc := match f with PC => v | _ => pc e end;
     load_res := match f with LOAD_RES => v | _ => load_res e end;
     load_val := match f with LOAD_VAL => v | _ => load_val e end;
     frm := match f with FRM => v | _ => frm e end;
     badaddr := match f with BADADDR => v | _ => badaddr e end;
     guest_phys_fault_addr := match f with GUEST_PHYS_FAULT_ADDR => v | _ => guest_phys_fault_addr e end;
     priv_ver := match f with PRIV_VER => v | _ => priv_ver e end;
     bext_ver := match f with BEXT_VER => v | _ => bext_ver e end;
     vext_ver := match f with VEXT_VER => v | _ => vext_ver e end;
     misa := match f with MISA => v | _ => misa e end;
     misa_mask := match f with MISA_MASK => v | _ => misa_mask e end;
     features := match f with FEATURES => v | _ => features e end;
     priv := match f with PRIV => v | _ => priv e end;
     virt := match f with VIRT => v | _ => virt e end;
     resetvec := match f with RESETVEC => v | _ => resetvec e end;
     mhartid := match f with MHARTID => v | _ => mhartid e end;
     mstatus := match f with MSTATUS => v | _ => mstatus e end;
     mip := match f with MIP => v | _ => mip e end;
     mie := match f with MIE => v | _ => mie e end;
     mideleg := match f with MIDELEG => v | _ => mideleg e end;
     medeleg := match f with MEDELEG => v | _ => medeleg e end;
     mtvec := match f with MTVEC => v | _ => mtvec e end;
     stvec := match f with STVEC => v | _ => stvec e end;
     mepc := match f with MEPC => v | _ => mepc e end;
     sepc := match f with SEPC => v | _ => sepc e end;
     mcause := match f with MCAUSE => v | _ => mcause e end;
     scause := match f with SCAUSE => v | _ => scause e end;
     mtval := match f with MTVAL => v | _ => mtval e end;
     stval := match f with STVAL => v | _ => stval e end;
     mscratch := match f with MSCRATCH => v | _ => mscratch e end;
     sscratch := match f with SSCRATCH => v | _ => sscratch e end;
     satp := match f with SATP => v | _ => satp e end;
     scounteren := match f with SCOUNTEREN => v | _ => scounteren e end;
     mcounteren := match f with MCOUNTEREN => v | _ => mcounteren e end;
     mfromhost := match f with MFROMHOST => v | _ => mfromhost e end;
     mtohost := match f with MTOHOST => v | _ => mtohost e end;
     timecmp := match f with TIMECMP => v | _ => timecmp e end;
     hstatus := match f with HSTATUS => v | _ => hstatus e end;
     vsstatus := match f with VSSTATUS => v | _ => vsstatus e end;
     htval := match f with HTVAL => v | _ => htval e end;
     vscause := match f with VSCAUSE => v | _ => vscause e end;
     mtval2 := match f with MTVAL2 => v | _ => mtval2 e end;
     hideleg := match f with HIDELEG => v | _ => hideleg e end;
     hedeleg := match f with HEDELEG => v | _ => hedeleg e end;
     vstvec := match f with VSTVEC => v | _ => vstvec e end;
     vsepc := match f with VSEPC => v | _ => vsepc e end;
     two_stage_lookup := two_stage_lookup e;
     pmp_state := pmp_state e;
     fp_status := fp_status e |}.

(** The fields that are not scalars, replaced together. *)
Definition env_rebuild (g f : list Z) (t : bool) (p : pmp_table_t)
    (s : float_status) (e : CPURISCVState) : CPURISCVState :=
  {| gpr := g;
     fpr := f;
     pc := pc e;
     load_res := load_res e;
     load_val := load_val e;
     frm := frm e;
     badaddr := badaddr e;
     guest_phys_fault_addr := guest_phys_fault_addr e;
     priv_ver := priv_ver e;
     bext_ver := bext_ver e;
     vext_ver := vext_ver e;
     misa := misa e;
     misa_mask := misa_mask e;
     features := features e;
     priv := priv e;
     virt := virt e;
     resetvec := resetvec e;
     mhartid := mhartid e;
     mstatus := mstatus e;
     mip := mip e;
     mie := mie e;
     mideleg := mideleg e;
     medeleg := medeleg e;
     mtvec := mtvec e;
     stvec := stvec e;
     mepc := mepc e;
     sepc := sepc e;
     mcause := mcause e;
     scause := scause e;
     mtval := mtval e;
     stval := stval e;
     mscratch := mscratch e;
     sscratch := sscratch e;
     satp := satp e;
     scounteren := scounteren e;
     mcounteren := mcounteren e;
     mfromhost := mfromhost e;
     mtohost := mtohost e;
     timecmp := timecmp e;
     hstatus := hstatus e;
     vsstatus := vsstatus e;
     htval := htval e;
     vscause := vscause e;
     mtval2 := mtval2 e;
     hideleg := hideleg e;
     hedeleg := hedeleg e;
     vstvec := vstvec e;
     vsepc := vsepc e;
     two_stage_lookup := t;
     pmp_state := p;
     fp_status := s |}.

Definition env_set_gpr (l : list Z) (e : CPURISCVState) : CPURISCVState :=
  env_rebuild l (fpr e) (two_stage_lookup e) (pmp_state e) (fp_status e) e.

Definition env_set_fpr (l : list Z) (e : CPURISCVState) : CPURISCVState :=
  env_rebuild (gpr e) l (two_stage_lookup e) (pmp_state e) (fp_status e) e.

Definition env_set_two_stage_lookup (b : bool) (e : CPURISCVState) :
    CPURISCVState :=
  env_rebuild (gpr e) (fpr e) b (pmp_state e) (fp_status e) e.

Definition env_set_pmp_state (t : pmp_table_t) (e : CPURISCVState) :
    CPURISCVState :=
  env_rebuild (gpr e) (fpr e) (two_stage_lookup e) t (fp_status e) e.

Definition env_set_fp_status (s : float_status) (e : CPURISCVState) :
    CPURISCVState :=
  env_rebuild (gpr e) (fpr e) (two_stage_lookup e) (pmp_state e) s e.

(** The generic [CPUState]: the field [cpu.c] writes, and two of those the
    reset of the parent class owns. *)
Record CPUState : Type := {
  exception_index : Z;
  interrupt_request : Z;
  halted : Z
}.

Definition cs_set_exception_index (v : Z) (cs : CPUState) : CPUState :=
  {| exception_index := v;
     interrupt_request := interrupt_request cs;
     halted := halted cs |}.

(** The properties of [riscv_cpu_properties]; an unset string property is
    a null pointer. *)
Record RISCVCPUConfig : Type := {
  ext_i : bool; ext_e : bool; ext_g : bool; ext_m : bool; ext_a : bool;
  ext_f : bool; ext_d : bool; ext_c : bool; ext_s : bool; ext_u : bool;
  ext_h : bool; ext_v : bool; ext_b : bool;
  ext_counters : bool; ext_ifencei : bool; ext_icsr : bool;
  priv_spec : option string;
  bext_spec : option string;
  vext_spec : option string;
  vlen : Z;                       (* uint16_t *)
  elen : Z;                       (* uint16_t *)
  mmu : bool;
  cfg_pmp : bool;                 (* cfg.pmp *)
  epmp : bool;
  cfg_resetvec : Z                (* cfg.resetvec *)
}.

Record RISCVCPU : Type := {
  parent_obj : CPUState;
  env : CPURISCVState;
  cfg : RISCVCPUConfig
}.

Definition cpu_set_env (e : CPURISCVState) (cpu : RISCVCPU) : RISCVCPU :=
  {| parent_obj := parent_obj cpu; env := e; cfg := cfg cpu |}.

Definition cpu_set_cfg (c : RISCVCPUConfig) (cpu : RISCVCPU) : RISCVCPU :=
  {| parent_obj := parent_obj cpu; env := env cpu; cfg := c |}.

(** The functions [cpu.c] calls that are defined elsewhere: the reset of
    the parent class, and the CSR accessors and the rule rebuild of [pmp.c],
    which read the hart state and write its PMP table only. *)
Class externals : Type := {
  parent_reset : CPUState -> CPUState;
  pmpaddr_csr_read : CPURISCVState -> nat -> Z;
  pmpcfg_csr_read : CPURISCVState -> nat -> Z;
  pmpaddr_csr_write : CPURISCVState -> nat -> Z -> pmp_table_t;
  pmpcfg_csr_write : CPURISCVState -> nat -> Z -> pmp_table_t;
  pmp_update_rule_addr : CPURISCVState -> nat -> pmp_table_t;
  pmp_update_rule_nums : CPURISCVState -> pmp_table_t
}.

(** ** Control flow: state threaded through fallible steps *)

(** A step runs on a state and ends in an error (the [goto end] of the
    loader, the [return] after [error_setg] of realize) or in a value. *)
Definition SE (St E A : Type) : Type := St -> St * (E + A).

#[global] Instance SE_ret {St E} : MRet (SE St E) :=
  fun A (a : A) (s : St) => (s, inr a).

#[global] Instance SE_bind {St E} : MBind (SE St E) :=
  fun A B (f : A -> SE St E B) (m : SE St E A) (s : St) =>
    match m s with
    | (s', inl e) => (s', inl e)
    | (s', inr a) => f a s'
    end.

Definition gets {St E A} (f : St -> A) : SE St E A :=
  fun s => (s, inr (f s)).

Definition modify {St E} (f : St -> St) : SE St E unit :=
  fun s => (f s, inr tt).

Definition throw {St E A} (e : E) : SE St E A :=
  fun s => (s, inl e).

(** [if (c) { m }] *)
Definition when {St E} (c : bool) (m : SE St E unit) : SE St E unit :=
  if c then m else mret tt.

(** [for (i = lo; i < lo + n; i++) { body }] *)
Fixpoint for_range {St E} (lo n : nat) (body : nat -> SE St E unit) :
    SE St E unit :=
  match n with
  | O => mret tt
  | S n' => body lo ;; for_range (S lo) n' body
  end.

(** ** target/riscv/cpu.c *)

Definition riscv_int_regnames : list string :=
  [ "x0/zero"; "x1/ra";  "x2/sp";  "x3/gp";  "x4/tp";  "x5/t0";   "x6/t1";
    "x7/t2";   "x8/s0";  "x9/s1";  "x10/a0"; "x11/a1"; "x12/a2";  "x13/a3";
    "x14/a4";  "x15/a5"; "x16/a6"; "x17/a7"; "x18/s2"; "x19/s3";  "x20/s4";
    "x21/s5";  "x22/s6"; "x23/s7"; "x24/s8"; "x25/s9"; "x26/s10"; "x27/s11";
    "x28/t3";  "x29/t4"; "x30/t5"; "x31/t6" ]%string.

Definition riscv_fpr_regnames : list string :=
  [ "f0/ft0";   "f1/ft1";  "f2/ft2";   "f3/ft3";   "f4/ft4";  "f5/ft5";
    "f6/ft6";   "f7/ft7";  "f8/fs0";   "f9/fs1";   "f10/fa0"; "f11/fa1";
    "f12/fa2";  "f13/fa3"; "f14/fa4";  "f15/fa5";  "f16/fa6"; "f17/fa7";
    "f18/fs2";  "f19/fs3"; "f20/fs4";  "f21/fs5";  "f22/fs6"; "f23/fs7";
    "f24/fs8";  "f25/fs9"; "f26/fs10"; "f27/fs11"; "f28/ft8"; "f29/ft9";
    "f30/ft10"; "f31/ft11" ]%string.

Definition FILE_LINE_MAX : nat := 100.

(** The line feed the C sources write as a backslash followed by n. *)
Definition nl : string := String Text.LF "".

(** An element of a register array or of a name table. *)
Definition elt {A} (d : A) (l : list A) (i : nat) : A := default d (l !! i).

(** Modelled from the spec: [is_power_of_2] of [qemu/host-utils.h] is not
    among the sources; the specification asks for a power of two. *)
Definition is_power_of_2 (value : Z) : bool :=
  (0 <? value) && (value =? 2 ^ Z.log2 value).

Section cpu.

Context `{!cpu_bits} `{!externals}.

Definition riscv_cpu_is_32bit (e : CPURISCVState) : bool :=
  if Z.land (misa e) RV64 =? 0 then true else false.

Definition set_misa (m : Z) (e : CPURISCVState) : CPURISCVState :=
  env_set MISA_MASK m (env_set MISA m e).

Definition set_priv_version (priv_ver : Z) (e : CPURISCVState) :
    CPURISCVState :=
  env_set PRIV_VER priv_ver e.

Definition set_bext_version (bext_ver : Z) (e : CPURISCVState) :
    CPURISCVState :=
  env_set BEXT_VER bext_ver e.

Definition set_vext_version (vext_ver : Z) (e : CPURISCVState) :
    CPURISCVState :=
  env_set VEXT_VER vext_ver e.

(** [env->features |= (1ULL << feature)], stored into a [uint32_t]. *)
Definition set_feature (feature : Z) (e : CPURISCVState) : CPURISCVState :=
  env_set FEATURES
    (Int.to_u32 (Z.lor (features e) (Z.shiftl 1 feature))) e.

Definition set_resetvec (rv : Z) (e : CPURISCVState) : CPURISCVState :=
  env_set RESETVEC rv e.

(** The instance initialisers of the 64-bit CPU models; [mmu] is the
    property [qdev_prop_set_bit] clears. *)
Definition cfg_set_mmu (b : bool) (c : RISCVCPUConfig) : RISCVCPUConfig :=
  {| ext_i := ext_i c; ext_e := ext_e c; ext_g := ext_g c; ext_m := ext_m c;
     ext_a := ext_a c; ext_f := ext_f c; ext_d := ext_d c; ext_c := ext_c c;
     ext_s := ext_s c; ext_u := ext_u c; ext_h := ext_h c; ext_v := ext_v c;
     ext_b := ext_b c; ext_counters := ext_counters c;
     ext_ifencei := ext_ifencei c; ext_icsr := ext_icsr c;
     priv_spec := priv_spec c; bext_spec := bext_spec c;
     vext_spec := vext_spec c; vlen := vlen c; elen := elen c;
     mmu := b; cfg_pmp := cfg_pmp c; epmp := epmp c;
     cfg_resetvec := cfg_resetvec c |}.

Definition riscv_any_cpu_init (cpu : RISCVCPU) : RISCVCPU :=
  cpu_set_env
    (set_priv_version PRIV_VERSION_1_11_0
       (set_misa
          (Z.lor RV64 (Z.lor RVI (Z.lor RVM (Z.lor RVA (Z.lor RVF
             (Z.lor RVD (Z.lor RVC RVU)))))))
          (env cpu)))
    cpu.

Definition rv64_base_cpu_init (cpu : RISCVCPU) : RISCVCPU :=
  cpu_set_env (set_misa RV64 (env cpu)) cpu.

Definition rv64_sifive_u_cpu_init (cpu : RISCVCPU) : RISCVCPU :=
  cpu_set_env
    (set_priv_version PRIV_VERSION_1_10_0
       (set_misa
          (Z.lor RV64 (Z.lor RVI (Z.lor RVM (Z.lor RVA (Z.lor RVF
             (Z.lor RVD (Z.lor RVC (Z.lor RVS RVU))))))))
          (env cpu)))
    cpu.

Definition rv64_sifive_e_cpu_init (cpu : RISCVCPU) : RISCVCPU :=
  cpu_set_cfg (cfg_set_mmu false (cfg cpu))
    (cpu_set_env
       (set_priv_version PRIV_VERSION_1_10_0
          (set_misa
             (Z.lor RV64 (Z.lor RVI (Z.lor RVM (Z.lor RVA (Z.lor RVC RVU)))))
             (env cpu)))
       cpu).

(** *** The state dump

    [riscv_cpu_dump_state] first prints to the stream it is given, then
    (under [DUMP_CPU_MIGRATE]) writes the snapshot file; the embedding is the
    content of that file. *)

(** [fprintf(fp, " %s " TARGET_FMT_lx "\n", name, v)] *)
Definition fprintf_lx (name : string) (v : Z) : string :=
  " " +:+ name +:+ " " +:+ Text.fmt_016lx v +:+ nl.

(** [fprintf(fp, " %s " "%x" "\n", name, v)] *)
Definition fprintf_x (name : string) (v : Z) : string :=
  " " +:+ name +:+ " " +:+ Text.fmt_x v +:+ nl.

(** [fprintf(fp, "%s_%d " TARGET_FMT_lx "\n", name, i, v)] *)
Definition fprintf_pmp (name : string) (i : nat) (v : Z) : string :=
  name +:+ "_" +:+ Text.fmt_d (Z.of_nat i) +:+ " " +:+ Text.fmt_016lx v +:+ nl.

(** The text a [for] loop writes. *)
Definition fprintf_for (lo n : nat) (line : nat -> string) : string :=
  String.concat "" (map line (seq lo n)).

Definition riscv_cpu_dump_state (cpu : RISCVCPU) : string :=
  let e := env cpu in
  fprintf_lx "pc      " (pc e) +:+
  fprintf_lx "mhartid " (mhartid e) +:+
  fprintf_lx "mstatus " (mstatus e) +:+
  fprintf_lx "mip     " (mip e) +:+
  fprintf_lx "mie     " (mie e) +:+
  fprintf_lx "mideleg " (mideleg e) +:+
  fprintf_lx "medeleg " (medeleg e) +:+
  fprintf_lx "mtvec   " (mtvec e) +:+
  fprintf_lx "stvec   " (stvec e) +:+
  fprintf_lx "mepc    " (mepc e) +:+
  fprintf_lx "sepc    " (sepc e) +:+
  fprintf_lx "mcause  " (mcause e) +:+
  fprintf_lx "scause  " (scause e) +:+
  fprintf_lx "mtval   " (mtval e) +:+
  fprintf_lx "stval   " (stval e) +:+
  fprintf_lx "mscratch" (mscratch e) +:+
  fprintf_lx "sscratch" (sscratch e) +:+
  fprintf_lx "satp    " (satp e) +:+
  fprintf_lx "load_res" (load_res e) +:+
  fprintf_lx "load_val" (load_val e) +:+
  fprintf_lx "frm     " (frm e) +:+
  fprintf_lx "badaddr " (badaddr e) +:+
  fprintf_lx "guest_phys_fault_addr" (guest_phys_fault_addr e) +:+
  fprintf_lx "priv_ver  " (priv_ver e) +:+
  fprintf_lx "vext_ver  " (vext_ver e) +:+
  fprintf_lx "misa      " (misa e) +:+
  fprintf_lx "misa_mask " (misa_mask e) +:+
  fprintf_x "features  " (features e) +:+
  fprintf_lx "priv      " (priv e) +:+
  fprintf_lx "virt      " (virt e) +:+
  fprintf_lx "resetvec  " (resetvec e) +:+
  fprintf_lx "scounteren   " (scounteren e) +:+
  fprintf_lx "mcounteren  " (mcounteren e) +:+
  fprintf_lx "mfromhost " (mfromhost e) +:+
  fprintf_lx "mtohost   " (mtohost e) +:+
  fprintf_lx "timecmp   " (timecmp e) +:+
  (if riscv_cpu_is_32bit e
   then fprintf_lx "mstatush " (Z.shiftr (mstatus e) 32)
   else "") +:+
  fprintf_for 0 32 (fun i =>
    fprintf_lx (elt "" riscv_int_regnames i) (elt 0 (gpr e) i)) +:+
  fprintf_for 0 32 (fun i =>
    fprintf_lx (elt "" riscv_fpr_regnames i) (elt 0 (fpr e) i)) +:+
  (if cfg_pmp (cfg cpu)
   then
     fprintf_for 0 MAX_RISCV_PMPS (fun i =>
       fprintf_pmp "pmpaddr" i (pmpaddr_csr_read e i)) +:+
     fprintf_for 0 (MAX_RISCV_PMPS / 4) (fun i =>
       fprintf_pmp "pmpcfg" i (pmpcfg_csr_read e i))
   else "").

(** *** The state loader *)

(** The hart being restored, the rest of the stream opened on the file, and
    the line buffer [str_line]. *)
Record loader : Type := {
  ld_cpu : RISCVCPU;
  ld_fp : string;
  ld_str_line : string
}.

Definition ld_set_env (f : CPURISCVState -> CPURISCVState) : loader -> loader :=
  fun s =>
    {| ld_cpu := cpu_set_env (f (env (ld_cpu s))) (ld_cpu s);
       ld_fp := ld_fp s;
       ld_str_line := ld_str_line s |}.

(** [flag = fgets(str_line, FILE_LINE_MAX, fp)]; [flag] is never read. *)
Definition ld_fgets : SE loader string unit :=
  modify (fun s =>
    let '(line, rest) := Text.fgets FILE_LINE_MAX (ld_str_line s) (ld_fp s) in
    {| ld_cpu := ld_cpu s; ld_fp := rest; ld_str_line := line |}).

(** [error_printf("Error: failed to read <what>\n"); goto end;] *)
Definition failed_to_read {A} (what : string) : SE loader string A :=
  throw ("Error: failed to read " +:+ what +:+ nl).

(** One scalar record: a line is read, and the field is stored when
    [sscanf] reports one conversion. *)
Definition load_scalar (fmt : string) (dst : field) (what : string) :
    SE loader string unit :=
  ld_fgets ;;
  str_line ← gets ld_str_line;
  match Text.sscanf str_line fmt with
  | [Text.V_int v] => modify (ld_set_env (env_set dst v))
  | _ => failed_to_read what
  end.

(** One record of a register array, read with ["%s %lx"]: the name goes to
    the local buffer [reg], the value to element [i]. *)
Definition load_reg (set : list Z -> CPURISCVState -> CPURISCVState)
    (get : CPURISCVState -> list Z) (array : string) (i : nat) :
    SE loader string unit :=
  ld_fgets ;;
  str_line ← gets ld_str_line;
  match Text.sscanf str_line "%s %lx" with
  | [Text.V_str reg; Text.V_int v] =>
      modify (ld_set_env (fun e => set (<[i := v]> (get e)) e))
  | _ =>
      failed_to_read (array +:+ "[" +:+ Text.fmt_d (Z.of_nat i) +:+ "]")
  end.

(** One PMP record: the index read into [j] is not used, the value read
    into [tmp] is written through the CSR accessor of entry [i]. *)
Definition load_pmp (fmt : string)
    (csr_write : CPURISCVState -> nat -> Z -> pmp_table_t)
    (array : string) (i : nat) : SE loader string unit :=
  ld_fgets ;;
  str_line ← gets ld_str_line;
  match Text.sscanf str_line fmt with
  | [Text.V_int j; Text.V_int tmp] =>
      modify (ld_set_env (fun e => env_set_pmp_state (csr_write e i tmp) e))
  | _ =>
      failed_to_read (array +:+ "[" +:+ Text.fmt_d (Z.of_nat i) +:+ "]")
  end.

(** [memset(&env->pmp_state, 0, sizeof(env->pmp_state))] *)
Definition pmp_state_zero : pmp_table_t :=
  {| pmp := replicate MAX_RISCV_PMPS {| addr_reg := 0; cfg_reg := 0 |};
     addr := replicate MAX_RISCV_PMPS {| sa := 0; ea := 0 |};
     num_rules := 0 |}.

Definition load_state_records : SE loader string unit :=
  load_scalar "pc %lx" PC "pc" ;;
  load_scalar "mhartid %lx" MHARTID "mhartid" ;;
  load_scalar "mstatus %lx" MSTATUS "mstatus" ;;
  load_scalar "mip %lx" MIP "mip" ;;
  load_scalar "mie %lx" MIE "mie" ;;
  load_scalar "mideleg %lx" MIDELEG "mideleg" ;;
  load_scalar "medeleg %lx" MEDELEG "medeleg" ;;
  load_scalar "mtvec %lx" MTVEC "mtvec" ;;
  load_scalar "stvec %lx" STVEC "stvec" ;;
  load_scalar "mepc %lx" MEPC "mepc" ;;
  load_scalar "sepc %lx" SEPC "sepc" ;;
  load_scalar "mcause %lx" MCAUSE "mcause" ;;
  load_scalar "scause %lx" SCAUSE "scause" ;;
  load_scalar "mtval %lx" MTVAL "mtval" ;;
  load_scalar "stval %lx" STVAL "stval" ;;
  load_scalar "mscratch %lx" MSCRATCH "mscratch" ;;
  load_scalar "sscratch %lx" SSCRATCH "sscratch" ;;
  load_scalar "satp %lx" SATP "satp" ;;
  load_scalar "load_res %lx" LOAD_RES "load_res" ;;
  load_scalar "load_val %lx" LOAD_VAL "load_val" ;;
  load_scalar "frm %lx" FRM "frm" ;;
  load_scalar "badaddr %lx" BADADDR "badaddr" ;;
  load_scalar "guest_phys_fault_addr %lx" GUEST_PHYS_FAULT_ADDR
    "guest_phys_fault_addr" ;;
  load_scalar "priv_ver %lx" PRIV_VER "priv_ver" ;;
  load_scalar "vext_ver %lx" VEXT_VER "vext_ver" ;;
  load_scalar "misa %lx" MISA "misa" ;;
  load_scalar "misa_mask %lx" MISA_MASK "misa_mask" ;;
  load_scalar "features %x" FEATURES "features" ;;
  load_scalar "priv %lx" PRIV "priv" ;;
  load_scalar "virt %lx" VIRT "virt" ;;
  load_scalar "resetvec %lx" RESETVEC "resetvec" ;;
  load_scalar "scounteren %lx" SCOUNTEREN "scounteren" ;;
  load_scalar "mcounteren %lx" MCOUNTEREN "mcounteren" ;;
  load_scalar "mfromhost %lx" MFROMHOST "mfromhost" ;;
  load_scalar "mtohost %lx" MTOHOST "mtohost" ;;
  load_scalar "timecmp %lx" TIMECMP "timecmp" ;;
  is_32bit ← gets (fun s => riscv_cpu_is_32bit (env (ld_cpu s)));
  when is_32bit (load_scalar "mstatush %lx" MSTATUS "mstatush") ;;
  for_range 0 32 (load_reg env_set_gpr gpr "gpr") ;;
  for_range 0 32 (load_reg env_set_fpr fpr "fpr") ;;
  has_pmp ← gets (fun s => cfg_pmp (cfg (ld_cpu s)));
  when has_pmp (
    modify (ld_set_env (env_set_pmp_state pmp_state_zero)) ;;
    for_range 0 MAX_RISCV_PMPS
      (load_pmp "pmpaddr_%d %lx" pmpaddr_csr_write "pmpaddr") ;;
    for_range 0 (MAX_RISCV_PMPS / 4)
      (load_pmp "pmpcfg_%d %lx" pmpcfg_csr_write "pmpcfg") ;;
    for_range 0 MAX_RISCV_PMPS (fun i =>
      modify (ld_set_env (fun e =>
        env_set_pmp_state (pmp_update_rule_addr e i) e))) ;;
    modify (ld_set_env (fun e =>
      env_set_pmp_state (pmp_update_rule_nums e) e))).

(** [riscv_cpu_load_state(cs, filename)]: [file] is the content of the file
    opened on [filename] and [buf] what the uninitialised array [str_line]
    holds on entry.  The result is the hart as the call leaves it and the
    message handed to [error_printf], if any.  The echo of every record to
    the second file [out] is not part of the embedding. *)
Definition riscv_cpu_load_state (cpu : RISCVCPU) (file buf : string) :
    RISCVCPU * option string :=
  match load_state_records
          {| ld_cpu := cpu; ld_fp := file; ld_str_line := buf |} with
  | (s, inl msg) => (ld_cpu s, Some msg)
  | (s, inr _) => (ld_cpu s, None)
  end.

Definition riscv_cpu_set_pc (cpu : RISCVCPU) (value : Z) : RISCVCPU :=
  cpu_set_env (env_set PC value (env cpu)) cpu.

Definition riscv_cpu_has_work (cpu : RISCVCPU) : bool :=
  negb (Z.land (mip (env cpu)) (mie (env cpu)) =? 0).

(** *** Reset *)

Definition riscv_cpu_reset (cpu : RISCVCPU) : RISCVCPU :=
  (* mcc->parent_reset(dev) *)
  let cs := parent_reset (parent_obj cpu) in
  let e := env cpu in
  let e := env_set PRIV PRV_M e in
  let e :=
    env_set MSTATUS
      (Z.land (mstatus e) (Z.lnot (Z.lor MSTATUS_MIE MSTATUS_MPRV))) e in
  let e := env_set MCAUSE 0 e in
  let e := env_set PC (resetvec e) e in
  let e := env_set_two_stage_lookup false e in
  let e := env_set SATP 0 e in
  let e := env_set SCAUSE 0 e in
  let e := env_set SEPC 0 e in
  let e := env_set STVEC 0 e in
  let e := env_set MCAUSE 0 e in
  let e := env_set MEPC 0 e in
  let e := env_set MTVEC 0 e in
  let e := env_set_pmp_state pmp_state_zero e in
  let cs := cs_set_exception_index RISCV_EXCP_NONE cs in
  let e := env_set LOAD_RES (Int.to_u64 (-1)) e in
  let e := env_set_fp_status (set_default_nan_mode true (fp_status e)) e in
  {| parent_obj := cs; env := e; cfg := cfg cpu |}.

(** *** Realize *)

(** The errors [riscv_cpu_realize] reports through [errp]. *)
Inductive Error : Type :=
| E_exec_realize (e : string)   (* propagated from cpu_exec_realizefn *)
| E_priv_spec (s : string)      (* Unsupported privilege spec version '%s' *)
| E_ie_incompatible             (* I and E extensions are incompatible *)
| E_ie_missing                  (* Either I or E extension must be set *)
| E_bext_spec (s : string)      (* Unsupported bitmanip spec version '%s' *)
| E_vlen_pow2                   (* Vector extension VLEN must be power of 2 *)
| E_vlen_range                  (* ... only supports VLEN in the range [128, %d] *)
| E_elen_pow2                   (* Vector extension ELEN must be power of 2 *)
| E_elen_range                  (* ... only supports ELEN in the range [8, 64] *)
| E_vext_spec (s : string).     (* Unsupported vector spec version '%s' *)

(** The diagnostics that are not errors. *)
Inductive diag : Type :=
| warn_report (msg : string)
| qemu_log (msg : string).

Record realizing : Type := {
  rz_cpu : RISCVCPU;
  rz_log : list diag
}.

Definition rz_env (s : realizing) : CPURISCVState := env (rz_cpu s).
Definition rz_cfg (s : realizing) : RISCVCPUConfig := cfg (rz_cpu s).

Definition rz_set_env (f : CPURISCVState -> CPURISCVState) :
    SE realizing Error unit :=
  modify (fun s =>
    {| rz_cpu := cpu_set_env (f (rz_env s)) (rz_cpu s); rz_log := rz_log s |}).

Definition rz_set_cfg (f : RISCVCPUConfig -> RISCVCPUConfig) :
    SE realizing Error unit :=
  modify (fun s =>
    {| rz_cpu := cpu_set_cfg (f (rz_cfg s)) (rz_cpu s); rz_log := rz_log s |}).

Definition rz_diag (d : diag) : SE realizing Error unit :=
  modify (fun s => {| rz_cpu := rz_cpu s; rz_log := rz_log s ++ [d] |}).

(** [error_setg(errp, ...); return;] *)
Definition error_setg {A} (e : Error) : SE realizing Error A := throw e.

(** [cpu->cfg.ext_i = true; ... cpu->cfg.ext_d = true;] *)
Definition cfg_set_imafd (c : RISCVCPUConfig) : RISCVCPUConfig :=
  {| ext_i := true; ext_e := ext_e c; ext_g := ext_g c; ext_m := true;
     ext_a := true; ext_f := true; ext_d := true; ext_c := ext_c c;
     ext_s := ext_s c; ext_u := ext_u c; ext_h := ext_h c; ext_v := ext_v c;
     ext_b := ext_b c; ext_counters := ext_counters c;
     ext_ifencei := ext_ifencei c; ext_icsr := ext_icsr c;
     priv_spec := priv_spec c; bext_spec := bext_spec c;
     vext_spec := vext_spec c; vlen := vlen c; elen := elen c;
     mmu := mmu c; cfg_pmp := cfg_pmp c; epmp := epmp c;
     cfg_resetvec := cfg_resetvec c |}.

(** [if (flag) { target_misa |= bit; }] *)
Definition misa_or (flag : bool) (bit target_misa : Z) : Z :=
  if flag then Z.lor target_misa bit else target_misa.

(** The block guarded by [env->misa == RV32 || env->misa == RV64]. *)
Definition realize_misa_from_properties (target_misa bext_version
    vext_version : Z) : SE realizing Error unit :=
  (* Do some ISA extension error checking *)
  c ← gets rz_cfg;
  (if ext_i c && ext_e c then error_setg E_ie_incompatible else mret tt) ;;
  (if negb (ext_i c) && negb (ext_e c)
   then error_setg E_ie_missing else mret tt) ;;
  when (ext_g c &&
        negb (ext_i c && ext_m c && ext_a c && ext_f c && ext_d c))
    (rz_diag (warn_report "Setting G will also set IMAFD") ;;
     rz_set_cfg cfg_set_imafd) ;;
  (* Set the ISA extensions, checks should have happened above *)
  c ← gets rz_cfg;
  let target_misa := misa_or (ext_i c) RVI target_misa in
  let target_misa := misa_or (ext_e c) RVE target_misa in
  let target_misa := misa_or (ext_m c) RVM target_misa in
  let target_misa := misa_or (ext_a c) RVA target_misa in
  let target_misa := misa_or (ext_f c) RVF target_misa in
  let target_misa := misa_or (ext_d c) RVD target_misa in
  let target_misa := misa_or (ext_c c) RVC target_misa in
  let target_misa := misa_or (ext_s c) RVS target_misa in
  let target_misa := misa_or (ext_u c) RVU target_misa in
  let target_misa := misa_or (ext_h c) RVH target_misa in
  let target_misa := misa_or (ext_b c) RVB target_misa in
  when (ext_b c)
    (bext_version ←
       match bext_spec c with
       | Some s =>
           if String.eqb s "v0.93" then mret BEXT_VERSION_0_93_0
           else error_setg (E_bext_spec s)
       | None =>
           rz_diag (qemu_log
             "bitmanip version is not specified, use the default value v0.93") ;;
           mret bext_version
       end;
     rz_set_env (set_bext_version bext_version)) ;;
  let target_misa := misa_or (ext_v c) RVV target_misa in
  when (ext_v c)
    ((if negb (is_power_of_2 (vlen c))
      then error_setg E_vlen_pow2 else mret tt) ;;
     (if (RV_VLEN_MAX <? vlen c) || (vlen c <? 128)
      then error_setg E_vlen_range else mret tt) ;;
     (if negb (is_power_of_2 (elen c))
      then error_setg E_elen_pow2 else mret tt) ;;
     (if (64 <? elen c) || (vlen c <? 8)
      then error_setg E_elen_range else mret tt) ;;
     vext_version ←
       match vext_spec c with
       | Some s =>
           if String.eqb s "v0.7.1" then mret VEXT_VERSION_0_07_1
           else error_setg (E_vext_spec s)
       | None =>
           rz_diag (qemu_log
             "vector version is not specified, use the default value v0.7.1") ;;
           mret vext_version
       end;
     rz_set_env (set_vext_version vext_version)) ;;
  rz_set_env (set_misa target_misa).

(** Modelled from the spec: [cpu_reset] of the core runs the reset handler
    the class registers in [riscv_cpu_class_init], [riscv_cpu_reset]; it is
    the reset operation of the hart life cycle. *)
Definition cpu_reset (cpu : RISCVCPU) : RISCVCPU := riscv_cpu_reset cpu.

(** [riscv_cpu_realize(dev, errp)]; [local_err] is what
    [cpu_exec_realizefn] leaves in it.  The registration of the gdb
    registers, [qemu_init_vcpu] and the realize of the parent class, which
    follow the reset, act outside the modelled state. *)
Definition realize_steps (local_err : option string) :
    SE realizing Error unit :=
  e0 ← gets rz_env;
  let priv_version := PRIV_VERSION_1_11_0 in
  let bext_version := BEXT_VERSION_0_93_0 in
  let vext_version := VEXT_VERSION_0_07_1 in
  let target_misa := misa e0 in
  match local_err with
  | Some err => error_setg (E_exec_realize err)   (* error_propagate *)
  | None => mret tt
  end ;;
  c ← gets rz_cfg;
  priv_version ←
    match priv_spec c with
    | Some s =>
        if String.eqb s "v1.11.0" then mret PRIV_VERSION_1_11_0
        else if String.eqb s "v1.10.0" then mret PRIV_VERSION_1_10_0
        else error_setg (E_priv_spec s)
    | None => mret priv_version
    end;
  rz_set_env (set_priv_version priv_version) ;;
  rz_set_env (set_bext_version bext_version) ;;
  rz_set_env (set_vext_version vext_version) ;;
  when (mmu c) (rz_set_env (set_feature RISCV_FEATURE_MMU)) ;;
  when (cfg_pmp c)
    (rz_set_env (set_feature RISCV_FEATURE_PMP) ;;
     (* Enhanced PMP should only be available on harts with PMP support *)
     when (epmp c) (rz_set_env (set_feature RISCV_FEATURE_EPMP))) ;;
  rz_set_env (set_resetvec (cfg_resetvec c)) ;;
  (* If only XLEN is set for misa, then set misa from properties *)
  e ← gets rz_env;
  when ((misa e =? RV32) || (misa e =? RV64))
    (realize_misa_from_properties target_misa bext_version vext_version) ;;
  modify (fun s => {| rz_cpu := cpu_reset (rz_cpu s); rz_log := rz_log s |}).

(** The hart as realize leaves it, the error set in [errp] if any, and the
    diagnostics. *)
Definition riscv_cpu_realize (cpu : RISCVCPU) (local_err : option string) :
    RISCVCPU * option Error * list diag :=
  match realize_steps local_err {| rz_cpu := cpu; rz_log := [] |} with
  | (s, inl err) => (rz_cpu s, Some err, rz_log s)
  | (s, inr _) => (rz_cpu s, None, rz_log s)
  end.

End cpu.

(** ** hw/cpu/sifive_d_reset.c *)

Definition FINISHER_FAIL : Z := 0x3333.
Definition FINISHER_PASS : Z := 0x5555.
Definition FINISHER_RESET : Z := 0x7777.

Inductive ShutdownCause : Type := SHUTDOWN_CAUSE_GUEST_RESET.

(** The machine around the reset unit: its harts, in the order of their
    CPU index, the pending requests for a reset of the whole system, and
    the guest errors logged. *)
Record Machine : Type := {
  cpus : list RISCVCPU;
  reset_requests : list ShutdownCause;
  guest_errors : list (Z * Z)
}.

(** Modelled from the spec: [qemu_get_cpu] looks a hart up in the registry
    by its index; the result is null when no hart has that index. *)
Definition qemu_get_cpu (m : Machine) (index : Z) : option RISCVCPU :=
  if index <? 0 then None else cpus m !! Z.to_nat index.

Definition qemu_system_reset_request (reason : ShutdownCause) (m : Machine) :
    Machine :=
  {| cpus := cpus m;
     reset_requests := reset_requests m ++ [reason];
     guest_errors := guest_errors m |}.

(** The hart of index [index] replaced: how a write through the pointer
    [qemu_get_cpu] returned shows in the registry. *)
Definition machine_set_cpu (index : Z) (cpu : RISCVCPU) (m : Machine) :
    Machine :=
  {| cpus := <[Z.to_nat index := cpu]> (cpus m);
     reset_requests := reset_requests m;
     guest_errors := guest_errors m |}.

Definition log_guest_error (addr val64 : Z) (m : Machine) : Machine :=
  {| cpus := cpus m;
     reset_requests := reset_requests m;
     guest_errors := guest_errors m ++ [(addr, val64)] |}.

(** How a write ends: the process exits, the call returns, or it goes
    through a null hart pointer. *)
Inductive outcome : Type :=
| Exit (status : Z)
| Return (m : Machine)
| NullDereference.

(** Modelled from the C library: [exit(status)] ends the process, and the
    exit code the process terminates with, the one its parent is given, is
    [status & 0377]. *)
Definition exit_code (status : Z) : Z := Z.land status 0xff.

(** The exit code a write ends the process with, when it ends it. *)
Definition process_exit_code (o : outcome) : option Z :=
  match o with
  | Exit status => Some (exit_code status)
  | Return _ => None
  | NullDereference => None
  end.

Section d_reset.

Context `{!cpu_bits} `{!externals}.

(** Modelled from the spec: after a reset the copy of the hart state the
    execution engine caches is synchronised; the modelled state is the
    hart's own, which this leaves as it is. *)
Definition cpu_synchronize_post_reset (cpu : RISCVCPU) : RISCVCPU := cpu.

Definition d_reset_read (m : Machine) (addr : Z) (size : Z) : Z := 0.

(** [addr] is the [hwaddr] offset into the window and [val64] the value
    written, both 64-bit unsigned. *)
Definition d_reset_write (m : Machine) (addr val64 : Z) (size : Z) :
    outcome :=
  let system_wide := if addr =? 0 then true else false in
  let hartid := Int.to_int (Z.shiftr addr 2) in
  let cpu := qemu_get_cpu m hartid in
  let status := Int.to_int (Z.land val64 0xffff) in
  let code := Int.to_int (Z.land (Z.shiftr val64 16) 0xffff) in
  if status =? FINISHER_FAIL then Exit code
  else if status =? FINISHER_PASS then Exit 0
  else if status =? FINISHER_RESET then
    if system_wide
    then Return (qemu_system_reset_request SHUTDOWN_CAUSE_GUEST_RESET m)
    else
      match cpu with
      | Some c =>
          Return (machine_set_cpu hartid
                    (cpu_synchronize_post_reset (cpu_reset c)) m)
      | None => NullDereference
      end
  else Return (log_guest_error addr val64 m).

End d_reset.

(** ** The upstream values of the parameters

    The closed examples below are evaluated at the values the headers give
    on the 64-bit target. *)

(** [RV(x)]: the bit of the letter [x] in [misa]. *)
Definition RV (letter : ascii) : Z :=
  Z.shiftl 1 (Text.code letter - Text.code "A").

#[global] Instance riscv64_bits : cpu_bits := {|
  RV32 := Z.shiftl 1 62;
  RV64 := Z.shiftl 2 62;
  RVI := RV "I"; RVE := RV "E"; RVM := RV "M"; RVA := RV "A";
  RVF := RV "F"; RVD := RV "D"; RVC := RV "C"; RVS := RV "S";
  RVU := RV "U"; RVH := RV "H"; RVB := RV "B"; RVV := RV "V";
  PRV_M := 3;
  MSTATUS_MIE := 0x00000008;
  MSTATUS_MPRV := 0x00020000;
  RISCV_EXCP_NONE := -1;
  MAX_RISCV_PMPS := 16;
  RV_VLEN_MAX := 256;
  PRIV_VERSION_1_10_0 := 0x00011000;
  PRIV_VERSION_1_11_0 := 0x00011100;
  BEXT_VERSION_0_93_0 := 0x00009300;
  VEXT_VERSION_0_07_1 := 0x00000701;
  RISCV_FEATURE_MMU := 0;
  RISCV_FEATURE_PMP := 1;
  RISCV_FEATURE_EPMP := 2;
  DEFAULT_RSTVEC := 0x1000
|}.

Module Pmp.

(** Modelled from the spec: the PMP unit of [pmp.c], without its lock
    rules.  The CSR accessors read and write the raw address and
    configuration fields (eight configuration bytes to a 64-bit register,
    the odd registers being absent); the match range of a rule and the rule
    count are functions of those fields alone. *)

Definition entry (t : pmp_table_t) (i : nat) : pmp_entry_t :=
  default {| addr_reg := 0; cfg_reg := 0 |} (pmp t !! i).

Definition get_a_field (cfg : Z) : Z := Z.land (Z.shiftr cfg 3) 3.

(** The number of low bits of [a] that are set ([ctz64] of its
    complement). *)
Fixpoint trailing_ones (fuel : nat) (a : Z) : Z :=
  match fuel with
  | O => 0
  | S fuel' => if Z.odd a then 1 + trailing_ones fuel' (Z.shiftr a 1) else 0
  end.

Definition decode_napot (a : Z) : pmp_addr_t :=
  if a =? Int.ULONG_MAX then {| sa := 0; ea := Int.ULONG_MAX |}
  else
    let t1 := trailing_ones 64 a in
    let base := Int.to_u64 (Z.shiftl (Z.shiftl (Z.shiftr a t1) t1) 2) in
    let range := Z.shiftl 1 (t1 + 3) - 1 in
    {| sa := base; ea := Int.to_u64 (base + range) |}.

Definition rule_addr (t : pmp_table_t) (i : nat) : pmp_addr_t :=
  let this_addr := addr_reg (entry t i) in
  let prev_addr :=
    match i with O => 0 | S j => addr_reg (entry t j) end in
  let a := get_a_field (cfg_reg (entry t i)) in
  if a =? 0 then {| sa := 0; ea := Int.ULONG_MAX |}
  else if a =? 1 then
    {| sa := Int.to_u64 (Z.shiftl prev_addr 2);
       ea := Int.to_u64 (Z.shiftl this_addr 2 - 1) |}
  else if a =? 2 then
    {| sa := Int.to_u64 (Z.shiftl this_addr 2);
       ea := Int.to_u64 (Z.shiftl this_addr 2 + 3) |}
  else decode_napot this_addr.

Definition update_rule_addr (t : pmp_table_t) (i : nat) : pmp_table_t :=
  {| pmp := pmp t;
     addr := <[i := rule_addr t i]> (addr t);
     num_rules := num_rules t |}.

Definition update_rule_nums (t : pmp_table_t) : pmp_table_t :=
  {| pmp := pmp t;
     addr := addr t;
     num_rules :=
       Z.of_nat (length (filter (fun p => negb (get_a_field (cfg_reg p) =? 0))
                           (pmp t))) |}.

Definition update_rule (t : pmp_table_t) (i : nat) : pmp_table_t :=
  update_rule_nums (update_rule_addr t i).

Definition addr_read (t : pmp_table_t) (i : nat) : Z := addr_reg (entry t i).

Definition addr_write (t : pmp_table_t) (i : nat) (val : Z) : pmp_table_t :=
  update_rule
    {| pmp := <[i := {| addr_reg := val; cfg_reg := cfg_reg (entry t i) |}]>
                (pmp t);
       addr := addr t;
       num_rules := num_rules t |} i.

Definition write_cfg (t : pmp_table_t) (i : nat) (val : Z) : pmp_table_t :=
  update_rule
    {| pmp := <[i := {| addr_reg := addr_reg (entry t i); cfg_reg := val |}]>
                (pmp t);
       addr := addr t;
       num_rules := num_rules t |} i.

Definition cfg_read (t : pmp_table_t) (reg_index : nat) : Z :=
  fold_right (fun i acc =>
      Z.lor acc
        (Z.shiftl (cfg_reg (entry t (reg_index * 4 + i))) (8 * Z.of_nat i)))
    0 (seq 0 8).

Definition cfg_write (t : pmp_table_t) (reg_index : nat) (val : Z) :
    pmp_table_t :=
  if Nat.odd reg_index then t
  else
    fold_left (fun t' i =>
        write_cfg t' (reg_index * 4 + i)
          (Z.land (Z.shiftr val (8 * Z.of_nat i)) 0xff))
      (seq 0 8) t.

End Pmp.

(** Modelled from the spec: the reset of the parent class clears the
    pending-exception index and the interrupt requests of the generic
    state. *)
Definition cpu_common_reset (cs : CPUState) : CPUState :=
  {| exception_index := -1; interrupt_request := 0; halted := halted cs |}.

#[global] Instance upstream : externals := {|
  parent_reset := cpu_common_reset;
  pmpaddr_csr_read := fun e i => Pmp.addr_read (pmp_state e) i;
  pmpcfg_csr_read := fun e i => Pmp.cfg_read (pmp_state e) i;
  pmpaddr_csr_write := fun e i v => Pmp.addr_write (pmp_state e) i v;
  pmpcfg_csr_write := fun e i v => Pmp.cfg_write (pmp_state e) i v;
  pmp_update_rule_addr := fun e i => Pmp.update_rule_addr (pmp_state e) i;
  pmp_update_rule_nums := fun e => Pmp.update_rule_nums (pmp_state e)
|}.

(** A hart object as it is allocated: every field zero. *)
Definition env_zero : CPURISCVState :=
  {| gpr := replicate 32 0; fpr := replicate 32 0;
     pc := 0; load_res := 0; load_val := 0; frm := 0; badaddr := 0;
     guest_phys_fault_addr := 0; priv_ver := 0; bext_ver := 0; vext_ver := 0;
     misa := 0; misa_mask := 0; features := 0; priv := 0; virt := 0;
     resetvec := 0; mhartid := 0; mstatus := 0; mip := 0; mie := 0;
     mideleg := 0; medeleg := 0; mtvec := 0; stvec := 0; mepc := 0; sepc := 0;
     mcause := 0; scause := 0; mtval := 0; stval := 0; mscratch := 0;
     sscratch := 0; satp := 0; scounteren := 0; mcounteren := 0;
     mfromhost := 0; mtohost := 0; timecmp := 0; hstatus := 0; vsstatus := 0;
     htval := 0; vscause := 0; mtval2 := 0; hideleg := 0; hedeleg := 0;
     vstvec := 0; vsepc := 0;
     two_stage_lookup := false;
     pmp_state := {| pmp := replicate 16 {| addr_reg := 0; cfg_reg := 0 |};
                     addr := replicate 16 {| sa := 0; ea := 0 |};
                     num_rules := 0 |};
     fp_status := {| default_nan_mode := false; float_rounding_mode := 0 |} |}.

(** The defaults of [riscv_cpu_properties]. *)
Definition riscv_cpu_properties : RISCVCPUConfig :=
  {| ext_i := true; ext_e := false; ext_g := true; ext_m := true;
     ext_a := true; ext_f := true; ext_d := true; ext_c := true;
     ext_s := true; ext_u := true;
     ext_b := false; ext_h := false; ext_v := false;
     ext_counters := true; ext_ifencei := true; ext_icsr := true;
     priv_spec := None; bext_spec := None; vext_spec := None;
     vlen := 128; elen := 64;
     mmu := true; cfg_pmp := true; epmp := false;
     cfg_resetvec := DEFAULT_RSTVEC |}.

Definition cpu_zero : RISCVCPU :=
  {| parent_obj := {| exception_index := 0; interrupt_request := 0;
                      halted := 0 |};
     env := env_zero;
     cfg := riscv_cpu_properties |}.

(** ** Definitions for the properties *)

(** *** The extension bits realize is asked for *)

(** What the specification calls the union of the requested extension
    bits: the bit of every extension that is requested, those of I, M, A, F
    and D also when G is. *)
Definition ext_bit (requested : bool) (bit : Z) : list Z :=
  if requested then [bit] else [].

Definition requested_bits `{!cpu_bits} (c : RISCVCPUConfig) : list Z :=
  ext_bit (ext_i c || ext_g c) RVI ++ ext_bit (ext_e c) RVE ++
  ext_bit (ext_m c || ext_g c) RVM ++ ext_bit (ext_a c || ext_g c) RVA ++
  ext_bit (ext_f c || ext_g c) RVF ++ ext_bit (ext_d c || ext_g c) RVD ++
  ext_bit (ext_c c) RVC ++ ext_bit (ext_s c) RVS ++ ext_bit (ext_u c) RVU ++
  ext_bit (ext_h c) RVH ++ ext_bit (ext_b c) RVB ++ ext_bit (ext_v c) RVV.

Definition union_of_bits (base : Z) (bits : list Z) : Z :=
  fold_left Z.lor bits base.

(** The version strings realize accepts; an unset property is accepted and
    selects the default. *)
Definition supported_priv_spec (c : RISCVCPUConfig) : bool :=
  match priv_spec c with
  | Some s => String.eqb s "v1.11.0" || String.eqb s "v1.10.0"
  | None => true
  end.

Definition supported_bext_spec (c : RISCVCPUConfig) : bool :=
  match bext_spec c with
  | Some s => String.eqb s "v0.93"
  | None => true
  end.

Definition supported_vext_spec (c : RISCVCPUConfig) : bool :=
  match vext_spec c with
  | Some s => String.eqb s "v0.7.1"
  | None => true
  end.

(** The vector geometry the checks of realize let through. *)
Definition vector_geometry_accepted `{!cpu_bits} (c : RISCVCPUConfig) : bool :=
  is_power_of_2 (vlen c) && (vlen c <=? RV_VLEN_MAX) && (128 <=? vlen c) &&
  is_power_of_2 (elen c) && (elen c <=? 64).

(** The G correction applies. *)
Definition g_corrects (c : RISCVCPUConfig) : bool :=
  ext_g c && negb (ext_i c && ext_m c && ext_a c && ext_f c && ext_d c).

(** The check of the vector geometry that fails first, by the field and
    the bound the specification names: the vector length a power of two and
    in the range from 128 to the maximum, the element length a power of two
    and at most 64. *)
Definition vector_error `{!cpu_bits} (c : RISCVCPUConfig) : option Error :=
  if negb (is_power_of_2 (vlen c)) then Some E_vlen_pow2
  else if (RV_VLEN_MAX <? vlen c) || (vlen c <? 128) then Some E_vlen_range
  else if negb (is_power_of_2 (elen c)) then Some E_elen_pow2
  else if 64 <? elen c then Some E_elen_range
  else None.

(** *** Harts and machines the closed examples run on *)

(** The property defaults with other requests for I and E. *)
Definition cfg_set_i_e (i e : bool) (c : RISCVCPUConfig) : RISCVCPUConfig :=
  {| ext_i := i; ext_e := e; ext_g := ext_g c; ext_m := ext_m c;
     ext_a := ext_a c; ext_f := ext_f c; ext_d := ext_d c; ext_c := ext_c c;
     ext_s := ext_s c; ext_u := ext_u c; ext_h := ext_h c; ext_v := ext_v c;
     ext_b := ext_b c; ext_counters := ext_counters c;
     ext_ifencei := ext_ifencei c; ext_icsr := ext_icsr c;
     priv_spec := priv_spec c; bext_spec := bext_spec c;
     vext_spec := vext_spec c; vlen := vlen c; elen := elen c;
     mmu := mmu c; cfg_pmp := cfg_pmp c; epmp := epmp c;
     cfg_resetvec := cfg_resetvec c |}.

(** The vector extension requested with a geometry. *)
Definition cfg_set_vector (vl el : Z) (c : RISCVCPUConfig) : RISCVCPUConfig :=
  {| ext_i := ext_i c; ext_e := ext_e c; ext_g := ext_g c; ext_m := ext_m c;
     ext_a := ext_a c; ext_f := ext_f c; ext_d := ext_d c; ext_c := ext_c c;
     ext_s := ext_s c; ext_u := ext_u c; ext_h := ext_h c; ext_v := true;
     ext_b := ext_b c; ext_counters := ext_counters c;
     ext_ifencei := ext_ifencei c; ext_icsr := ext_icsr c;
     priv_spec := priv_spec c; bext_spec := bext_spec c;
     vext_spec := vext_spec c; vlen := vl; elen := el;
     mmu := mmu c; cfg_pmp := cfg_pmp c; epmp := epmp c;
     cfg_resetvec := cfg_resetvec c |}.

(** The base 64-bit CPU model, as constructed, with the given properties. *)
Definition rv64_base_with (c : RISCVCPUConfig) : RISCVCPU :=
  cpu_set_cfg c (rv64_base_cpu_init cpu_zero).

(** The SiFive U54 model, as constructed, with the given properties. *)
Definition sifive_u54_with (c : RISCVCPUConfig) : RISCVCPU :=
  cpu_set_cfg c (rv64_sifive_u_cpu_init cpu_zero).

(** A machine of four harts, each with its own pc and a register value. *)
Definition four_harts : Machine :=
  {| cpus :=
       map (fun k =>
              cpu_set_env
                (env_set_gpr (<[10%nat := 0x100 + k]> (gpr env_zero))
                   (env_set PC (0x80000000 + 4 * k) env_zero))
                cpu_zero)
           [0; 1; 2; 3];
     reset_requests := [];
     guest_errors := [] |}.

(** *** Snapshot texts *)

(** The text with the blanks at the start of every line removed. *)
Fixpoint unindent (at_start : bool) (s : string) : string :=
  match s with
  | EmptyString => EmptyString
  | String c r =>
      if at_start && Ascii.eqb c " " then unindent true r
      else String c (unindent (Ascii.eqb c Text.LF) r)
  end.

(** The dump of a hart, edited into a text the loader reads: the leading
    blank of each record removed. *)
Definition snapshot_of (cpu : RISCVCPU) : string :=
  unindent true (riscv_cpu_dump_state cpu).

Fixpoint drop_token (s : string) : string :=
  match s with
  | String c r => if Text.isspace c then s else drop_token r
  | EmptyString => s
  end.

(** The text with the tag of record [k] (counted from 0) replaced by
    [name]. *)
Fixpoint retag (k : nat) (name s : string) {struct s} : string :=
  match k with
  | O => name +:+ drop_token s
  | S k' =>
      match s with
      | EmptyString => EmptyString
      | String c r =>
          String c (retag (if Ascii.eqb c Text.LF then k' else k) name r)
      end
  end.

(** The line buffer and the rest of the stream after one more [fgets], and
    after [k] of them. *)
Definition next_line (st : string * string) : string * string :=
  Text.fgets FILE_LINE_MAX (fst st) (snd st).

Fixpoint lines_read (k : nat) (st : string * string) : string * string :=
  match k with
  | O => st
  | S k' => next_line (lines_read k' st)
  end.

(** The line the loader holds when it reads record [k] (counted from 0):
    the result of its [k + 1]-th call of [fgets]. *)
Definition record_line (k : nat) (buf file : string) : string :=
  fst (lines_read (S k) (buf, file)).

(** The first [k] lines of a text. *)
Fixpoint first_lines (k : nat) (s : string) {struct s} : string :=
  match k with
  | O => EmptyString
  | S k' =>
      match s with
      | EmptyString => EmptyString
      | String c r =>
          String c (first_lines (if Ascii.eqb c Text.LF then k' else k) r)
      end
  end.

Definition cfg_set_pmp (b : bool) (c : RISCVCPUConfig) : RISCVCPUConfig :=
  {| ext_i := ext_i c; ext_e := ext_e c; ext_g := ext_g c; ext_m := ext_m c;
     ext_a := ext_a c; ext_f := ext_f c; ext_d := ext_d c; ext_c := ext_c c;
     ext_s := ext_s c; ext_u := ext_u c; ext_h := ext_h c; ext_v := ext_v c;
     ext_b := ext_b c; ext_counters := ext_counters c;
     ext_ifencei := ext_ifencei c; ext_icsr := ext_icsr c;
     priv_spec := priv_spec c; bext_spec := bext_spec c;
     vext_spec := vext_spec c; vlen := vlen c; elen := elen c;
     mmu := mmu c; cfg_pmp := b; epmp := epmp c;
     cfg_resetvec := cfg_resetvec c |}.

(** The hart realize leaves. *)
Definition realized (cpu : RISCVCPU) : RISCVCPU :=
  fst (fst (riscv_cpu_realize cpu None)).

(** Hart 0 of a machine of SiFive U54 harts without PMP, realized. *)
Definition hart_0 : RISCVCPU :=
  realized (sifive_u54_with (cfg_set_pmp false riscv_cpu_properties)).

(** Hart 1 of the same machine, running: its own hart id, pc and register
    values. *)
Definition hart_1 : RISCVCPU :=
  cpu_set_env
    (env_set_fpr (<[2%nat := 0x3ff0000000000000]> (fpr (env hart_0)))
       (env_set_gpr (<[5%nat := 0x1f]> (<[10%nat := 0x2a]> (gpr (env hart_0))))
          (env_set MHARTID 1 (env_set PC 0x80000004 (env hart_0)))))
    hart_0.

(** A 32-bit hart state: the base of its misa is RV32. *)
Definition hart_rv32 : RISCVCPU :=
  cpu_set_env
    (env_set MISA (Z.lor RV32 (Z.lor RVI RVM))
       (env_set MISA_MASK (Z.lor RV32 (Z.lor RVI RVM)) (env hart_1)))
    hart_1.

(** *** The scalar records of the loader *)

(** The pattern, the field and the name in the error message of the scalar
    records the loader reads first, in order. *)
Definition scalar_records : list (string * field * string) :=
  [ ("pc %lx", PC, "pc"); ("mhartid %lx", MHARTID, "mhartid");
    ("mstatus %lx", MSTATUS, "mstatus"); ("mip %lx", MIP, "mip");
    ("mie %lx", MIE, "mie"); ("mideleg %lx", MIDELEG, "mideleg");
    ("medeleg %lx", MEDELEG, "medeleg"); ("mtvec %lx", MTVEC, "mtvec");
    ("stvec %lx", STVEC, "stvec"); ("mepc %lx", MEPC, "mepc");
    ("sepc %lx", SEPC, "sepc"); ("mcause %lx", MCAUSE, "mcause");
    ("scause %lx", SCAUSE, "scause"); ("mtval %lx", MTVAL, "mtval");
    ("stval %lx", STVAL, "stval"); ("mscratch %lx", MSCRATCH, "mscratch");
    ("sscratch %lx", SSCRATCH, "sscratch"); ("satp %lx", SATP, "satp");
    ("load_res %lx", LOAD_RES, "load_res");
    ("load_val %lx", LOAD_VAL, "load_val"); ("frm %lx", FRM, "frm");
    ("badaddr %lx", BADADDR, "badaddr");
    ("guest_phys_fault_addr %lx", GUEST_PHYS_FAULT_ADDR,
     "guest_phys_fault_addr");
    ("priv_ver %lx", PRIV_VER, "priv_ver");
    ("vext_ver %lx", VEXT_VER, "vext_ver"); ("misa %lx", MISA, "misa");
    ("misa_mask %lx", MISA_MASK, "misa_mask");
    ("features %x", FEATURES, "features"); ("priv %lx", PRIV, "priv");
    ("virt %lx", VIRT, "virt"); ("resetvec %lx", RESETVEC, "resetvec");
    ("scounteren %lx", SCOUNTEREN, "scounteren");
    ("mcounteren %lx", MCOUNTEREN, "mcounteren");
    ("mfromhost %lx", MFROMHOST, "mfromhost");
    ("mtohost %lx", MTOHOST, "mtohost");
    ("timecmp %lx", TIMECMP, "timecmp") ]%string.

(** The steps of a list of scalar records, followed by [k]. *)
Definition load_scalars_then `{!cpu_bits} `{!externals}
    (l : list (string * field * string)) (k : SE loader string unit) :
    SE loader string unit :=
  fold_right (fun r k => load_scalar (fst (fst r)) (snd (fst r)) (snd r) ;; k)
    k l.

(** The steps of the loader after the scalar records. *)
Definition load_state_tail `{!cpu_bits} `{!externals} : SE loader string unit :=
  is_32bit ← gets (fun s => riscv_cpu_is_32bit (env (ld_cpu s)));
  when is_32bit (load_scalar "mstatush %lx" MSTATUS "mstatush") ;;
  for_range 0 32 (load_reg env_set_gpr gpr "gpr") ;;
  for_range 0 32 (load_reg env_set_fpr fpr "fpr") ;;
  has_pmp ← gets (fun s => cfg_pmp (cfg (ld_cpu s)));
  when has_pmp (
    modify (ld_set_env (env_set_pmp_state pmp_state_zero)) ;;
    for_range 0 MAX_RISCV_PMPS
      (load_pmp "pmpaddr_%d %lx" pmpaddr_csr_write "pmpaddr") ;;
    for_range 0 (MAX_RISCV_PMPS / 4)
      (load_pmp "pmpcfg_%d %lx" pmpcfg_csr_write "pmpcfg") ;;
    for_range 0 MAX_RISCV_PMPS (fun i =>
      modify (ld_set_env (fun e =>
        env_set_pmp_state (pmp_update_rule_addr e i) e))) ;;
    modify (ld_set_env (fun e =>
      env_set_pmp_state (pmp_update_rule_nums e) e))).

(** The line buffer and the rest of the stream of a loader state. *)
Definition ld_stream (s : loader) : string * string :=
  (ld_str_line s, ld_fp s).

#[global] Instance field_eq_dec : EqDecision field.
Proof. solve_decision. Defined.

(** A character a format matches literally. *)
Definition ordinary (c : ascii) : bool :=
  negb (Text.isspace c) && negb (Ascii.eqb c "%").

(** A name a [%s] conversion reads whole: not empty, without white space
    and without NUL. *)
Definition token (name : string) : Prop :=
  name <> EmptyString /\
  Forall (fun c => Text.isspace c = false /\ c <> Text.NUL)
    (list_ascii_of_string name).

(** *** Invariance under the loader *)

(** The steps of the loader that leave a field of the hart state as it
    is, whether they end in an error or not. *)
Definition keeps {A} (g : CPURISCVState -> Z) (m : SE loader string A) : Prop :=
  forall s s' r, m s = (s', r) -> g (env (ld_cpu s')) = g (env (ld_cpu s)).

(** ** More of target/riscv/cpu.c *)

Definition riscv_excp_names : list string :=
  [ "misaligned_fetch"; "fault_fetch"; "illegal_instruction"; "breakpoint";
    "misaligned_load"; "fault_load"; "misaligned_store"; "fault_store";
    "user_ecall"; "supervisor_ecall"; "hypervisor_ecall"; "machine_ecall";
    "exec_page_fault"; "load_page_fault"; "reserved"; "store_page_fault";
    "reserved"; "reserved"; "reserved"; "reserved";
    "guest_exec_page_fault"; "guest_load_page_fault"; "reserved";
    "guest_store_page_fault" ]%string.

Definition riscv_intr_names : list string :=
  [ "u_software"; "s_software"; "vs_software"; "m_software";
    "u_timer"; "s_timer"; "vs_timer"; "m_timer";
    "u_external"; "s_external"; "vs_external"; "m_external";
    "reserved"; "reserved"; "reserved"; "reserved" ]%string.

(** [ARRAY_SIZE] of a table. *)
Definition ARRAY_SIZE {A} (table : list A) : Z := Z.of_nat (length table).

(** [cause] is a [target_ulong]. *)
Definition riscv_cpu_get_trap_name (cause : Z) (async : bool) : string :=
  if async then
    if cause <? ARRAY_SIZE riscv_intr_names
    then elt "" riscv_intr_names (Z.to_nat cause) else "(unknown)"
  else
    if cause <? ARRAY_SIZE riscv_excp_names
    then elt "" riscv_excp_names (Z.to_nat cause) else "(unknown)".

Definition riscv_exts : string := "IEMAFDQCLBJTPVNSUHKORWXYZG".

(** [qemu_tolower]: the [tolower] of the C locale. *)
Definition qemu_tolower (c : ascii) : ascii :=
  if (65 <=? Text.code c) && (Text.code c <=? 90)
  then Ascii.ascii_of_nat (Ascii.nat_of_ascii c + 32) else c.

(** The loop of [riscv_isa_string] over the letters [exts]: the letter of
    every extension whose bit is set in [misa_val] is appended in lower
    case.  [rv] is the macro [RV] of [cpu.h], which gives the bit of a
    letter. *)
Fixpoint isa_letters (rv : ascii -> Z) (misa_val : Z) (exts : string) :
    string :=
  match exts with
  | EmptyString => EmptyString
  | String c r =>
      if negb (Z.land misa_val (rv c) =? 0)
      then String (qemu_tolower c) (isa_letters rv misa_val r)
      else isa_letters rv misa_val r
  end.

(** The number of characters [riscv_isa_string] allocates:
    [sizeof("rv128") + sizeof(riscv_exts) + 1]. *)
Definition isa_maxlen : nat := 6 + String.length riscv_exts + 1.

(** [riscv_isa_string(cpu)]: the characters stored before the terminating
    NUL; [TARGET_LONG_BITS] is 64. *)
Definition riscv_isa_string (rv : ascii -> Z) (cpu : RISCVCPU) : string :=
  "rv" +:+ Text.fmt_d 64 +:+ isa_letters rv (misa (env cpu)) riscv_exts.

(** [riscv_cpu_list_entry]: the line printed for the class named
    [typename]; [suffix] is the macro [RISCV_CPU_TYPE_SUFFIX].  The
    difference of the two [size_t] lengths is stored in an [int]; a negative
    precision of ["%.*s"] is taken as if there were none. *)
Definition riscv_cpu_list_entry (suffix typename : string) : string :=
  let len :=
    Int.to_int (Int.to_u64 (Z.of_nat (String.length typename)
                            - Z.of_nat (String.length suffix))) in
  (if len <? 0 then typename
   else String.substring 0 (Z.to_nat len) typename) +:+ nl.

(** [RISCV_CPU_TYPE_NAME(name)]: the name with the suffix appended. *)
Definition RISCV_CPU_TYPE_NAME (suffix name : string) : string :=
  name +:+ suffix.

(** *** What a run of steps preserves *)

(** The steps that preserve a property of the state they run on, whether
    they end in an error or not. *)
Definition preserves {St E A} (P : St -> Prop) (m : SE St E A) : Prop :=
  forall s s' r, P s -> m s = (s', r) -> P s'.

(** The privilege version realize selects from the [priv_spec] property. *)
Definition selected_priv_version `{!cpu_bits} (c : RISCVCPUConfig) : Z :=
  match priv_spec c with
  | Some s =>
      if String.eqb s "v1.10.0" then PRIV_VERSION_1_10_0
      else PRIV_VERSION_1_11_0
  | None => PRIV_VERSION_1_11_0
  end.

(** The feature bits realize sets from the properties. *)
Definition configured_features `{!cpu_bits} (c : RISCVCPUConfig)
    (e : CPURISCVState) : CPURISCVState :=
  let e := if mmu c then set_feature RISCV_FEATURE_MMU e else e in
  if cfg_pmp c
  then
    let e := set_feature RISCV_FEATURE_PMP e in
    if epmp c then set_feature RISCV_FEATURE_EPMP e else e
  else e.

(** *** The parts of the loader after the scalar records *)

(** The PMP records, read on a hart with PMP. *)
Definition load_pmp_records `{!cpu_bits} `{!externals} :
    SE loader string unit :=
  has_pmp ← gets (fun s => cfg_pmp (cfg (ld_cpu s)));
  when has_pmp (
    modify (ld_set_env (env_set_pmp_state pmp_state_zero)) ;;
    for_range 0 MAX_RISCV_PMPS
      (load_pmp "pmpaddr_%d %lx" pmpaddr_csr_write "pmpaddr") ;;
    for_range 0 (MAX_RISCV_PMPS / 4)
      (load_pmp "pmpcfg_%d %lx" pmpcfg_csr_write "pmpcfg") ;;
    for_range 0 MAX_RISCV_PMPS (fun i =>
      modify (ld_set_env (fun e =>
        env_set_pmp_state (pmp_update_rule_addr e i) e))) ;;
    modify (ld_set_env (fun e =>
      env_set_pmp_state (pmp_update_rule_nums e) e))).

(** The records of the two register arrays, and what follows them. *)
Definition load_register_records `{!cpu_bits} `{!externals} :
    SE loader string unit :=
  for_range 0 32 (load_reg env_set_gpr gpr "gpr") ;;
  for_range 0 32 (load_reg env_set_fpr fpr "fpr") ;;
  load_pmp_records.

(** *** Texts made of one kind of character *)

Fixpoint all_chars (p : ascii -> bool) (s : string) : bool :=
  match s with
  | EmptyString => true
  | String c r => p c && all_chars p r
  end.

(** A digit of a hexadecimal number. *)
Definition is_hex (c : ascii) : bool :=
  match Text.hex_value c with
  | Some _ => true
  | None => false
  end.

(** A character a C string and a line can hold inside: neither NUL nor
    the line feed. *)
Definition is_inline (c : ascii) : bool :=
  negb (Ascii.eqb c Text.NUL) && negb (Ascii.eqb c Text.LF).

Definition is_blank (c : ascii) : bool := Ascii.eqb c " ".

(** *** The snapshot as a list of records *)

(** The names the dump writes before the scalar fields, in order. *)
Definition dump_scalars : list (string * field) :=
  [ ("pc      ", PC); ("mhartid ", MHARTID); ("mstatus ", MSTATUS);
    ("mip     ", MIP); ("mie     ", MIE); ("mideleg ", MIDELEG);
    ("medeleg ", MEDELEG); ("mtvec   ", MTVEC); ("stvec   ", STVEC);
    ("mepc    ", MEPC); ("sepc    ", SEPC); ("mcause  ", MCAUSE);
    ("scause  ", SCAUSE); ("mtval   ", MTVAL); ("stval   ", STVAL);
    ("mscratch", MSCRATCH); ("sscratch", SSCRATCH); ("satp    ", SATP);
    ("load_res", LOAD_RES); ("load_val", LOAD_VAL); ("frm     ", FRM);
    ("badaddr ", BADADDR);
    ("guest_phys_fault_addr", GUEST_PHYS_FAULT_ADDR);
    ("priv_ver  ", PRIV_VER); ("vext_ver  ", VEXT_VER);
    ("misa      ", MISA); ("misa_mask ", MISA_MASK);
    ("features  ", FEATURES); ("priv      ", PRIV); ("virt      ", VIRT);
    ("resetvec  ", RESETVEC); ("scounteren   ", SCOUNTEREN);
    ("mcounteren  ", MCOUNTEREN); ("mfromhost ", MFROMHOST);
    ("mtohost   ", MTOHOST); ("timecmp   ", TIMECMP) ]%string.

(** The digits the dump writes for a scalar field: those of [%x] for the
    features, those of [TARGET_FMT_lx] for the others. *)
Definition scalar_digits (e : CPURISCVState) (f : field) : string :=
  match f with
  | FEATURES => Text.fmt_x (features e)
  | _ => Text.fmt_016lx (env_get f e)
  end.

(** The value the loader reads back from those digits. *)
Definition scalar_read_back (e : CPURISCVState) (f : field) : Z :=
  match f with
  | FEATURES => Int.to_u32 (features e)
  | _ => Int.to_u64 (env_get f e)
  end.

(** The record the dump writes for a scalar field. *)
Definition dump_scalar_record (e : CPURISCVState) (d : string * field) :
    string :=
  match snd d with
  | FEATURES => fprintf_x (fst d) (features e)
  | f => fprintf_lx (fst d) (env_get f e)
  end.

(** A record without its leading blank and its line feed. *)
Definition record_body (name digits : string) : string :=
  name +:+ " " +:+ digits.

(** The records of a snapshot, before those of the PMP. *)
Definition snapshot_bodies `{!cpu_bits} (cpu : RISCVCPU) : list string :=
  let e := env cpu in
  map (fun d => record_body (fst d) (scalar_digits e (snd d))) dump_scalars ++
  (if riscv_cpu_is_32bit e
   then [record_body "mstatush " (Text.fmt_016lx (Z.shiftr (mstatus e) 32))]
   else []) ++
  map (fun i => record_body (elt "" riscv_int_regnames i)
                  (Text.fmt_016lx (elt 0 (gpr e) i))) (seq 0 32) ++
  map (fun i => record_body (elt "" riscv_fpr_regnames i)
                  (Text.fmt_016lx (elt 0 (fpr e) i))) (seq 0 32).

(** The text of a list of records, each closed by a line feed, followed
    by [rest]. *)
Definition text_of (bodies : list string) (rest : string) : string :=
  fold_right (fun b t => b +:+ String Text.LF t) rest bodies.

(** The PMP records of the dump. *)
Definition dump_pmp_text `{!cpu_bits} `{!externals} (cpu : RISCVCPU) :
    string :=
  if cfg_pmp (cfg cpu)
  then
    fprintf_for 0 MAX_RISCV_PMPS (fun i =>
      fprintf_pmp "pmpaddr" i (pmpaddr_csr_read (env cpu) i)) +:+
    fprintf_for 0 (MAX_RISCV_PMPS / 4) (fun i =>
      fprintf_pmp "pmpcfg" i (pmpcfg_csr_read (env cpu) i))
  else "".

(** A name a record begins with: not empty, not beginning with a blank,
    without NUL and line feed. *)
Definition record_name (name : string) : bool :=
  match name with
  | String c _ => negb (is_blank c)
  | EmptyString => false
  end && all_chars is_inline name.

(** [token], decided. *)
Definition is_token (name : string) : bool :=
  match name with
  | String _ _ => true
  | EmptyString => false
  end &&
  all_chars (fun c => negb (Text.isspace c) && negb (Ascii.eqb c Text.NUL))
    name.

(** The values a hart state holds are those of its C types: scalars of
    64 bits, features of 32 bits, two arrays of 32 registers of 64 bits. *)
Definition env_valid (e : CPURISCVState) : Prop :=
  (forall f, 0 <= env_get f e < Int.u64_modulus) /\
  features e < Int.u32_modulus /\
  length (gpr e) = 32%nat /\
  length (fpr e) = 32%nat /\
  Forall (fun v => 0 <= v < Int.u64_modulus) (gpr e) /\
  Forall (fun v => 0 <= v < Int.u64_modulus) (fpr e).

(** *** The values of records *)

(** The value a register record holds, if the pattern of the register
    records accepts it. *)
Definition register_value (line : string) : option Z :=
  match Text.sscanf line "%s %lx" with
  | [Text.V_str _; Text.V_int v] => Some v
  | _ => None
  end.

(** The value a scalar record holds under a pattern, if it is accepted. *)
Definition scalar_value (line fmt : string) : option Z :=
  match Text.sscanf line fmt with
  | [Text.V_int v] => Some v
  | _ => None
  end.

(** * Properties *)

(** ** Field updates *)

Lemma env_get_set_same (f : field) (v : Z) (e : CPURISCVState) :
  env_get f (env_set f v e) = v.
Proof. destruct f; reflexivity. Qed.

Lemma env_get_set_other (f g : field) (v : Z) (e : CPURISCVState) :
  f <> g -> env_get g (env_set f v e) = env_get g e.
Proof. intros Hne; destruct f, g; solve [reflexivity | congruence]. Qed.

(** ** Bit masks *)

Lemma land_clear_l (m a b : Z) : Z.land (Z.land m (Z.lnot (Z.lor a b))) a = 0.
Proof.
  apply Z.bits_inj'; intros n Hn.
  rewrite !Z.land_spec, Z.lnot_spec, Z.lor_spec, Z.bits_0 by assumption.
  destruct (Z.testbit m n), (Z.testbit a n), (Z.testbit b n); reflexivity.
Qed.

Lemma land_clear_r (m a b : Z) : Z.land (Z.land m (Z.lnot (Z.lor a b))) b = 0.
Proof. rewrite Z.lor_comm. apply land_clear_l. Qed.

(** ** Reset *)

Section reset_properties.

Context `{!cpu_bits} `{!externals}.

(** Reset writes neither the hart id, nor [misa], nor the other results of
    realize. *)
Lemma riscv_cpu_reset_config (cpu : RISCVCPU) :
  let e := env cpu in
  let e' := env (riscv_cpu_reset cpu) in
  mhartid e' = mhartid e /\ misa e' = misa e /\ misa_mask e' = misa_mask e /\
  priv_ver e' = priv_ver e /\ bext_ver e' = bext_ver e /\
  vext_ver e' = vext_ver e /\ features e' = features e /\
  resetvec e' = resetvec e /\ cfg (riscv_cpu_reset cpu) = cfg cpu.
Proof. repeat split. Qed.

(** C2, as the code has it: reset establishes machine mode, clears the MIE
    and MPRV bits of mstatus, clears mcause, scause, mepc, sepc, mtvec and
    stvec, and leaves the tval and scratch registers and the registers of
    the virtual-supervisor level as they were; pc is the reset vector, the
    two-stage-lookup flag is false, satp is zero, the PMP state is zero
    (raw fields and derived rules), the pending-exception index is
    RISCV_EXCP_NONE, the load reservation is all ones, and the FP unit is in
    default-NaN mode. *)
Theorem riscv_cpu_reset_establishes (cpu : RISCVCPU) :
  let e := env cpu in
  let e' := env (riscv_cpu_reset cpu) in
  priv e' = PRV_M /\
  Z.land (mstatus e') MSTATUS_MIE = 0 /\
  Z.land (mstatus e') MSTATUS_MPRV = 0 /\
  (mcause e' = 0 /\ scause e' = 0 /\ mepc e' = 0 /\ sepc e' = 0 /\
   mtvec e' = 0 /\ stvec e' = 0) /\
  (mtval e' = mtval e /\ stval e' = stval e /\
   mscratch e' = mscratch e /\ sscratch e' = sscratch e) /\
  (vscause e' = vscause e /\ vsepc e' = vsepc e /\ vstvec e' = vstvec e /\
   vsstatus e' = vsstatus e /\ htval e' = htval e /\ mtval2 e' = mtval2 e) /\
  pc e' = resetvec e /\
  two_stage_lookup e' = false /\
  satp e' = 0 /\
  pmp_state e' = pmp_state_zero /\
  (forall i, (i < MAX_RISCV_PMPS)%nat ->
     pmp (pmp_state e') !! i = Some {| addr_reg := 0; cfg_reg := 0 |} /\
     addr (pmp_state e') !! i = Some {| sa := 0; ea := 0 |}) /\
  num_rules (pmp_state e') = 0 /\
  exception_index (parent_obj (riscv_cpu_reset cpu)) = RISCV_EXCP_NONE /\
  load_res e' = Int.ULONG_MAX /\
  default_nan_mode (fp_status e') = true.
Proof.
  cbn. repeat split; try reflexivity.
  - apply land_clear_l.
  - apply land_clear_r.
  - apply lookup_replicate_2; assumption.
  - apply lookup_replicate_2; assumption.
Qed.

End reset_properties.

(** The witness of [riscv_cpu_reset_establishes]: a hart of the default
    configuration, reset. *)
Lemma riscv_cpu_reset_establishes_witness :
  (3 < MAX_RISCV_PMPS)%nat /\
  pmp (pmp_state (env (riscv_cpu_reset cpu_zero))) !! 3%nat
    = Some {| addr_reg := 0; cfg_reg := 0 |}.
Proof.
  split; [vm_compute; lia |].
  apply (riscv_cpu_reset_establishes cpu_zero). vm_compute; lia.
Defined.

(** C2, as stated, fails: a hart whose mtval holds 5 and whose mscratch
    holds 7 keeps both through reset. *)
Lemma riscv_cpu_reset_keeps_tval_scratch :
  let cpu := cpu_set_env (env_set MTVAL 5 (env_set MSCRATCH 7 env_zero))
               cpu_zero in
  mtval (env (riscv_cpu_reset cpu)) <> 0 /\
  mscratch (env (riscv_cpu_reset cpu)) <> 0.
Proof. vm_compute. split; discriminate. Qed.

(** ** The reset unit *)

Lemma to_int_small (z : Z) : 0 <= z < 2 ^ 31 -> Int.to_int z = z.
Proof.
  intros Hz. unfold Int.to_int, Int.u32_modulus.
  rewrite Z.mod_small by lia.
  destruct (Z.ltb_spec z (2 ^ 31)); [reflexivity | lia].
Qed.

Lemma land_0xffff_range (z : Z) : 0 <= Z.land z 0xffff < 2 ^ 16.
Proof.
  change 0xffff with (Z.ones 16). rewrite Z.land_ones by lia.
  apply Z.mod_pos_bound. lia.
Qed.

Lemma to_int_land_0xffff (z : Z) :
  Int.to_int (Z.land z 0xffff) = Z.land z 0xffff.
Proof.
  apply to_int_small. pose proof (land_0xffff_range z). lia.
Qed.

Section d_reset_properties.

Context `{!cpu_bits} `{!externals}.

(** The hart a write at offset [4 * t] addresses: hart [t], a hart index
    being an [int]. *)
Lemma hartid_of_offset (t : nat) :
  Z.of_nat t <= Int.INT_MAX ->
  Int.to_int (Z.shiftr (4 * Z.of_nat t) 2) = Z.of_nat t.
Proof.
  unfold Int.INT_MAX. intros Ht.
  rewrite Z.shiftr_div_pow2 by lia.
  replace (4 * Z.of_nat t) with (Z.of_nat t * 2 ^ 2) by lia.
  rewrite Z.div_mul by lia. apply to_int_small. lia.
Qed.

(** C8: a write of 0x00007777 at offset [4 * t], for a hart index [t >= 1]
    of the machine, returns with hart [t] replaced by its reset
    ([riscv_cpu_reset]) and with every other hart, and the rest of the
    machine, as before; the process does not exit and no reset of the
    system is requested. *)
Theorem d_reset_write_resets_one_hart (m : Machine) (t : nat)
    (cpu : RISCVCPU) (size : Z) :
  (1 <= t)%nat ->
  Z.of_nat t <= Int.INT_MAX ->
  cpus m !! t = Some cpu ->
  exists m',
    d_reset_write m (4 * Z.of_nat t) 0x00007777 size = Return m' /\
    cpus m' !! t = Some (riscv_cpu_reset cpu) /\
    (forall j, j <> t -> cpus m' !! j = cpus m !! j) /\
    length (cpus m') = length (cpus m) /\
    reset_requests m' = reset_requests m /\
    guest_errors m' = guest_errors m.
Proof.
  intros Ht Hint Hcpu.
  unfold d_reset_write. rewrite hartid_of_offset by assumption.
  destruct (Z.eqb_spec (4 * Z.of_nat t) 0) as [Hzero | _]; [lia |].
  unfold qemu_get_cpu.
  destruct (Z.ltb_spec (Z.of_nat t) 0) as [Hneg | _]; [lia |].
  rewrite Nat2Z.id, Hcpu. cbn.
  eexists; split; [reflexivity |]. cbn. rewrite Nat2Z.id.
  repeat split.
  - apply list_lookup_insert_eq. eapply lookup_lt_Some; eassumption.
  - intros j Hj. apply list_lookup_insert_ne. congruence.
  - apply length_insert.
Qed.

(** The exit code of a process that calls [exit] with a value below 256
    is that value. *)
Lemma exit_code_small (status : Z) :
  0 <= status < 256 -> exit_code status = status.
Proof.
  intros Hs. unfold exit_code. change 0xff with (Z.ones 8).
  rewrite Z.land_ones by lia. apply Z.mod_small. exact Hs.
Qed.

(** C9, as the code has it: a write whose low 16 bits are 0x3333 calls
    [exit] with bits [31:16] of the value, whatever the offset, and the
    process terminates with the low 8 bits of them as its exit code, which
    is bits [31:16] when these are below 256; a write whose low 16 bits are
    0x5555 calls [exit] with 0 and the process terminates with exit code 0,
    whatever the offset and the other bits; so 0x00083333 exits with code 8
    and 0x00005555 with code 0. *)
Theorem d_reset_write_exits (m : Machine) (addr size : Z) :
  (forall val64,
     Z.land val64 0xffff = 0x3333 ->
     let code := Z.land (Z.shiftr val64 16) 0xffff in
     d_reset_write m addr val64 size = Exit code /\
     process_exit_code (d_reset_write m addr val64 size)
     = Some (Z.land code 0xff) /\
     (code < 256 ->
      process_exit_code (d_reset_write m addr val64 size) = Some code)) /\
  (forall val64,
     Z.land val64 0xffff = 0x5555 ->
     d_reset_write m addr val64 size = Exit 0 /\
     process_exit_code (d_reset_write m addr val64 size) = Some 0) /\
  process_exit_code (d_reset_write m addr 0x00083333 size) = Some 8 /\
  process_exit_code (d_reset_write m addr 0x00005555 size) = Some 0.
Proof.
  assert (Hfail : forall val64, Z.land val64 0xffff = 0x3333 ->
            d_reset_write m addr val64 size
              = Exit (Z.land (Z.shiftr val64 16) 0xffff)).
  { intros val64 Hst. unfold d_reset_write.
    rewrite !to_int_land_0xffff, Hst. reflexivity. }
  assert (Hpass : forall val64, Z.land val64 0xffff = 0x5555 ->
            d_reset_write m addr val64 size = Exit 0).
  { intros val64 Hst. unfold d_reset_write.
    rewrite !to_int_land_0xffff, Hst. reflexivity. }
  split; [| split; [| split]].
  - intros val64 Hst code. rewrite (Hfail val64 Hst). fold code.
    split; [reflexivity |]. split; [reflexivity |].
    intros Hsmall. cbn [process_exit_code]. f_equal.
    apply exit_code_small.
    pose proof (land_0xffff_range (Z.shiftr val64 16)). unfold code in *. lia.
  - intros val64 Hst. rewrite (Hpass val64 Hst). split; reflexivity.
  - rewrite (Hfail 0x00083333 eq_refl). reflexivity.
  - rewrite (Hpass 0x00005555 eq_refl). reflexivity.
Qed.

End d_reset_properties.

(** The witness of [d_reset_write_resets_one_hart]: the write of 0x00007777
    at offset 8 on four harts resets hart 2; harts 0, 1 and 3 keep their pc
    and registers. *)
Lemma d_reset_write_resets_one_hart_witness :
  let cpu := elt cpu_zero (cpus four_harts) 2 in
  (1 <= 2)%nat /\
  Z.of_nat 2 <= Int.INT_MAX /\
  cpus four_harts !! 2%nat = Some cpu /\
  exists m',
    d_reset_write four_harts 8 0x00007777 4 = Return m' /\
    cpus m' !! 2%nat = Some (riscv_cpu_reset cpu) /\
    (forall j, j <> 2%nat -> cpus m' !! j = cpus four_harts !! j) /\
    length (cpus m') = length (cpus four_harts) /\
    reset_requests m' = reset_requests four_harts /\
    guest_errors m' = guest_errors four_harts.
Proof.
  intros cpu.
  assert (H1 : (1 <= 2)%nat) by lia.
  assert (H2 : Z.of_nat 2 <= Int.INT_MAX) by (vm_compute; discriminate).
  assert (H3 : cpus four_harts !! 2%nat = Some cpu) by reflexivity.
  split; [exact H1 |]. split; [exact H2 |]. split; [exact H3 |].
  exact (d_reset_write_resets_one_hart four_harts 2 cpu 4 H1 H2 H3).
Defined.

(** The witness of [d_reset_write_exits]: the value 0x00ff3333 ends the
    process with exit code 255, the value 0x12345555 with exit code 0. *)
Lemma d_reset_write_exits_witness :
  Z.land 0x00ff3333 0xffff = 0x3333 /\
  Z.land (Z.shiftr 0x00ff3333 16) 0xffff < 256 /\
  d_reset_write four_harts 4 0x00ff3333 4 = Exit 255 /\
  process_exit_code (d_reset_write four_harts 4 0x00ff3333 4) = Some 255 /\
  Z.land 0x12345555 0xffff = 0x5555 /\
  d_reset_write four_harts 4 0x12345555 4 = Exit 0 /\
  process_exit_code (d_reset_write four_harts 4 0x12345555 4) = Some 0.
Proof.
  assert (H1 : Z.land 0x00ff3333 0xffff = 0x3333) by reflexivity.
  assert (H2 : Z.land 0x12345555 0xffff = 0x5555) by reflexivity.
  assert (H3 : Z.land (Z.shiftr 0x00ff3333 16) 0xffff < 256) by reflexivity.
  destruct (proj1 (d_reset_write_exits four_harts 4 4) 0x00ff3333 H1)
    as (Hexit & _ & Hcode).
  destruct (proj1 (proj2 (d_reset_write_exits four_harts 4 4)) 0x12345555 H2)
    as (Hexit0 & Hcode0).
  split; [exact H1 |]. split; [exact H3 |]. split; [exact Hexit |].
  split; [exact (Hcode H3) |]. split; [exact H2 |].
  split; [exact Hexit0 | exact Hcode0].
Defined.

(** C9, as stated, fails: the value 0x01003333 has the status FAIL and 256
    in bits [31:16]; the write calls [exit] with 256, and the process
    terminates with exit code 0, the exit code of a PASS. *)
Lemma d_reset_write_fail_exits_with_0 :
  Z.land 0x01003333 0xffff = FINISHER_FAIL /\
  Z.land (Z.shiftr 0x01003333 16) 0xffff = 256 /\
  d_reset_write four_harts 4 0x01003333 4 = Exit 256 /\
  process_exit_code (d_reset_write four_harts 4 0x01003333 4) = Some 0 /\
  process_exit_code (d_reset_write four_harts 4 0x01003333 4) <> Some 256 /\
  process_exit_code (d_reset_write four_harts 4 0x01003333 4)
  = process_exit_code (d_reset_write four_harts 4 0x00005555 4).
Proof. vm_compute. repeat split. discriminate. Qed.

(** ** Realize *)

Lemma union_of_bits_app (base : Z) (l1 l2 : list Z) :
  union_of_bits base (l1 ++ l2) = union_of_bits (union_of_bits base l1) l2.
Proof. apply fold_left_app. Qed.

Lemma union_of_ext_bit (base : Z) (b : bool) (bit : Z) :
  union_of_bits base (ext_bit b bit) = misa_or b bit base.
Proof. destruct b; reflexivity. Qed.

(** Running the steps of realize. *)
Ltac se_run :=
  cbv beta iota delta
    [mbind mret SE_bind SE_ret gets modify throw when error_setg
     rz_set_env rz_set_cfg rz_diag rz_env rz_cfg];
  cbn [rz_cpu rz_log env cfg parent_obj cpu_set_env cpu_set_cfg fst snd].

Lemma is_power_of_2_spec (v : Z) :
  is_power_of_2 v = true <-> exists k, 0 <= k /\ v = 2 ^ k.
Proof.
  unfold is_power_of_2. rewrite andb_true_iff, Z.ltb_lt, Z.eqb_eq. split.
  - intros [Hpos Hv]. exists (Z.log2 v). split; [apply Z.log2_nonneg | exact Hv].
  - intros (k & Hk & ->). split; [apply Z.pow_pos_nonneg; lia |].
    rewrite Z.log2_pow2 by assumption. reflexivity.
Qed.

Section realize_properties.

Context `{!cpu_bits} `{!externals}.

(** C10: when the misa a CPU model presets is not the bare RV32 or RV64,
    realize runs none of the checks on the extension properties: it ends
    without error or with the error of [cpu_exec_realizefn] or of the
    privilege-specification string, never with an error about I and E, the
    bitmanip or vector version, or the vector geometry; misa, misa_mask and
    the properties are left as preset, and no warning is raised. *)
Theorem realize_keeps_preset_misa (cpu : RISCVCPU) (local_err : option string) :
  misa (env cpu) <> RV32 ->
  misa (env cpu) <> RV64 ->
  exists cpu' err,
    riscv_cpu_realize cpu local_err = (cpu', err, []) /\
    misa (env cpu') = misa (env cpu) /\
    misa_mask (env cpu') = misa_mask (env cpu) /\
    cfg cpu' = cfg cpu /\
    (err = None \/
     (exists e, err = Some (E_exec_realize e)) \/
     (exists s, err = Some (E_priv_spec s))).
Proof.
  intros H32 H64.
  apply Z.eqb_neq in H32, H64.
  unfold riscv_cpu_realize, realize_steps.
  destruct local_err as [e |]; se_run.
  { do 2 eexists; repeat split; eauto. }
  destruct (priv_spec (cfg cpu)) as [s |].
  - destruct (String.eqb s "v1.11.0");
      [| destruct (String.eqb s "v1.10.0");
         [| do 2 eexists; repeat split; eauto ] ];
      destruct (mmu (cfg cpu)), (cfg_pmp (cfg cpu)), (epmp (cfg cpu)); cbn;
      rewrite H32, H64; cbn; do 2 eexists; repeat split; eauto.
  - destruct (mmu (cfg cpu)), (cfg_pmp (cfg cpu)), (epmp (cfg cpu)); cbn;
      rewrite H32, H64; cbn; do 2 eexists; repeat split; eauto.
Qed.

(** C5, as the code has it: on a CPU whose misa is the bare RV32 or RV64,
    when I and E are both requested or neither is, realize ends with an
    error and without the reset; misa, misa_mask, the properties and the
    generic state are not modified, and of the hart state only priv_ver,
    bext_ver, vext_ver, features and resetvec, which realize writes before
    it checks the extensions, can differ. *)
Theorem realize_rejects_i_e_conflict (cpu : RISCVCPU)
    (local_err : option string) :
  misa (env cpu) = RV32 \/ misa (env cpu) = RV64 ->
  ext_i (cfg cpu) = ext_e (cfg cpu) ->
  exists cpu' err log,
    riscv_cpu_realize cpu local_err = (cpu', Some err, log) /\
    (err = E_ie_incompatible \/ err = E_ie_missing \/
     (exists s, err = E_priv_spec s) \/ (exists e, err = E_exec_realize e)) /\
    misa (env cpu') = misa (env cpu) /\
    misa_mask (env cpu') = misa_mask (env cpu) /\
    cfg cpu' = cfg cpu /\
    parent_obj cpu' = parent_obj cpu /\
    (forall f, f <> PRIV_VER -> f <> BEXT_VER -> f <> VEXT_VER ->
               f <> FEATURES -> f <> RESETVEC ->
               env_get f (env cpu') = env_get f (env cpu)) /\
    gpr (env cpu') = gpr (env cpu) /\ fpr (env cpu') = fpr (env cpu) /\
    two_stage_lookup (env cpu') = two_stage_lookup (env cpu) /\
    pmp_state (env cpu') = pmp_state (env cpu) /\
    fp_status (env cpu') = fp_status (env cpu).
Proof.
  intros Hbase Hie.
  assert (Hmisa : (misa (env cpu) =? RV32) || (misa (env cpu) =? RV64) = true).
  { destruct Hbase as [-> | ->]; rewrite Z.eqb_refl;
      [reflexivity | apply orb_true_r]. }
  unfold riscv_cpu_realize, realize_steps.
  destruct local_err as [e |]; se_run.
  { do 3 eexists. split; [reflexivity |].
    repeat split; eauto 6. }
  destruct (priv_spec (cfg cpu)) as [s |];
    [ destruct (String.eqb s "v1.11.0");
      [| destruct (String.eqb s "v1.10.0");
         [| do 3 eexists; split; [reflexivity |]; repeat split; eauto 6 ] ]
    | ];
    unfold realize_misa_from_properties; se_run;
    destruct (mmu (cfg cpu)), (cfg_pmp (cfg cpu)), (epmp (cfg cpu)); cbn;
    rewrite Hmisa; cbn; rewrite <- Hie;
    destruct (ext_i (cfg cpu)); cbn;
    (do 3 eexists; split; [reflexivity |];
     split; [eauto |]; cbn; repeat split;
     intros f ? ? ? ? ?; destruct f; solve [reflexivity | congruence]).
Qed.

(** The steps of realize before the extension properties are looked at:
    they leave misa, the properties and the log as they were. *)
Lemma realize_steps_prefix (cpu : RISCVCPU) :
  supported_priv_spec (cfg cpu) = true ->
  exists e1,
    misa e1 = misa (env cpu) /\
    realize_steps None {| rz_cpu := cpu; rz_log := [] |}
    = (when ((misa (env cpu) =? RV32) || (misa (env cpu) =? RV64))
         (realize_misa_from_properties (misa (env cpu))
            BEXT_VERSION_0_93_0 VEXT_VERSION_0_07_1) ;;
       modify (fun s =>
         {| rz_cpu := cpu_reset (rz_cpu s); rz_log := rz_log s |}))
        {| rz_cpu := cpu_set_env e1 cpu; rz_log := [] |}.
Proof.
  unfold supported_priv_spec, realize_steps. intros Hpriv. se_run.
  destruct (priv_spec (cfg cpu)) as [s |];
    [ destruct (String.eqb s "v1.11.0");
      [| destruct (String.eqb s "v1.10.0"); [| discriminate Hpriv ] ] | ];
    destruct (mmu (cfg cpu)), (cfg_pmp (cfg cpu)), (epmp (cfg cpu));
    cbn; eexists; (split; [| reflexivity]); reflexivity.
Qed.

(** The block that sets misa from the properties, when its checks pass. *)
Lemma realize_misa_from_properties_ok (s : realizing) (base bv vv : Z) :
  let c := rz_cfg s in
  rz_log s = [] ->
  ext_i c <> ext_e c ->
  (ext_b c = true -> supported_bext_spec c = true) ->
  (ext_v c = true ->
   vector_geometry_accepted c = true /\ supported_vext_spec c = true) ->
  exists s',
    realize_misa_from_properties base bv vv s = (s', inr tt) /\
    misa (rz_env s') = union_of_bits base (requested_bits c) /\
    misa_mask (rz_env s') = union_of_bits base (requested_bits c) /\
    (In (warn_report "Setting G will also set IMAFD") (rz_log s') <->
     g_corrects c = true).
Proof.
  destruct s as [cpu log]. unfold rz_cfg, rz_env. cbn [rz_log rz_cpu].
  intros -> Hie Hb Hv.
  unfold requested_bits.
  rewrite !union_of_bits_app, !union_of_ext_bit.
  assert (Hvg : ext_v (cfg cpu) = true ->
            negb (is_power_of_2 (vlen (cfg cpu))) = false /\
            (RV_VLEN_MAX <? vlen (cfg cpu)) || (vlen (cfg cpu) <? 128) = false /\
            negb (is_power_of_2 (elen (cfg cpu))) = false /\
            (64 <? elen (cfg cpu)) || (vlen (cfg cpu) <? 8) = false).
  { intros Ev. destruct (Hv Ev) as [Hgeo _].
    unfold vector_geometry_accepted in Hgeo.
    apply andb_prop in Hgeo as [Hgeo He64].
    apply andb_prop in Hgeo as [Hgeo Hpe].
    apply andb_prop in Hgeo as [Hgeo H128].
    apply andb_prop in Hgeo as [Hpv Hmax].
    apply Z.leb_le in He64, H128, Hmax.
    rewrite Hpv, Hpe.
    repeat split; try reflexivity;
      apply orb_false_iff; split; apply Z.ltb_ge; lia. }
  unfold realize_misa_from_properties. se_run.
  fold (g_corrects (cfg cpu)).
  destruct (ext_i (cfg cpu)) eqn:Ei, (ext_e (cfg cpu)) eqn:Ee; try congruence; cbn [andb negb].
  all: destruct (g_corrects (cfg cpu)) eqn:Hg; cbn.
  all: unfold g_corrects in Hg; rewrite Ei in Hg.
  all: destruct (ext_b (cfg cpu)) eqn:Eb;
       [ specialize (Hb eq_refl); unfold supported_bext_spec in Hb;
         destruct (bext_spec (cfg cpu)) as [sb |]; [rewrite Hb |] | ]; cbn.
  all: destruct (ext_v (cfg cpu)) eqn:Ev;
       [ destruct (Hvg eq_refl) as (Hv1 & Hv2 & Hv3 & Hv4);
         destruct (Hv eq_refl) as [_ Hvs]; unfold supported_vext_spec in Hvs;
         rewrite Hv1; cbn; rewrite Hv2; cbn; rewrite Hv3; cbn; rewrite Hv4; cbn;
         destruct (vext_spec (cfg cpu)) as [sv |]; [rewrite Hvs |] | ]; cbn.
  all: eexists; split; [reflexivity |]; cbn.
  all: rewrite ?Ei, ?Ee; cbn [misa_or].
  all: split; [| split];
       [ | | clear; cbn; intuition (try discriminate; auto) ].
  all: destruct (ext_g (cfg cpu)), (ext_m (cfg cpu)), (ext_a (cfg cpu)),
         (ext_f (cfg cpu)), (ext_d (cfg cpu));
       try discriminate Hg; reflexivity.
Qed.

(** C6, as the code has it: on a CPU whose misa is the bare RV32 or RV64,
    when exactly one of I and E is requested, [cpu_exec_realizefn] reports
    no error, the privilege-specification string is supported, the bitmanip
    string is supported if B is requested, and the vector geometry and
    string are accepted if V is requested, realize succeeds; misa, and
    misa_mask with it, is the preset base together with the bits of the
    requested extensions, those of I, M, A, F and D being forced on by G;
    the G correction only raises a warning. *)
Theorem realize_sets_requested_misa (cpu : RISCVCPU) :
  misa (env cpu) = RV32 \/ misa (env cpu) = RV64 ->
  ext_i (cfg cpu) <> ext_e (cfg cpu) ->
  supported_priv_spec (cfg cpu) = true ->
  (ext_b (cfg cpu) = true -> supported_bext_spec (cfg cpu) = true) ->
  (ext_v (cfg cpu) = true ->
   vector_geometry_accepted (cfg cpu) = true /\
   supported_vext_spec (cfg cpu) = true) ->
  exists cpu' log,
    riscv_cpu_realize cpu None = (cpu', None, log) /\
    misa (env cpu') = union_of_bits (misa (env cpu)) (requested_bits (cfg cpu)) /\
    misa_mask (env cpu') = misa (env cpu') /\
    (In (warn_report "Setting G will also set IMAFD") log <->
     g_corrects (cfg cpu) = true).
Proof.
  intros Hbase Hie Hpriv Hb Hv.
  assert (Hmisa : (misa (env cpu) =? RV32) || (misa (env cpu) =? RV64) = true).
  { destruct Hbase as [-> | ->]; rewrite Z.eqb_refl;
      [reflexivity | apply orb_true_r]. }
  destruct (realize_steps_prefix cpu Hpriv) as (e1 & He1 & Hsteps).
  destruct (realize_misa_from_properties_ok
              {| rz_cpu := cpu_set_env e1 cpu; rz_log := [] |}
              (misa (env cpu)) BEXT_VERSION_0_93_0 VEXT_VERSION_0_07_1
              eq_refl Hie Hb Hv)
    as (s' & Hblock & Hm & Hmm & Hlog).
  unfold riscv_cpu_realize. rewrite Hsteps, Hmisa.
  cbv beta iota delta [when mbind SE_bind modify].
  rewrite Hblock.
  exists (cpu_reset (rz_cpu s')), (rz_log s').
  split; [reflexivity |].
  unfold cpu_reset.
  destruct (riscv_cpu_reset_config (rz_cpu s')) as (_ & Hr1 & Hr2 & _).
  cbn zeta in Hr1, Hr2. rewrite Hr1, Hr2.
  unfold rz_env in Hm, Hmm. rewrite Hm, Hmm.
  auto.
Qed.


(** The geometry is accepted exactly when none of its checks fails. *)
Lemma vector_error_none (c : RISCVCPUConfig) :
  vector_error c = None <-> vector_geometry_accepted c = true.
Proof.
  unfold vector_error, vector_geometry_accepted.
  destruct (is_power_of_2 (vlen c)), (is_power_of_2 (elen c));
    cbn [negb andb];
    destruct (Z.ltb_spec RV_VLEN_MAX (vlen c)),
             (Z.ltb_spec (vlen c) 128),
             (Z.ltb_spec 64 (elen c)),
             (Z.leb_spec (vlen c) RV_VLEN_MAX),
             (Z.leb_spec 128 (vlen c)),
             (Z.leb_spec (elen c) 64);
    cbn [orb andb]; try lia; split; congruence.
Qed.

(** The block that sets misa from the properties, when the vector geometry
    is not accepted: it ends with the error of the check that fails. *)
Lemma realize_misa_from_properties_vector_error (s : realizing)
    (base bv vv : Z) (err : Error) :
  let c := rz_cfg s in
  ext_i c <> ext_e c ->
  (ext_b c = true -> supported_bext_spec c = true) ->
  ext_v c = true ->
  vector_error c = Some err ->
  exists s', realize_misa_from_properties base bv vv s = (s', inl err).
Proof.
  destruct s as [cpu log]. unfold rz_cfg. cbn [rz_log rz_cpu].
  intros Hie Hb Ev Herr.
  unfold realize_misa_from_properties. se_run.
  fold (g_corrects (cfg cpu)).
  destruct (ext_i (cfg cpu)) eqn:Ei, (ext_e (cfg cpu)) eqn:Ee;
    try congruence; cbn [andb negb].
  all: destruct (g_corrects (cfg cpu)) eqn:Hg; cbn.
  all: destruct (ext_b (cfg cpu)) eqn:Eb;
       [ specialize (Hb eq_refl); unfold supported_bext_spec in Hb;
         destruct (bext_spec (cfg cpu)) as [sb |]; [rewrite Hb |] | ]; cbn.
  all: rewrite Ev; cbn.
  all: unfold vector_error in Herr.
  all: destruct (negb (is_power_of_2 (vlen (cfg cpu)))); cbn;
       [injection Herr as <-; eexists; reflexivity |].
  all: destruct ((RV_VLEN_MAX <? vlen (cfg cpu)) || (vlen (cfg cpu) <? 128))
         eqn:Hrange; cbn;
       [injection Herr as <-; eexists; reflexivity |].
  all: destruct (negb (is_power_of_2 (elen (cfg cpu)))); cbn;
       [injection Herr as <-; eexists; reflexivity |].
  all: destruct (64 <? elen (cfg cpu)); cbn;
       [injection Herr as <-; eexists; reflexivity | discriminate Herr].
Qed.

(** The vector geometry realize accepts: on a CPU whose misa is the bare
    RV32 or RV64, with the vector extension requested and everything else in
    order, realize ends with the error of the first geometry check that
    fails, and without error when none does.  The element length has no
    lower bound among the checks. *)
Theorem realize_checks_vector_geometry (cpu : RISCVCPU) :
  misa (env cpu) = RV32 \/ misa (env cpu) = RV64 ->
  ext_i (cfg cpu) <> ext_e (cfg cpu) ->
  supported_priv_spec (cfg cpu) = true ->
  (ext_b (cfg cpu) = true -> supported_bext_spec (cfg cpu) = true) ->
  ext_v (cfg cpu) = true ->
  supported_vext_spec (cfg cpu) = true ->
  exists cpu' log,
    riscv_cpu_realize cpu None = (cpu', vector_error (cfg cpu), log).
Proof.
  intros Hbase Hie Hpriv Hb Ev Hvs.
  assert (Hmisa : (misa (env cpu) =? RV32) || (misa (env cpu) =? RV64) = true).
  { destruct Hbase as [-> | ->]; rewrite Z.eqb_refl;
      [reflexivity | apply orb_true_r]. }
  destruct (realize_steps_prefix cpu Hpriv) as (e1 & He1 & Hsteps).
  unfold riscv_cpu_realize. rewrite Hsteps, Hmisa.
  cbv beta iota delta [when mbind SE_bind modify].
  destruct (vector_error (cfg cpu)) as [err |] eqn:Herr.
  - destruct (realize_misa_from_properties_vector_error
                {| rz_cpu := cpu_set_env e1 cpu; rz_log := [] |}
                (misa (env cpu)) BEXT_VERSION_0_93_0 VEXT_VERSION_0_07_1 err
                Hie Hb Ev Herr) as (s' & ->).
    do 2 eexists. reflexivity.
  - apply vector_error_none in Herr.
    destruct (realize_misa_from_properties_ok
                {| rz_cpu := cpu_set_env e1 cpu; rz_log := [] |}
                (misa (env cpu)) BEXT_VERSION_0_93_0 VEXT_VERSION_0_07_1
                eq_refl Hie Hb (fun _ => conj Herr Hvs))
      as (s' & -> & _).
    do 2 eexists. reflexivity.
Qed.

End realize_properties.

(** *** Realize on concrete harts *)

(** The witness of [realize_keeps_preset_misa]: on the SiFive U54 model a
    request for both I and E and for vectors of length 96 goes through. *)
Lemma realize_keeps_preset_misa_witness :
  let cpu := sifive_u54_with
               (cfg_set_vector 96 64 (cfg_set_i_e true true
                  riscv_cpu_properties)) in
  misa (env cpu) <> RV32 /\ misa (env cpu) <> RV64 /\
  exists cpu' err,
    riscv_cpu_realize cpu None = (cpu', err, []) /\
    misa (env cpu') = misa (env cpu) /\
    misa_mask (env cpu') = misa_mask (env cpu) /\
    cfg cpu' = cfg cpu /\
    (err = None \/
     (exists e, err = Some (E_exec_realize e)) \/
     (exists s, err = Some (E_priv_spec s))).
Proof.
  intros cpu.
  assert (H32 : misa (env cpu) <> RV32) by (vm_compute; discriminate).
  assert (H64 : misa (env cpu) <> RV64) by (vm_compute; discriminate).
  split; [exact H32 |]. split; [exact H64 |].
  exact (realize_keeps_preset_misa cpu None H32 H64).
Defined.

(** The witness of [realize_rejects_i_e_conflict]: the base model with both
    I and E requested. *)
Lemma realize_rejects_i_e_conflict_witness :
  let cpu := rv64_base_with (cfg_set_i_e true true riscv_cpu_properties) in
  (misa (env cpu) = RV32 \/ misa (env cpu) = RV64) /\
  ext_i (cfg cpu) = ext_e (cfg cpu) /\
  exists cpu' err log,
    riscv_cpu_realize cpu None = (cpu', Some err, log) /\
    misa (env cpu') = misa (env cpu) /\
    cfg cpu' = cfg cpu.
Proof.
  intros cpu.
  assert (Hbase : misa (env cpu) = RV32 \/ misa (env cpu) = RV64)
    by (right; reflexivity).
  assert (Hie : ext_i (cfg cpu) = ext_e (cfg cpu)) by reflexivity.
  split; [exact Hbase |]. split; [exact Hie |].
  destruct (realize_rejects_i_e_conflict cpu None Hbase Hie)
    as (cpu' & err & log & Hrun & _ & Hmisa & _ & Hcfg & _).
  exists cpu', err, log. auto.
Defined.

(** C5, as stated, fails: the realize of the base model with both I and E
    requested ends with the error, but has by then written the reset
    vector, the feature bits and the privilege version of the hart. *)
Lemma realize_failed_has_written_fields :
  let cpu := rv64_base_with (cfg_set_i_e true true riscv_cpu_properties) in
  let '(cpu', err, _) := riscv_cpu_realize cpu None in
  err = Some E_ie_incompatible /\
  resetvec (env cpu') <> resetvec (env cpu) /\
  features (env cpu') <> features (env cpu) /\
  priv_ver (env cpu') <> priv_ver (env cpu).
Proof. vm_compute. repeat split; discriminate. Qed.

(** The witness of [realize_sets_requested_misa]: the base model with the
    property defaults. *)
Lemma realize_sets_requested_misa_witness :
  let cpu := rv64_base_with riscv_cpu_properties in
  (misa (env cpu) = RV32 \/ misa (env cpu) = RV64) /\
  ext_i (cfg cpu) <> ext_e (cfg cpu) /\
  supported_priv_spec (cfg cpu) = true /\
  exists cpu' log,
    riscv_cpu_realize cpu None = (cpu', None, log) /\
    misa (env cpu')
    = union_of_bits (misa (env cpu)) (requested_bits (cfg cpu)).
Proof.
  intros cpu.
  assert (Hbase : misa (env cpu) = RV32 \/ misa (env cpu) = RV64)
    by (right; reflexivity).
  assert (Hie : ext_i (cfg cpu) <> ext_e (cfg cpu)) by discriminate.
  assert (Hpriv : supported_priv_spec (cfg cpu) = true) by reflexivity.
  assert (Hb : ext_b (cfg cpu) = true -> supported_bext_spec (cfg cpu) = true)
    by (intros _; reflexivity).
  assert (Hv : ext_v (cfg cpu) = true ->
               vector_geometry_accepted (cfg cpu) = true /\
               supported_vext_spec (cfg cpu) = true)
    by (intros _; split; reflexivity).
  split; [exact Hbase |]. split; [exact Hie |]. split; [exact Hpriv |].
  destruct (realize_sets_requested_misa cpu Hbase Hie Hpriv Hb Hv)
    as (cpu' & log & Hrun & Hmisa & _).
  exists cpu', log. auto.
Defined.

(** C6, as stated, fails: the base model with I requested, E not, and the
    vector extension with a length of 96 satisfies the rule on I and E, and
    its realize fails. *)
Lemma realize_fails_with_exclusive_i_e :
  let cpu := rv64_base_with (cfg_set_vector 96 64 riscv_cpu_properties) in
  misa (env cpu) = RV64 /\
  ext_i (cfg cpu) = true /\ ext_e (cfg cpu) = false /\
  let '(_, err, _) := riscv_cpu_realize cpu None in
  err = Some E_vlen_pow2.
Proof. vm_compute. repeat split. Qed.

(** C7: the base model with the vector extension requested, a vector
    length of 128 and an element length of 4, which is below 8: realize
    accepts it, and goes on to set the V bit of misa. *)
Lemma realize_accepts_elen_below_8 :
  let cpu := rv64_base_with (cfg_set_vector 128 4 riscv_cpu_properties) in
  let '(cpu', err, _) := riscv_cpu_realize cpu None in
  elen (cfg cpu) = 4 /\
  err = None /\
  Z.land (misa (env cpu')) RVV = RVV.
Proof. vm_compute. repeat split. Qed.

(** The other geometries of the specification: a length of 96 is rejected,
    a length of 256 with elements of 32 accepted. *)
Lemma realize_vector_examples :
  (let '(_, err, _) :=
     riscv_cpu_realize
       (rv64_base_with (cfg_set_vector 96 64 riscv_cpu_properties)) None in
   err = Some E_vlen_pow2) /\
  (let '(_, err, _) :=
     riscv_cpu_realize
       (rv64_base_with (cfg_set_vector 256 32 riscv_cpu_properties)) None in
   err = None) /\
  (let '(_, err, _) :=
     riscv_cpu_realize
       (rv64_base_with (cfg_set_vector 512 32 riscv_cpu_properties)) None in
   err = Some E_vlen_range) /\
  (let '(_, err, _) :=
     riscv_cpu_realize
       (rv64_base_with (cfg_set_vector 128 128 riscv_cpu_properties)) None in
   err = Some E_elen_range).
Proof. vm_compute. repeat split. Qed.

(** The witness of [realize_checks_vector_geometry]: an element length of
    2 passes every check. *)
Lemma realize_checks_vector_geometry_witness :
  let cpu := rv64_base_with (cfg_set_vector 128 2 riscv_cpu_properties) in
  vector_error (cfg cpu) = None /\
  exists cpu' log, riscv_cpu_realize cpu None = (cpu', None, log).
Proof.
  intros cpu.
  assert (Herr : vector_error (cfg cpu) = None) by reflexivity.
  split; [exact Herr |]. rewrite <- Herr.
  apply (realize_checks_vector_geometry cpu).
  - right; reflexivity.
  - discriminate.
  - reflexivity.
  - discriminate.
  - reflexivity.
  - reflexivity.
Defined.

(** ** The snapshot text *)

Section snapshot_properties.

Context `{!cpu_bits} `{!externals}.

(** Every dump begins with a blank: its first record is written with the
    format [" %s " TARGET_FMT_lx "\n"]. *)
Lemma riscv_cpu_dump_state_blank (cpu : RISCVCPU) :
  exists t, riscv_cpu_dump_state cpu = String " " t.
Proof.
  unfold riscv_cpu_dump_state. unfold fprintf_lx at 1.
  cbn [String.append]. eexists. reflexivity.
Qed.

(** A step that ends in an error ends the steps it is followed by. *)
Lemma SE_bind_inl {St E A B} (m : SE St E A) (f : A -> SE St E B)
    (s s' : St) (e : E) :
  m s = (s', inl e) -> (m ≫= f) s = (s', inl e).
Proof. unfold mbind, SE_bind. intros ->. reflexivity. Qed.

(** On a line that begins with a blank the pattern ["pc %lx"] fails at its
    first character: it is an ordinary character, before which [sscanf]
    skips no white space. *)
Lemma sscanf_pc_blank (l : string) : Text.sscanf (String " " l) "pc %lx" = [].
Proof. reflexivity. Qed.

Lemma read_line_cons (n : nat) (c : ascii) (r : string) :
  Text.read_line (S n) (String c r)
  = if Ascii.eqb c Text.LF then (String c "", r)
    else let '(l, r') := Text.read_line n r in (String c l, r').
Proof. reflexivity. Qed.

Lemma fgets_blank (t buf : string) :
  exists l r, Text.fgets FILE_LINE_MAX buf (String " " t) = (String " " l, r).
Proof.
  unfold Text.fgets. change (FILE_LINE_MAX - 1)%nat with (S 98).
  rewrite read_line_cons. change (Ascii.eqb " " Text.LF) with false.
  destruct (Text.read_line 98 t) as [l r]. do 2 eexists. reflexivity.
Qed.

(** The loader stops at its first record on a text that begins with a
    blank, and leaves the hart as it was. *)
Lemma riscv_cpu_load_state_blank (cpu : RISCVCPU) (t buf : string) :
  riscv_cpu_load_state cpu (String " " t) buf
  = (cpu, Some ("Error: failed to read pc" +:+ nl)).
Proof.
  destruct (fgets_blank t buf) as (l & r & Hline).
  assert (Hstep :
    load_scalar "pc %lx" PC "pc"
      {| ld_cpu := cpu; ld_fp := String " " t; ld_str_line := buf |}
    = ({| ld_cpu := cpu; ld_fp := r; ld_str_line := String " " l |},
       inl ("Error: failed to read pc" +:+ nl))).
  { unfold load_scalar, ld_fgets, modify, gets, mbind, SE_bind.
    cbn [ld_cpu ld_fp ld_str_line]. rewrite Hline.
    cbn [ld_str_line]. rewrite sscanf_pc_blank. reflexivity. }
  unfold riscv_cpu_load_state, load_state_records.
  rewrite (SE_bind_inl _ _ _ _ _ Hstep). reflexivity.
Qed.

(** C1: restoring the dump of a hart stops at the first record, whatever
    the hart dumped and whatever the hart restored into, which is left
    unchanged: the restored state is not the dumped one. *)
Theorem riscv_cpu_load_state_rejects_dump (target cpu : RISCVCPU)
    (buf : string) :
  riscv_cpu_load_state target (riscv_cpu_dump_state cpu) buf
  = (target, Some ("Error: failed to read pc" +:+ nl)).
Proof.
  destruct (riscv_cpu_dump_state_blank cpu) as [t ->].
  apply riscv_cpu_load_state_blank.
Qed.

End snapshot_properties.

(** *** What the loader checks of a tag *)

(** C3: in a snapshot the loader accepts, the tag of the record of x5 is
    altered to a name that matches no register.  The restore reports no
    error, stores the value of the altered record, and goes on to restore
    the records after it: it ends as on the unaltered snapshot. *)
Lemma load_state_accepts_altered_register_tag :
  let good := snapshot_of hart_1 in
  let bad := retag 41 "bogus" good in
  record_line 41 "" good = ("x5/t0 000000000000001f" +:+ nl) /\
  record_line 41 "" bad = ("bogus 000000000000001f" +:+ nl) /\
  riscv_cpu_load_state hart_0 bad "" = riscv_cpu_load_state hart_0 good "" /\
  snd (riscv_cpu_load_state hart_0 bad "") = None /\
  elt 0 (gpr (env (fst (riscv_cpu_load_state hart_0 bad "")))) 5 = 0x1f /\
  elt 0 (gpr (env (fst (riscv_cpu_load_state hart_0 bad "")))) 10 = 0x2a /\
  elt 0 (fpr (env (fst (riscv_cpu_load_state hart_0 bad "")))) 2
    = 0x3ff0000000000000.
Proof. vm_compute. repeat split. Qed.

(** The same for the record of a floating-point register. *)
Lemma load_state_accepts_altered_fpr_tag :
  let good := snapshot_of hart_1 in
  let bad := retag 70 "x5/t0" good in
  record_line 70 "" good = ("f2/ft2 3ff0000000000000" +:+ nl) /\
  record_line 70 "" bad = ("x5/t0 3ff0000000000000" +:+ nl) /\
  riscv_cpu_load_state hart_0 bad "" = riscv_cpu_load_state hart_0 good "" /\
  snd (riscv_cpu_load_state hart_0 bad "") = None.
Proof. vm_compute. repeat split. Qed.

(** Of a PMP record the loader reads the index and does not compare it: the
    record of pmpaddr_3 tagged pmpaddr_7 is accepted, on a hart with PMP. *)
Lemma load_state_accepts_altered_pmp_index :
  let target := realized (sifive_u54_with riscv_cpu_properties) in
  let good := snapshot_of target in
  let bad := retag 103 "pmpaddr_7" good in
  record_line 103 "" good = ("pmpaddr_3 0000000000000000" +:+ nl) /\
  record_line 103 "" bad = ("pmpaddr_7 0000000000000000" +:+ nl) /\
  riscv_cpu_load_state target bad "" = riscv_cpu_load_state target good "" /\
  snd (riscv_cpu_load_state target bad "") = None.
Proof. vm_compute. repeat split. Qed.

(** A scalar record is matched against its tag as a prefix: a tag that
    continues with hexadecimal digits is accepted, and the digits are the
    value stored. *)
Lemma load_state_accepts_extended_scalar_tag :
  let bad := retag 0 "pcb" (snapshot_of hart_1) in
  record_line 0 "" bad = ("pcb       0000000080000004" +:+ nl) /\
  snd (riscv_cpu_load_state hart_0 bad "") = None /\
  pc (env (fst (riscv_cpu_load_state hart_0 bad ""))) = 0xb.
Proof. vm_compute. repeat split. Qed.

(** A scalar record under another tag ends the restore with the message of
    its field; the records before it are restored, those after it are not. *)
Lemma load_state_rejects_altered_scalar_tag :
  let bad := retag 3 "bogus" (snapshot_of hart_1) in
  let '(cpu', err) := riscv_cpu_load_state hart_0 bad "" in
  err = Some ("Error: failed to read mip" +:+ nl) /\
  pc (env cpu') = pc (env hart_1) /\
  mhartid (env cpu') = mhartid (env hart_1) /\
  gpr (env cpu') = gpr (env hart_0) /\
  gpr (env hart_0) <> gpr (env hart_1).
Proof. vm_compute. repeat split. discriminate. Qed.

(** The dump of a hart with the leading blanks removed restores into
    another hart of the same configuration every field the snapshot
    holds. *)
Lemma load_state_restores_unindented_dump :
  riscv_cpu_load_state hart_0 (snapshot_of hart_1) "" = (hart_1, None).
Proof. vm_compute. reflexivity. Qed.

(** The dump of hart 1 as it is written, restored into hart 0: the restore
    ends at the first record and hart 0 keeps its own pc and hart id. *)
Lemma load_state_of_dump_example :
  let '(cpu', err) :=
    riscv_cpu_load_state hart_0 (riscv_cpu_dump_state hart_1) "" in
  err = Some ("Error: failed to read pc" +:+ nl) /\
  cpu' = hart_0 /\
  pc (env cpu') = 0x1000 /\ pc (env hart_1) = 0x80000004 /\
  mhartid (env cpu') = 0 /\ mhartid (env hart_1) = 1.
Proof. vm_compute. repeat split. Qed.

(** *** The identity of the hart *)

(** C4, as stated, fails: restoring into hart 0, a 64-bit hart, the
    snapshot of a hart whose id is 1 and whose misa has the RV32 base
    succeeds and leaves hart 0 with that id and that base. *)
Lemma load_state_overwrites_identity :
  let '(cpu', err) := riscv_cpu_load_state hart_0 (snapshot_of hart_rv32) "" in
  err = None /\
  mhartid (env hart_0) = 0 /\ mhartid (env cpu') = 1 /\
  riscv_cpu_is_32bit (env hart_0) = false /\
  riscv_cpu_is_32bit (env cpu') = true /\
  misa (env cpu') <> misa (env hart_0).
Proof. vm_compute. repeat split. discriminate. Qed.

(** *** What a restore can change *)

Section restore_properties.

Context `{!cpu_bits} `{!externals}.

Lemma keeps_ret {A} g (a : A) : keeps g (mret a).
Proof. intros s s' r [= <- _]. reflexivity. Qed.

Lemma keeps_gets {A} g (f : loader -> A) : keeps g (gets f).
Proof. intros s s' r [= <- _]. reflexivity. Qed.

Lemma keeps_throw {A} g (e : string) : keeps g (throw e : SE loader string A).
Proof. intros s s' r [= <- _]. reflexivity. Qed.

Lemma keeps_bind {A B} g (m : SE loader string A) (f : A -> SE loader string B) :
  keeps g m -> (forall a, keeps g (f a)) -> keeps g (m ≫= f).
Proof.
  intros Hm Hf s s' r. unfold mbind, SE_bind.
  destruct (m s) as [s1 [e | a]] eqn:Hms.
  - intros [= <- _]. eapply Hm; eassumption.
  - intros Hfs. rewrite (Hf a _ _ _ Hfs). eapply Hm; eassumption.
Qed.

Lemma keeps_when g (c : bool) (m : SE loader string unit) :
  keeps g m -> keeps g (when c m).
Proof. destruct c; [trivial | intros _; apply keeps_ret]. Qed.

Lemma keeps_for_range g (n lo : nat) (body : nat -> SE loader string unit) :
  (forall i, keeps g (body i)) -> keeps g (for_range lo n body).
Proof.
  intros Hbody. revert lo. induction n as [| n IH]; intros lo; cbn.
  - apply keeps_ret.
  - apply keeps_bind; [apply Hbody | intros _; apply IH].
Qed.

Lemma keeps_set_env g (h : CPURISCVState -> CPURISCVState) :
  (forall e, g (h e) = g e) -> keeps g (modify (ld_set_env h)).
Proof. intros Hh s s' r [= <- _]. cbn. apply Hh. Qed.

Lemma keeps_fgets g : keeps g ld_fgets.
Proof.
  intros s s' r. unfold ld_fgets, modify.
  destruct (Text.fgets _ _ _). intros [= <- _]. reflexivity.
Qed.

Lemma keeps_load_scalar g (fmt : string) (dst : field) (what : string) :
  (forall v e, g (env_set dst v e) = g e) ->
  keeps g (load_scalar fmt dst what).
Proof.
  intros Hg. unfold load_scalar.
  apply keeps_bind; [apply keeps_fgets | intros _].
  apply keeps_bind; [apply keeps_gets | intros line].
  destruct (Text.sscanf line fmt) as [| [v | t] [| ? ?]];
    try apply keeps_throw.
  apply keeps_set_env. intros e. apply Hg.
Qed.

Lemma keeps_load_reg g set get (array : string) (i : nat) :
  (forall l e, g (set l e) = g e) ->
  keeps g (load_reg set get array i).
Proof.
  intros Hg. unfold load_reg.
  apply keeps_bind; [apply keeps_fgets | intros _].
  apply keeps_bind; [apply keeps_gets | intros line].
  destruct (Text.sscanf line "%s %lx") as [| [v | t] [| [v' | t'] [| ? ?]]];
    try apply keeps_throw.
  apply keeps_set_env. intros e. apply Hg.
Qed.

Lemma keeps_load_pmp g (fmt : string) csr_write (array : string) (i : nat) :
  (forall t e, g (env_set_pmp_state t e) = g e) ->
  keeps g (load_pmp fmt csr_write array i).
Proof.
  intros Hg. unfold load_pmp.
  apply keeps_bind; [apply keeps_fgets | intros _].
  apply keeps_bind; [apply keeps_gets | intros line].
  destruct (Text.sscanf line fmt) as [| [v | t] [| [v' | t'] [| ? ?]]];
    try apply keeps_throw.
  apply keeps_set_env. intros e. apply Hg.
Qed.

(** A step that ends without error, taken apart. *)
Lemma SE_bind_inr_inv {St E A B} (m : SE St E A) (f : A -> SE St E B)
    (s s' : St) (b : B) :
  (m ≫= f) s = (s', inr b) ->
  exists a s1, m s = (s1, inr a) /\ f a s1 = (s', inr b).
Proof.
  unfold mbind, SE_bind. destruct (m s) as [s1 [e | a]]; [discriminate |].
  intros Hf. eauto.
Qed.

(** A scalar record that is accepted: the line read matches the pattern,
    and the value converted is stored in the field. *)
Lemma load_scalar_inr (fmt : string) (dst : field) (what : string)
    (cpu : RISCVCPU) (st : string * string) (s' : loader) :
  load_scalar fmt dst what
    {| ld_cpu := cpu; ld_fp := snd st; ld_str_line := fst st |} = (s', inr tt) ->
  exists v,
    Text.sscanf (fst (next_line st)) fmt = [Text.V_int v] /\
    s' = {| ld_cpu := cpu_set_env (env_set dst v (env cpu)) cpu;
            ld_fp := snd (next_line st);
            ld_str_line := fst (next_line st) |}.
Proof.
  unfold load_scalar, ld_fgets, modify, gets, mbind, SE_bind, failed_to_read,
    throw, next_line.
  cbn [ld_cpu ld_fp ld_str_line].
  destruct (Text.fgets _ _ _) as [line rest]. cbn [fst snd ld_str_line ld_cpu].
  destruct (Text.sscanf line fmt) as [| [v | t] [| ? ?]]; try discriminate.
  intros [= <-]. exists v. split; reflexivity.
Qed.

(** The steps after a record leave the field the record stored. *)
Ltac keeps_steps :=
  repeat first
    [ apply keeps_ret
    | apply keeps_gets
    | apply keeps_load_scalar; intros ? ?; reflexivity
    | apply keeps_load_reg; intros ? ?; reflexivity
    | apply keeps_load_pmp; intros ? ?; reflexivity
    | apply keeps_set_env; intros ?; reflexivity
    | apply keeps_when
    | apply keeps_for_range; intros ?
    | apply keeps_bind; [| intros ?] ].

(** One accepted scalar record of a successful run: the value stored is
    [v], and the hart before the record is forgotten. *)
Ltac load_step H v Hv :=
  let Hs := fresh "Hs" in
  let c := fresh "cpu" in
  apply SE_bind_inr_inv in H as ([] & ? & Hs & H);
  apply load_scalar_inr in Hs as (v & Hv & ->);
  match type of H with
  | _ {| ld_cpu := cpu_set_env (env_set ?dst v (env ?c0)) ?c0;
         ld_fp := _; ld_str_line := _ |} = _ =>
      set (c := c0) in H; clearbody c
  end.

(** C4, as the code has it: reset and set_pc leave the hart id and misa,
    and with it the XLEN, as they are; a snapshot restore that succeeds
    leaves in them the values of the mhartid and misa records of the
    snapshot (its second and twenty-sixth line). *)
Theorem hart_identity_after_operations :
  (forall cpu,
     mhartid (env (riscv_cpu_reset cpu)) = mhartid (env cpu) /\
     misa (env (riscv_cpu_reset cpu)) = misa (env cpu) /\
     riscv_cpu_is_32bit (env (riscv_cpu_reset cpu))
       = riscv_cpu_is_32bit (env cpu)) /\
  (forall cpu value,
     mhartid (env (riscv_cpu_set_pc cpu value)) = mhartid (env cpu) /\
     misa (env (riscv_cpu_set_pc cpu value)) = misa (env cpu) /\
     riscv_cpu_is_32bit (env (riscv_cpu_set_pc cpu value))
       = riscv_cpu_is_32bit (env cpu)) /\
  (forall cpu file buf cpu',
     riscv_cpu_load_state cpu file buf = (cpu', None) ->
     Text.sscanf (record_line 1 buf file) "mhartid %lx"
       = [Text.V_int (mhartid (env cpu'))] /\
     Text.sscanf (record_line 25 buf file) "misa %lx"
       = [Text.V_int (misa (env cpu'))]).
Proof.
  split; [| split].
  - intros cpu. repeat split.
  - intros cpu value. repeat split.
  - intros cpu file buf cpu'. unfold riscv_cpu_load_state.
    destruct (load_state_records _) as [s' [msg | []]] eqn:Hrun;
      [discriminate |].
    intros [= <-]. unfold load_state_records in Hrun.
    change buf with (fst (buf, file)) in Hrun at 1.
    change file with (snd (buf, file)) in Hrun at 1.
    load_step Hrun v0 Hv0.
    load_step Hrun v1 Hv1.
    assert (Hid : mhartid (env (ld_cpu s')) = v1).
    { match type of Hrun with
      | ?m ?s = _ =>
          assert (Hk : keeps mhartid m) by keeps_steps;
          exact (Hk _ _ _ Hrun)
      end. }
    do 23 (let v := fresh "v" in let Hv := fresh "Hv" in load_step Hrun v Hv).
    load_step Hrun vm Hvm.
    assert (Hmisa : misa (env (ld_cpu s')) = vm).
    { match type of Hrun with
      | ?m ?s = _ =>
          assert (Hk : keeps misa m) by keeps_steps;
          exact (Hk _ _ _ Hrun)
      end. }
    unfold record_line. cbn [lines_read]. rewrite Hid, Hmisa.
    split; assumption.
Qed.

(** *** The tag check of the scalar records *)

Lemma load_state_records_unfold :
  load_state_records = load_scalars_then scalar_records load_state_tail.
Proof. reflexivity. Qed.

Lemma lines_read_next (n : nat) (st : string * string) :
  lines_read n (next_line st) = lines_read (S n) st.
Proof.
  induction n as [| n IH]; [reflexivity |].
  cbn [lines_read] in *. rewrite IH. reflexivity.
Qed.

(** A scalar record that is refused: the message names its field, and the
    hart is as before. *)
Lemma load_scalar_inl (fmt : string) (dst : field) (what : string)
    (cpu : RISCVCPU) (st : string * string) :
  (forall v, Text.sscanf (fst (next_line st)) fmt <> [Text.V_int v]) ->
  load_scalar fmt dst what
    {| ld_cpu := cpu; ld_fp := snd st; ld_str_line := fst st |}
  = ({| ld_cpu := cpu; ld_fp := snd (next_line st);
        ld_str_line := fst (next_line st) |},
     inl ("Error: failed to read " +:+ what +:+ nl)).
Proof.
  unfold load_scalar, ld_fgets, modify, gets, mbind, SE_bind, failed_to_read,
    throw, next_line.
  cbn [ld_cpu ld_fp ld_str_line].
  destruct (Text.fgets _ _ _) as [line rest]. cbn [fst snd ld_str_line ld_cpu].
  intros Hno.
  destruct (Text.sscanf line fmt) as [| [v | t] [| ? ?]]; try reflexivity.
  destruct (Hno v eq_refl).
Qed.

Lemma load_scalar_accepts (fmt : string) (dst : field) (what : string)
    (cpu : RISCVCPU) (st : string * string) (v : Z) :
  Text.sscanf (fst (next_line st)) fmt = [Text.V_int v] ->
  load_scalar fmt dst what
    {| ld_cpu := cpu; ld_fp := snd st; ld_str_line := fst st |}
  = ({| ld_cpu := cpu_set_env (env_set dst v (env cpu)) cpu;
        ld_fp := snd (next_line st);
        ld_str_line := fst (next_line st) |}, inr tt).
Proof.
  unfold load_scalar, ld_fgets, modify, gets, mbind, SE_bind, failed_to_read,
    throw, next_line.
  cbn [ld_cpu ld_fp ld_str_line].
  destruct (Text.fgets _ _ _) as [line rest]. cbn [fst snd ld_str_line ld_cpu].
  intros ->. reflexivity.
Qed.

(** The scalar records up to the first one that is refused: the steps end
    there with the message of that record, and what the accepted records
    before it do not store is as before. *)
Lemma load_scalars_then_stops (l : list (string * field * string))
    (K : SE loader string unit) (k : nat) (r : string * field * string)
    (s : loader) :
  l !! k = Some r ->
  (forall j rj, (j < k)%nat -> l !! j = Some rj ->
     exists v, Text.sscanf (fst (lines_read (S j) (ld_stream s))) (fst (fst rj))
               = [Text.V_int v]) ->
  (forall v, Text.sscanf (fst (lines_read (S k) (ld_stream s))) (fst (fst r))
             <> [Text.V_int v]) ->
  exists s',
    load_scalars_then l K s
    = (s', inl ("Error: failed to read " +:+ snd r +:+ nl)) /\
    cfg (ld_cpu s') = cfg (ld_cpu s) /\
    parent_obj (ld_cpu s') = parent_obj (ld_cpu s) /\
    forall (A : Type) (g : CPURISCVState -> A),
      (forall j rj, (j < k)%nat -> l !! j = Some rj ->
         forall v e, g (env_set (snd (fst rj)) v e) = g e) ->
      g (env (ld_cpu s')) = g (env (ld_cpu s)).
Proof.
  revert k s. induction l as [| r0 l IH]; intros k s Hk Hacc Hrej.
  { discriminate Hk. }
  destruct s as [cpu fp line]. unfold ld_stream in *.
  cbn [ld_str_line ld_fp ld_cpu] in *.
  change (load_scalars_then (r0 :: l) K)
    with (load_scalar (fst (fst r0)) (snd (fst r0)) (snd r0) ;;
          load_scalars_then l K).
  change fp with (snd (line, fp)). change line with (fst (line, fp)) at 1.
  destruct k as [| k].
  - injection Hk as ->.
    rewrite (SE_bind_inl _ _ _ _ _ (load_scalar_inl _ _ _ _ _ Hrej)).
    eexists. split; [reflexivity |]. cbn. auto.
  - destruct (Hacc 0%nat r0 ltac:(lia) eq_refl) as [v0 Hv0].
    unfold mbind, SE_bind.
    rewrite (load_scalar_accepts _ _ _ _ _ _ Hv0).
    destruct (IH k {| ld_cpu := cpu_set_env (env_set (snd (fst r0)) v0 (env cpu)) cpu;
                      ld_fp := snd (next_line (line, fp));
                      ld_str_line := fst (next_line (line, fp)) |})
      as (s' & Hs' & Hcfg & Hpar & Hkeep).
    + exact Hk.
    + intros j rj Hj Hrj. unfold ld_stream. cbn [ld_str_line ld_fp].
      rewrite <- surjective_pairing, lines_read_next.
      apply (Hacc (S j) rj); [lia | exact Hrj].
    + intros v. unfold ld_stream. cbn [ld_str_line ld_fp].
      rewrite <- surjective_pairing, lines_read_next. apply Hrej.
    + exists s'. split; [exact Hs' |]. split; [exact Hcfg |].
      split; [exact Hpar |].
      intros A g Hg. rewrite (Hkeep A g).
      * cbn. apply (Hg 0%nat r0); [lia | reflexivity].
      * intros j rj Hj Hrj. apply (Hg (S j) rj); [lia | exact Hrj].
Qed.

Lemma parse_format_ordinary (c : ascii) (r : string) :
  ordinary c = true ->
  Text.parse_format (String c r)
  = Text.D_char c :: Text.parse_format r.
Proof.
  destruct c as [[] [] [] [] [] [] [] []]; try discriminate; reflexivity.
Qed.

(** A line that does not begin with the ordinary characters a format begins
    with matches none of its conversions. *)
Lemma sscanf_refuses_other_tag (tag conv line : string) :
  Forall (fun c => ordinary c = true) (list_ascii_of_string tag) ->
  String.prefix tag (Text.c_str line) = false ->
  Text.sscanf line (tag +:+ conv) = [].
Proof.
  unfold Text.sscanf. generalize (Text.c_str line) as s.
  induction tag as [| c tag IH]; intros s Hord Hpre;
    [destruct s; discriminate Hpre |].
  cbn [list_ascii_of_string] in Hord. inversion Hord as [| ? ? Hc Htag]; subst.
  change (String c tag +:+ conv) with (String c (tag +:+ conv)).
  rewrite parse_format_ordinary by assumption.
  destruct s as [| c' s]; [reflexivity |].
  cbn [Text.scan String.prefix] in *.
  destruct (ascii_dec c c') as [-> | Hne].
  - rewrite Ascii.eqb_refl. apply IH; assumption.
  - apply Ascii.eqb_neq in Hne. rewrite Hne. reflexivity.
Qed.

Lemma scalar_records_fields_NoDup :
  NoDup (map (fun r => snd (fst r)) scalar_records).
Proof. refine (bool_decide_unpack _ _). vm_compute. exact I. Qed.

(** The pattern of a scalar record is its name, a blank and one
    conversion; the name is made of ordinary characters. *)
Lemma scalar_records_patterns :
  Forall (fun r =>
            Forall (fun c => ordinary c = true) (list_ascii_of_string (snd r)) /\
            (fst (fst r) = snd r +:+ " %lx" \/ fst (fst r) = snd r +:+ " %x"))
    scalar_records.
Proof.
  repeat constructor; (right; reflexivity) || (left; reflexivity).
Qed.

(** The tag check of the scalar records: when the records before record
    [k] are accepted and the line of record [k] does not begin with its
    tag, the restore ends with the message of that record; the fields of
    that record and of the scalar records after it, the registers and the
    PMP state are as before the restore. *)
Theorem load_state_checks_scalar_tag (k : nat)
    (r : string * field * string) (cpu : RISCVCPU) (file buf : string) :
  scalar_records !! k = Some r ->
  (forall j rj, (j < k)%nat -> scalar_records !! j = Some rj ->
     exists v, Text.sscanf (record_line j buf file) (fst (fst rj))
               = [Text.V_int v]) ->
  String.prefix (snd r) (Text.c_str (record_line k buf file)) = false ->
  exists cpu',
    riscv_cpu_load_state cpu file buf
    = (cpu', Some ("Error: failed to read " +:+ snd r +:+ nl)) /\
    (forall j rj, (k <= j)%nat -> scalar_records !! j = Some rj ->
       env_get (snd (fst rj)) (env cpu') = env_get (snd (fst rj)) (env cpu)) /\
    gpr (env cpu') = gpr (env cpu) /\
    fpr (env cpu') = fpr (env cpu) /\
    pmp_state (env cpu') = pmp_state (env cpu).
Proof.
  intros Hk Hacc Hpre.
  assert (Hrej : forall v,
            Text.sscanf (record_line k buf file) (fst (fst r))
            <> [Text.V_int v]).
  { pose proof scalar_records_patterns as Hpat.
    rewrite Forall_lookup in Hpat. destruct (Hpat k r Hk) as [Hord [-> | ->]];
      intros v; rewrite sscanf_refuses_other_tag by assumption; discriminate. }
  destruct (load_scalars_then_stops scalar_records load_state_tail k r
              {| ld_cpu := cpu; ld_fp := file; ld_str_line := buf |}
              Hk Hacc Hrej) as (s' & Hrun & _ & _ & Hkeep).
  unfold riscv_cpu_load_state. rewrite load_state_records_unfold, Hrun.
  exists (ld_cpu s'). split; [reflexivity |].
  cbn [ld_cpu] in Hkeep. repeat split.
  - intros j rj Hj Hrj. apply Hkeep. intros j' rj' Hj' Hrj' v e.
    apply env_get_set_other. intros Heq.
    assert (j' = j); [| lia].
    eapply (NoDup_lookup _ _ _ _ scalar_records_fields_NoDup);
      rewrite list_lookup_fmap;
      [ rewrite Hrj'; reflexivity
      | rewrite Hrj; cbn; rewrite Heq; reflexivity ].
  - apply Hkeep. intros; reflexivity.
  - apply Hkeep. intros; reflexivity.
  - apply Hkeep. intros; reflexivity.
Qed.

(** *** No tag check for the register records *)

Lemma c_str_token (name r : string) :
  Forall (fun c => Text.isspace c = false /\ c <> Text.NUL)
    (list_ascii_of_string name) ->
  Text.c_str (name +:+ r) = name +:+ Text.c_str r.
Proof.
  induction name as [| c name IH]; intros Hall; [reflexivity |].
  cbn [list_ascii_of_string] in Hall.
  inversion Hall as [| ? ? [_ Hc] Hname]; subst.
  change (String c name +:+ r) with (String c (name +:+ r)).
  cbn [Text.c_str]. apply Ascii.eqb_neq in Hc. rewrite Hc, IH by assumption.
  reflexivity.
Qed.

Lemma scan_token_token (name r : string) :
  Forall (fun c => Text.isspace c = false /\ c <> Text.NUL)
    (list_ascii_of_string name) ->
  Text.scan_token (name +:+ String " " r) = (name, String " " r).
Proof.
  induction name as [| c name IH]; intros Hall; [reflexivity |].
  cbn [list_ascii_of_string] in Hall.
  inversion Hall as [| ? ? [Hc _] Hname]; subst.
  change (String c name +:+ String " " r)
    with (String c (name +:+ String " " r)).
  cbn [Text.scan_token]. rewrite Hc, IH by assumption. reflexivity.
Qed.

Lemma skip_space_idem (s : string) :
  Text.skip_space (Text.skip_space s) = Text.skip_space s.
Proof.
  induction s as [| c s IH]; [reflexivity |].
  cbn [Text.skip_space]. destruct (Text.isspace c) eqn:Hc; [exact IH |].
  cbn [Text.skip_space]. rewrite Hc. reflexivity.
Qed.

Lemma scan_lx_skip_space (s : string) :
  Text.scan_lx (Text.skip_space s) = Text.scan_lx s.
Proof. unfold Text.scan_lx. rewrite skip_space_idem. reflexivity. Qed.

(** What the pattern of the register records makes of a record: the name
    is stored whatever it is, and the rest of the line alone decides whether
    the record is accepted and with what value. *)
Lemma sscanf_register_record (name rest : string) :
  token name ->
  Text.sscanf (name +:+ " " +:+ rest) "%s %lx"
  = Text.V_str name :: Text.sscanf rest "%lx".
Proof.
  intros [Hne Hall]. unfold Text.sscanf.
  change (" " +:+ rest) with (String " " rest).
  rewrite c_str_token by assumption.
  change (Text.c_str (String " " rest)) with (String " " (Text.c_str rest)).
  change (Text.parse_format "%s %lx")
    with [Text.D_s; Text.D_space; Text.D_lx].
  change (Text.parse_format "%lx") with [Text.D_lx].
  cbn [Text.scan]. unfold Text.scan_s.
  assert (Hskip : Text.skip_space (name +:+ String " " (Text.c_str rest))
                  = name +:+ String " " (Text.c_str rest)).
  { destruct name as [| c name]; [congruence |].
    cbn [list_ascii_of_string] in Hall.
    inversion Hall as [| ? ? [Hc _] _]; subst.
    change (String c name +:+ String " " (Text.c_str rest))
      with (String c (name +:+ String " " (Text.c_str rest))).
    cbn [Text.skip_space]. rewrite Hc. reflexivity. }
  rewrite Hskip.
  destruct (name +:+ String " " (Text.c_str rest)) as [| c0 s0] eqn:Hcat.
  { destruct name; [congruence | discriminate Hcat]. }
  rewrite <- Hcat, scan_token_token by assumption.
  f_equal.
  change (Text.skip_space (String " " (Text.c_str rest)))
    with (Text.skip_space (Text.c_str rest)).
  rewrite scan_lx_skip_space. reflexivity.
Qed.

End restore_properties.

(** The witness of [hart_identity_after_operations]: the restore of the
    snapshot of the 32-bit hart into hart 0. *)
Lemma hart_identity_after_operations_witness :
  let file := snapshot_of hart_rv32 in
  let cpu' := fst (riscv_cpu_load_state hart_0 file "") in
  riscv_cpu_load_state hart_0 file "" = (cpu', None) /\
  Text.sscanf (record_line 1 "" file) "mhartid %lx"
    = [Text.V_int (mhartid (env cpu'))] /\
  Text.sscanf (record_line 25 "" file) "misa %lx"
    = [Text.V_int (misa (env cpu'))].
Proof.
  intros file cpu'.
  assert (Hrun : riscv_cpu_load_state hart_0 file "" = (cpu', None))
    by (vm_compute; reflexivity).
  split; [exact Hrun |].
  exact (proj2 (proj2 hart_identity_after_operations) hart_0 file "" cpu' Hrun).
Defined.

(** The witness of [load_state_checks_scalar_tag]: the record of mip under
    another tag. *)
Lemma load_state_checks_scalar_tag_witness :
  let file := retag 3 "bogus" (snapshot_of hart_1) in
  scalar_records !! 3%nat = Some ("mip %lx"%string, MIP, "mip"%string) /\
  String.prefix "mip" (Text.c_str (record_line 3 "" file)) = false /\
  exists cpu',
    riscv_cpu_load_state hart_0 file ""
    = (cpu', Some ("Error: failed to read " +:+ "mip" +:+ nl)) /\
    gpr (env cpu') = gpr (env hart_0).
Proof.
  intros file.
  assert (Hk : scalar_records !! 3%nat
               = Some ("mip %lx"%string, MIP, "mip"%string)) by reflexivity.
  assert (Hpre : String.prefix "mip" (Text.c_str (record_line 3 "" file))
                 = false) by (vm_compute; reflexivity).
  split; [exact Hk |]. split; [exact Hpre |].
  destruct (load_state_checks_scalar_tag 3 _ hart_0 file "" Hk) as
    (cpu' & Hrun & _ & Hgpr & _).
  - intros j rj Hj Hrj.
    destruct j as [| [| [| j]]]; [| | | lia];
      injection Hrj as <-; eexists; vm_compute; reflexivity.
  - exact Hpre.
  - exists cpu'. split; assumption.
Defined.

(** The witness of [sscanf_register_record]: a record of x5 and the same
    record under another name. *)
Lemma sscanf_register_record_witness :
  token "bogus" /\
  Text.sscanf ("bogus" +:+ " " +:+ "000000000000001f") "%s %lx"
  = Text.V_str "bogus" :: Text.sscanf "000000000000001f" "%lx".
Proof.
  assert (Htok : token "bogus").
  { split; [discriminate |].
    repeat constructor; discriminate. }
  split; [exact Htok |].
  exact (sscanf_register_record "bogus" "000000000000001f" Htok).
Defined.

(** ** Trap names *)

(** The name of a trap is the placeholder exactly when the cause is past
    the end of its table: 16 entries for the interrupts, 24 for the
    exceptions. *)
Theorem riscv_cpu_get_trap_name_unknown (cause : Z) (async : bool) :
  riscv_cpu_get_trap_name cause async = "(unknown)"%string <->
  (if async then 16 else 24) <= cause.
Proof.
  unfold riscv_cpu_get_trap_name, ARRAY_SIZE.
  destruct async; cbn [length riscv_intr_names riscv_excp_names].
  - destruct (Z.ltb_spec cause (Z.of_nat 16)) as [Hlt | Hge];
      [| split; [lia | reflexivity]].
    split; [| lia]. intros Hname. exfalso.
    assert (Hn : (Z.to_nat cause < 16)%nat) by lia.
    revert Hname Hn. generalize (Z.to_nat cause) as n. intros n.
    do 16 (destruct n as [| n]; [discriminate |]). lia.
  - destruct (Z.ltb_spec cause (Z.of_nat 24)) as [Hlt | Hge];
      [| split; [lia | reflexivity]].
    split; [| lia]. intros Hname. exfalso.
    assert (Hn : (Z.to_nat cause < 24)%nat) by lia.
    revert Hname Hn. generalize (Z.to_nat cause) as n. intros n.
    do 24 (destruct n as [| n]; [discriminate |]). lia.
Qed.

(** ** The ISA string *)

Lemma isa_letters_length (rv : ascii -> Z) (m : Z) (exts : string) :
  (String.length (isa_letters rv m exts) <= String.length exts)%nat.
Proof.
  induction exts as [| c r IH]; cbn [isa_letters String.length]; [lia |].
  destruct (negb _); cbn [String.length]; lia.
Qed.

Lemma length_append (s t : string) :
  String.length (s +:+ t) = (String.length s + String.length t)%nat.
Proof.
  induction s as [| c s IH]; [reflexivity |].
  change (String c s +:+ t) with (String c (s +:+ t)).
  cbn [String.length]. rewrite IH. reflexivity.
Qed.

Lemma rv64_prefix (letters : string) :
  ("rv" +:+ "64" +:+ letters)%string = ("rv64" +:+ letters)%string.
Proof. reflexivity. Qed.

Lemma riscv_isa_string_unfold (rv : ascii -> Z) (cpu : RISCVCPU) :
  riscv_isa_string rv cpu
  = ("rv64" +:+ isa_letters rv (misa (env cpu)) riscv_exts)%string.
Proof.
  unfold riscv_isa_string.
  replace (Text.fmt_d 64) with "64"%string by (vm_compute; reflexivity).
  apply rv64_prefix.
Qed.

(** The ISA string and its terminating NUL fit the buffer
    [riscv_isa_string] allocates, whatever misa holds. *)
Theorem riscv_isa_string_fits (rv : ascii -> Z) (cpu : RISCVCPU) :
  (String.length (riscv_isa_string rv cpu) + 1 <= isa_maxlen)%nat.
Proof.
  rewrite riscv_isa_string_unfold, length_append.
  change (String.length "rv64") with 4%nat.
  pose proof (isa_letters_length rv (misa (env cpu)) riscv_exts) as Hlen.
  change (String.length riscv_exts) with 26%nat in Hlen.
  change isa_maxlen with 33%nat. lia.
Qed.

Lemma isa_letters_In (rv : ascii -> Z) (m : Z) (exts : string) (x : ascii) :
  In x (list_ascii_of_string (isa_letters rv m exts)) <->
  exists c, In c (list_ascii_of_string exts) /\ Z.land m (rv c) <> 0 /\
            qemu_tolower c = x.
Proof.
  induction exts as [| c r IH]; cbn [isa_letters list_ascii_of_string In].
  - split; [intros [] | intros (c & [] & _)].
  - destruct (Z.eqb_spec (Z.land m (rv c)) 0) as [Hz | Hnz]; cbn [negb].
    + rewrite IH. split.
      * intros (c' & Hin & Hbit & Hx). exists c'. auto.
      * intros (c' & [<- | Hin] & Hbit & Hx); [contradiction |].
        exists c'. auto.
    + cbn [list_ascii_of_string In]. rewrite IH. split.
      * intros [<- | (c' & Hin & Hbit & Hx)]; [exists c; auto |].
        exists c'. auto.
      * intros (c' & [<- | Hin] & Hbit & Hx); [left; exact Hx |].
        right. exists c'. auto.
Qed.

Lemma riscv_exts_tolower_NoDup :
  NoDup (map qemu_tolower (list_ascii_of_string riscv_exts)).
Proof. refine (bool_decide_unpack _ _). vm_compute. exact I. Qed.

Lemma NoDup_map_In_inj {A B} `{EqDecision A} (f : A -> B) (l : list A) (a b : A) :
  NoDup (map f l) -> In a l -> In b l -> f a = f b -> a = b.
Proof.
  induction l as [| x l IH]; [intros _ [] |].
  cbn [map In]. intros Hnd Ha Hb Hf.
  apply NoDup_cons in Hnd as [Hx Hnd].
  destruct Ha as [<- | Ha], Hb as [<- | Hb]; try reflexivity.
  - exfalso. apply Hx. rewrite Hf. apply list_elem_of_In, in_map, Hb.
  - exfalso. apply Hx. rewrite <- Hf. apply list_elem_of_In, in_map, Ha.
  - apply IH; assumption.
Qed.

(** The ISA string is [rv64] followed by lower-case letters, and the
    letter of an extension is among them exactly when the bit of the
    extension is set in misa. *)
Theorem riscv_isa_string_letters (rv : ascii -> Z) (cpu : RISCVCPU) :
  exists letters,
    riscv_isa_string rv cpu = ("rv64" +:+ letters)%string /\
    forall c, In c (list_ascii_of_string riscv_exts) ->
      (In (qemu_tolower c) (list_ascii_of_string letters) <->
       Z.land (misa (env cpu)) (rv c) <> 0).
Proof.
  exists (isa_letters rv (misa (env cpu)) riscv_exts).
  split; [apply riscv_isa_string_unfold |].
  intros c Hc. rewrite isa_letters_In. split.
  - intros (c' & Hc' & Hbit & Hlow).
    rewrite <- (NoDup_map_In_inj qemu_tolower _ c' c
                  riscv_exts_tolower_NoDup Hc' Hc Hlow).
    exact Hbit.
  - intros Hbit. exists c. auto.
Qed.

(** ** The list of CPU models *)

Lemma substring_0_append (s t : string) :
  String.substring 0 (String.length s) (s +:+ t) = s.
Proof.
  induction s as [| c s IH].
  - destruct t; reflexivity.
  - change (String c s +:+ t) with (String c (s +:+ t)).
    cbn [String.length String.substring]. rewrite IH. reflexivity.
Qed.

(** The line printed for a class whose name is a model name with the
    suffix appended is the model name. *)
Theorem riscv_cpu_list_entry_strips_suffix (suffix name : string) :
  Z.of_nat (String.length name) <= Int.INT_MAX ->
  riscv_cpu_list_entry suffix (RISCV_CPU_TYPE_NAME suffix name)
  = (name +:+ nl)%string.
Proof.
  unfold Int.INT_MAX. intros Hlen.
  unfold riscv_cpu_list_entry, RISCV_CPU_TYPE_NAME.
  rewrite length_append.
  replace (Z.of_nat (String.length name + String.length suffix)
           - Z.of_nat (String.length suffix))
    with (Z.of_nat (String.length name)) by lia.
  unfold Int.to_u64, Int.u64_modulus.
  rewrite Z.mod_small by lia.
  rewrite to_int_small by lia.
  destruct (Z.ltb_spec (Z.of_nat (String.length name)) 0) as [Hneg | _]; [lia |].
  rewrite Nat2Z.id, substring_0_append. reflexivity.
Qed.

(** A class name shorter than the suffix is printed whole: the length
    computed is negative. *)
Theorem riscv_cpu_list_entry_short_name (suffix typename : string) :
  (String.length typename < String.length suffix)%nat ->
  Z.of_nat (String.length suffix) <= Int.INT_MAX ->
  riscv_cpu_list_entry suffix typename = (typename +:+ nl)%string.
Proof.
  unfold Int.INT_MAX. intros Hshort Hlen.
  unfold riscv_cpu_list_entry.
  set (d := Z.of_nat (String.length typename) - Z.of_nat (String.length suffix)).
  assert (Hd : - 2 ^ 31 < d < 0) by (unfold d; lia).
  assert (Hint : Int.to_int (Int.to_u64 d) = d).
  { unfold Int.to_int, Int.to_u64, Int.u64_modulus, Int.u32_modulus.
    replace (d mod 2 ^ 64) with (d + 2 ^ 64)
      by (apply Z.mod_unique with (q := -1); lia).
    replace ((d + 2 ^ 64) mod 2 ^ 32) with (d + 2 ^ 32)
      by (apply Z.mod_unique with (q := 2 ^ 32 - 1); lia).
    destruct (Z.ltb_spec (d + 2 ^ 32) (2 ^ 31)); lia. }
  rewrite Hint.
  destruct (Z.ltb_spec d 0); [reflexivity | lia].
Qed.

(** ** More on reset *)

Section reset_frame.

Context `{!cpu_bits} `{!externals}.

(** Reset run on a hart whose fields are named. *)
Ltac reset_run :=
  cbv -[Z.land Z.lnot Z.lor Z.eqb Int.to_u64 pmp_state_zero parent_reset
        PRV_M MSTATUS_MIE MSTATUS_MPRV RISCV_EXCP_NONE In].

(** A second reset changes nothing of the hart state, of the properties or
    of the pending-exception index. *)
Theorem riscv_cpu_reset_idempotent (cpu : RISCVCPU) :
  env (riscv_cpu_reset (riscv_cpu_reset cpu)) = env (riscv_cpu_reset cpu) /\
  cfg (riscv_cpu_reset (riscv_cpu_reset cpu)) = cfg (riscv_cpu_reset cpu) /\
  exception_index (parent_obj (riscv_cpu_reset (riscv_cpu_reset cpu)))
  = exception_index (parent_obj (riscv_cpu_reset cpu)).
Proof.
  destruct cpu as [cs e c]. destruct e. reset_run.
  rewrite <- Z.land_assoc, Z.land_diag. split; [reflexivity |].
  split; reflexivity.
Qed.

(** What reset leaves alone: the registers, the interrupt state (and with
    it whether the hart has work), the delegation, counter and tval
    registers, the bits of mstatus other than MIE and MPRV, and every other
    scalar field it does not assign. *)
Theorem riscv_cpu_reset_frame (cpu : RISCVCPU) :
  let e := env cpu in
  let e' := env (riscv_cpu_reset cpu) in
  gpr e' = gpr e /\ fpr e' = fpr e /\
  riscv_cpu_has_work (riscv_cpu_reset cpu) = riscv_cpu_has_work cpu /\
  Z.land (mstatus e') (Z.lnot (Z.lor MSTATUS_MIE MSTATUS_MPRV))
  = Z.land (mstatus e) (Z.lnot (Z.lor MSTATUS_MIE MSTATUS_MPRV)) /\
  (forall f,
     ~ In f [PRIV; MSTATUS; MCAUSE; PC; SATP; SCAUSE; SEPC; STVEC; MEPC;
             MTVEC; LOAD_RES] ->
     env_get f e' = env_get f e) /\
  float_rounding_mode (fp_status e') = float_rounding_mode (fp_status e).
Proof.
  destruct cpu as [cs e c]. destruct e. reset_run.
  split; [reflexivity |]. split; [reflexivity |].
  split; [reflexivity |]. split.
  { rewrite <- Z.land_assoc, Z.land_diag. reflexivity. }
  split; [| reflexivity].
  intros f Hf.
  destruct f; try reflexivity; exfalso; apply Hf; cbn [In];
    repeat first [left; reflexivity | right].
Qed.

(** A reset forgets the pc set before it: the hart restarts at its reset
    vector. *)
Theorem riscv_cpu_reset_after_set_pc (cpu : RISCVCPU) (value : Z) :
  riscv_cpu_reset (riscv_cpu_set_pc cpu value) = riscv_cpu_reset cpu.
Proof. destruct cpu as [cs e c]. destruct e. reset_run. reflexivity. Qed.

End reset_frame.

(** ** More on the reset unit *)

Section d_reset_frame.

Context `{!cpu_bits} `{!externals}.

(** A write of the reset status at offset 0 asks for a reset of the whole
    system and resets no hart itself, whatever the upper bits of the
    value. *)
Theorem d_reset_write_system_reset (m : Machine) (val64 size : Z) :
  Z.land val64 0xffff = FINISHER_RESET ->
  d_reset_write m 0 val64 size
  = Return {| cpus := cpus m;
              reset_requests :=
                reset_requests m ++ [SHUTDOWN_CAUSE_GUEST_RESET];
              guest_errors := guest_errors m |}.
Proof.
  intros Hst. unfold d_reset_write.
  rewrite !to_int_land_0xffff, Hst. reflexivity.
Qed.

(** A write whose status is none of the three known ones changes nothing
    but the log of guest errors, which gets the offset and the value. *)
Theorem d_reset_write_unknown_status (m : Machine) (addr val64 size : Z) :
  Z.land val64 0xffff <> FINISHER_FAIL ->
  Z.land val64 0xffff <> FINISHER_PASS ->
  Z.land val64 0xffff <> FINISHER_RESET ->
  d_reset_write m addr val64 size
  = Return {| cpus := cpus m;
              reset_requests := reset_requests m;
              guest_errors := guest_errors m ++ [(addr, val64)] |}.
Proof.
  intros Hf Hp Hr. unfold d_reset_write.
  rewrite !to_int_land_0xffff.
  apply Z.eqb_neq in Hf, Hp, Hr. rewrite Hf, Hp, Hr. reflexivity.
Qed.

(** A write of the reset status at an offset that addresses no hart of the
    machine goes through the null pointer the hart lookup returns. *)
Theorem d_reset_write_missing_hart (m : Machine) (t : nat) (val64 size : Z) :
  (1 <= t)%nat ->
  Z.of_nat t <= Int.INT_MAX ->
  (length (cpus m) <= t)%nat ->
  Z.land val64 0xffff = FINISHER_RESET ->
  d_reset_write m (4 * Z.of_nat t) val64 size = NullDereference.
Proof.
  intros Ht Hint Hlen Hst. unfold d_reset_write.
  rewrite hartid_of_offset by assumption.
  rewrite !to_int_land_0xffff, Hst.
  destruct (Z.eqb_spec (4 * Z.of_nat t) 0) as [Hzero | _]; [lia |].
  unfold qemu_get_cpu.
  destruct (Z.ltb_spec (Z.of_nat t) 0) as [Hneg | _]; [lia |].
  rewrite Nat2Z.id, (lookup_ge_None_2 _ _ Hlen). reflexivity.
Qed.

(** What a write that returns can have changed: the machine keeps its
    harts, each as it was or, for the one hart the offset addresses, reset;
    a hart is reset only by a write at a non-zero offset, and then neither
    a system reset is requested nor an error logged. *)
Theorem d_reset_write_frame (m m' : Machine) (addr val64 size : Z) :
  d_reset_write m addr val64 size = Return m' ->
  length (cpus m') = length (cpus m) /\
  (forall j c',
     cpus m' !! j = Some c' ->
     exists c, cpus m !! j = Some c /\
       (c' = c \/
        (c' = riscv_cpu_reset c /\ addr <> 0 /\
         Z.of_nat j = Int.to_int (Z.shiftr addr 2) /\
         reset_requests m' = reset_requests m /\
         guest_errors m' = guest_errors m))) /\
  (reset_requests m' = reset_requests m \/
   (addr = 0 /\ cpus m' = cpus m /\
    reset_requests m' = reset_requests m ++ [SHUTDOWN_CAUSE_GUEST_RESET])).
Proof.
  unfold d_reset_write.
  destruct (_ =? FINISHER_FAIL); [discriminate |].
  destruct (_ =? FINISHER_PASS); [discriminate |].
  destruct (_ =? FINISHER_RESET).
  - destruct (Z.eqb_spec addr 0) as [Hzero | Hnz].
    + intros [= <-]. cbn. split; [reflexivity |]. split; [eauto | auto].
    + unfold qemu_get_cpu.
      destruct (Z.ltb_spec (Int.to_int (Z.shiftr addr 2)) 0) as [Hneg | Hpos];
        [discriminate |].
      destruct (cpus m !! Z.to_nat (Int.to_int (Z.shiftr addr 2)))
        as [c |] eqn:Hc; [| discriminate].
      intros [= <-]. cbn. split; [apply length_insert |].
      split; [| left; reflexivity].
      intros j c'.
      destruct (decide (j = Z.to_nat (Int.to_int (Z.shiftr addr 2))))
        as [-> | Hj].
      * rewrite list_lookup_insert_eq by (eapply lookup_lt_Some; eassumption).
        intros [= <-]. exists c. split; [exact Hc |]. right.
        repeat split; [exact Hnz | lia].
      * rewrite list_lookup_insert_ne by congruence. eauto.
  - intros [= <-]. cbn. split; [reflexivity |]. split; [eauto | auto].
Qed.

(** Hart 0 is never reset on its own: after a write at a word-aligned
    offset that returns, hart 0 is as before. *)
Theorem d_reset_write_keeps_hart_0 (m m' : Machine) (addr val64 size : Z) :
  0 <= addr < 2 ^ 33 ->
  addr mod 4 = 0 ->
  d_reset_write m addr val64 size = Return m' ->
  cpus m' !! 0%nat = cpus m !! 0%nat.
Proof.
  intros Hrange Halign.
  assert (Hid : Int.to_int (Z.shiftr addr 2) = addr / 4).
  { rewrite Z.shiftr_div_pow2 by lia. apply to_int_small.
    change (2 ^ 2) with 4. split; [apply Z.div_pos; lia |].
    apply Z.div_lt_upper_bound; lia. }
  unfold d_reset_write.
  destruct (_ =? FINISHER_FAIL); [discriminate |].
  destruct (_ =? FINISHER_PASS); [discriminate |].
  destruct (_ =? FINISHER_RESET).
  - destruct (Z.eqb_spec addr 0) as [Hzero | Hnz]; [intros [= <-]; reflexivity |].
    destruct (qemu_get_cpu m _) as [c |]; [| discriminate].
    intros [= <-]. cbn. apply list_lookup_insert_ne.
    rewrite Hid.
    assert (0 < addr / 4); [| lia].
    apply Z.div_str_pos.
    pose proof (Z.div_mod addr 4 ltac:(lia)). lia.
  - intros [= <-]. reflexivity.
Qed.

End d_reset_frame.

(** ** What a run of steps preserves *)

Section preserves_steps.

Context {St E : Type} (P : St -> Prop).

Lemma preserves_ret {A} (a : A) : preserves P (mret a : SE St E A).
Proof. intros s s' r HP [= <- _]. exact HP. Qed.

Lemma preserves_gets {A} (f : St -> A) : preserves P (gets f : SE St E A).
Proof. intros s s' r HP [= <- _]. exact HP. Qed.

Lemma preserves_throw {A} (e : E) : preserves P (throw e : SE St E A).
Proof. intros s s' r HP [= <- _]. exact HP. Qed.

Lemma preserves_modify (f : St -> St) :
  (forall s, P s -> P (f s)) -> preserves P (modify f : SE St E unit).
Proof. intros Hf s s' r HP [= <- _]. apply Hf, HP. Qed.

Lemma preserves_bind {A B} (m : SE St E A) (f : A -> SE St E B) :
  preserves P m -> (forall a, preserves P (f a)) -> preserves P (m ≫= f).
Proof.
  intros Hm Hf s s' r HP. unfold mbind, SE_bind.
  destruct (m s) as [s1 [e | a]] eqn:Hms.
  - intros [= <- _]. eapply Hm; eassumption.
  - intros Hfs. eapply Hf; [| exact Hfs]. eapply Hm; eassumption.
Qed.

(** The steps after a value is read from the state run on that state. *)
Lemma preserves_gets_bind {A B} (g : St -> A) (k : A -> SE St E B) :
  (forall s s' r, P s -> k (g s) s = (s', r) -> P s') ->
  preserves P (gets g ≫= k).
Proof. intros Hk s s' r HP. unfold mbind, SE_bind, gets. apply Hk, HP. Qed.

Lemma preserves_when (c : bool) (m : SE St E unit) :
  preserves P m -> preserves P (when c m).
Proof. destruct c; [trivial | intros _; apply preserves_ret]. Qed.

Lemma preserves_if {A} (c : bool) (m1 m2 : SE St E A) :
  preserves P m1 -> preserves P m2 -> preserves P (if c then m1 else m2).
Proof. destruct c; trivial. Qed.

Lemma preserves_for_range (n lo : nat) (body : nat -> SE St E unit) :
  (forall i, preserves P (body i)) -> preserves P (for_range lo n body).
Proof.
  intros Hbody. revert lo. induction n as [| n IH]; intros lo; cbn.
  - apply preserves_ret.
  - apply preserves_bind; [apply Hbody | intros _; apply IH].
Qed.

End preserves_steps.

(** ** More on realize *)

Lemma land_lor_absorb (base x b : Z) :
  Z.land base b = b -> Z.land (Z.lor base x) b = b.
Proof.
  intros Hb. apply Z.bits_inj'; intros n Hn.
  assert (Hbn : Z.testbit (Z.land base b) n = Z.testbit b n) by (rewrite Hb; reflexivity).
  rewrite Z.land_spec in Hbn. rewrite Z.land_spec, Z.lor_spec.
  destruct (Z.testbit base n), (Z.testbit b n), (Z.testbit x n);
    cbn in *; congruence.
Qed.

Lemma union_of_bits_has_base (base b : Z) (bits : list Z) :
  Z.land base b = b -> Z.land (union_of_bits base bits) b = b.
Proof.
  revert base. induction bits as [| x bits IH]; intros base Hb; [exact Hb |].
  apply (IH (Z.lor base x)), land_lor_absorb, Hb.
Qed.

Lemma union_of_bits_has_bit (base b : Z) (bits : list Z) :
  In b bits -> Z.land (union_of_bits base bits) b = b.
Proof.
  revert base. induction bits as [| x bits IH]; intros base [].
  - subst x. apply (union_of_bits_has_base (Z.lor base b)).
    rewrite Z.lor_comm. apply land_lor_absorb, Z.land_diag.
  - apply (IH (Z.lor base x)); assumption.
Qed.

Section realize_frame.

Context `{!cpu_bits} `{!externals}.

(** The fields realize writes before it looks at the extensions. *)
Lemma realize_steps_prefix_state (cpu : RISCVCPU) :
  supported_priv_spec (cfg cpu) = true ->
  let c := cfg cpu in
  let e1 :=
    set_resetvec (cfg_resetvec c)
      (configured_features c
         (set_vext_version VEXT_VERSION_0_07_1
            (set_bext_version BEXT_VERSION_0_93_0
               (set_priv_version (selected_priv_version c) (env cpu))))) in
  realize_steps None {| rz_cpu := cpu; rz_log := [] |}
  = (when ((misa (env cpu) =? RV32) || (misa (env cpu) =? RV64))
       (realize_misa_from_properties (misa (env cpu))
          BEXT_VERSION_0_93_0 VEXT_VERSION_0_07_1) ;;
     modify (fun s =>
       {| rz_cpu := cpu_reset (rz_cpu s); rz_log := rz_log s |}))
      {| rz_cpu := cpu_set_env e1 cpu; rz_log := [] |}.
Proof.
  unfold supported_priv_spec, realize_steps, selected_priv_version,
    configured_features.
  intros Hpriv. se_run.
  destruct (priv_spec (cfg cpu)) as [s |];
    [ destruct (String.eqb s "v1.11.0") eqn:E11;
      [ apply String.eqb_eq in E11; subst s
      | destruct (String.eqb s "v1.10.0"); [| discriminate Hpriv ] ] | ];
    destruct (mmu (cfg cpu)), (cfg_pmp (cfg cpu)), (epmp (cfg cpu));
    reflexivity.
Qed.

(** An error of [cpu_exec_realizefn] or an unsupported privilege
    specification ends realize before its first write: the hart is left as
    it was, and nothing is logged. *)
Theorem realize_early_error_leaves_hart (cpu : RISCVCPU)
    (local_err : option string) :
  local_err <> None \/ supported_priv_spec (cfg cpu) = false ->
  exists err,
    riscv_cpu_realize cpu local_err = (cpu, Some err, []) /\
    match local_err with
    | Some e => err = E_exec_realize e
    | None => exists s, priv_spec (cfg cpu) = Some s /\ err = E_priv_spec s
    end.
Proof.
  intros Hearly. unfold riscv_cpu_realize, realize_steps.
  destruct local_err as [e |]; se_run.
  { eexists. split; reflexivity. }
  destruct Hearly as [Hne | Hpriv]; [congruence |].
  unfold supported_priv_spec in Hpriv.
  destruct (priv_spec (cfg cpu)) as [s |]; [| discriminate Hpriv].
  apply orb_false_iff in Hpriv as [-> ->].
  eexists. split; [reflexivity |]. eauto.
Qed.

(** The steps of realize, taken in turn. *)
Ltac preserves_steps :=
  unfold error_setg, rz_set_env, rz_set_cfg, rz_diag;
  repeat first
    [ apply preserves_ret
    | apply preserves_gets
    | apply preserves_throw
    | apply preserves_when
    | apply preserves_if
    | apply preserves_bind; [| intros ?]
    | match goal with
      | |- preserves _ (match ?x with Some _ => _ | None => _ end) =>
          destruct x
      end
    | apply preserves_modify; intros ? ? ].

(** What realize can write: the privilege, bitmanip and vector versions,
    the features, the reset vector, misa and its mask, the five properties
    of the G correction and the log; it ends with the reset. *)
Lemma realize_steps_preserves (P : realizing -> Prop)
    (local_err : option string) :
  (forall s d, P s -> P {| rz_cpu := rz_cpu s; rz_log := rz_log s ++ [d] |}) ->
  (forall s, P s ->
     P {| rz_cpu := cpu_set_cfg (cfg_set_imafd (rz_cfg s)) (rz_cpu s);
          rz_log := rz_log s |}) ->
  (forall s f, P s ->
     (exists v, f = set_priv_version v) \/ (exists v, f = set_feature v) \/
     (exists v, f = set_resetvec v) \/
     (exists v, f = set_bext_version v) \/
     (exists v, f = set_vext_version v) \/
     (exists v, f = set_misa v) ->
     P {| rz_cpu := cpu_set_env (f (rz_env s)) (rz_cpu s);
          rz_log := rz_log s |}) ->
  (forall s, P s ->
     P {| rz_cpu := cpu_reset (rz_cpu s); rz_log := rz_log s |}) ->
  preserves P (realize_steps local_err).
Proof.
  intros Hlog Hcfg Henv Hreset.
  unfold realize_steps. preserves_steps; eauto 8.
Qed.

(** What reset does not write, field by field. *)
Lemma riscv_cpu_reset_keeps_fields (cpu : RISCVCPU) (f : field) :
  ~ In f [PRIV; MSTATUS; MCAUSE; PC; SATP; SCAUSE; SEPC; STVEC; MEPC;
          MTVEC; LOAD_RES] ->
  env_get f (env (riscv_cpu_reset cpu)) = env_get f (env cpu).
Proof.
  intros Hf.
  destruct f; try reflexivity; exfalso; apply Hf; cbn [In];
    repeat first [left; reflexivity | right].
Qed.

(** What realize leaves alone, whether it succeeds or not: the registers
    and every scalar field other than those it configures and those reset
    assigns; of the properties it changes at most the five the G correction
    turns on. *)
Theorem realize_frame (cpu : RISCVCPU) (local_err : option string) :
  let cpu' := fst (fst (riscv_cpu_realize cpu local_err)) in
  gpr (env cpu') = gpr (env cpu) /\
  fpr (env cpu') = fpr (env cpu) /\
  (forall f,
     ~ In f [PRIV_VER; BEXT_VER; VEXT_VER; FEATURES; RESETVEC; MISA;
             MISA_MASK; PRIV; MSTATUS; MCAUSE; PC; SATP; SCAUSE; SEPC;
             STVEC; MEPC; MTVEC; LOAD_RES] ->
     env_get f (env cpu') = env_get f (env cpu)) /\
  (cfg cpu' = cfg cpu \/ cfg cpu' = cfg_set_imafd (cfg cpu)).
Proof.
  set (P := fun s : realizing =>
    gpr (rz_env s) = gpr (env cpu) /\
    fpr (rz_env s) = fpr (env cpu) /\
    (forall f,
       ~ In f [PRIV_VER; BEXT_VER; VEXT_VER; FEATURES; RESETVEC; MISA;
               MISA_MASK; PRIV; MSTATUS; MCAUSE; PC; SATP; SCAUSE; SEPC;
               STVEC; MEPC; MTVEC; LOAD_RES] ->
       env_get f (rz_env s) = env_get f (env cpu)) /\
    (rz_cfg s = cfg cpu \/ rz_cfg s = cfg_set_imafd (cfg cpu))).
  assert (Hsteps : preserves P (realize_steps local_err)).
  { apply realize_steps_preserves.
    - intros s d HP. exact HP.
    - intros s (Hg & Hf & Hs & Hc). repeat split; try assumption.
      unfold rz_cfg in *. cbn [rz_cpu cfg cpu_set_cfg].
      destruct Hc as [-> | ->]; right; reflexivity.
    - intros s f (Hg & Hfp & Hs & Hc) Hf.
      unfold P, rz_env, rz_cfg in *. cbn [rz_cpu env cfg cpu_set_env].
      split; [| split; [| split; [| exact Hc]]].
      + rewrite <- Hg.
        destruct Hf as [[v ->] | [[v ->] | [[v ->] | [[v ->] | [[v ->] | [v ->]]]]]];
          reflexivity.
      + rewrite <- Hfp.
        destruct Hf as [[v ->] | [[v ->] | [[v ->] | [[v ->] | [[v ->] | [v ->]]]]]];
          reflexivity.
      + intros g Hgn. rewrite <- (Hs g Hgn).
        destruct Hf as [[v ->] | [[v ->] | [[v ->] | [[v ->] | [[v ->] | [v ->]]]]]];
          (destruct g; try reflexivity; exfalso; apply Hgn; cbn [In];
           repeat first [left; reflexivity | right]).
    - intros s (Hg & Hfp & Hs & Hc).
      unfold P, rz_env, rz_cfg in *. cbn [rz_cpu].
      split; [exact Hg |]. split; [exact Hfp |]. split; [| exact Hc].
      intros g Hgn. rewrite <- (Hs g Hgn).
      apply riscv_cpu_reset_keeps_fields.
      intros Hin. apply Hgn. cbn [In] in *. tauto. }
  assert (HP0 : P {| rz_cpu := cpu; rz_log := [] |}).
  { unfold P. cbn. auto. }
  cbn zeta. unfold riscv_cpu_realize.
  destruct (realize_steps local_err _) as [s' [err | []]] eqn:Hrun;
    exact (Hsteps _ _ _ HP0 Hrun).
Qed.

(** The hart a successful realize leaves: it is in machine mode at the
    reset vector of the properties, with the privilege version of the
    [priv_spec] property (the one a CPU model preset is overwritten) and
    the feature bits of the [mmu], [pmp] and [x-epmp] properties added to
    those preset; ePMP is not enabled without PMP. *)
Theorem realize_success_state (cpu cpu' : RISCVCPU)
    (local_err : option string) (log : list diag) :
  riscv_cpu_realize cpu local_err = (cpu', None, log) ->
  let c := cfg cpu in
  resetvec (env cpu') = cfg_resetvec c /\
  pc (env cpu') = cfg_resetvec c /\
  priv (env cpu') = PRV_M /\
  priv_ver (env cpu') = selected_priv_version c /\
  features (env cpu') = features (configured_features c (env cpu)) /\
  (cfg_pmp c = false ->
   features (env cpu')
   = features (if mmu c then set_feature RISCV_FEATURE_MMU (env cpu)
               else env cpu)) /\
  exception_index (parent_obj cpu') = RISCV_EXCP_NONE.
Proof.
  intros Hrun c.
  assert (Hnone : local_err = None).
  { destruct local_err as [e |]; [| reflexivity].
    unfold riscv_cpu_realize, realize_steps in Hrun. revert Hrun. se_run.
    discriminate. }
  subst local_err.
  assert (Hpriv : supported_priv_spec (cfg cpu) = true).
  { destruct (supported_priv_spec (cfg cpu)) eqn:Hpriv; [reflexivity |].
    unfold supported_priv_spec in Hpriv.
    unfold riscv_cpu_realize, realize_steps in Hrun. revert Hrun. se_run.
    destruct (priv_spec (cfg cpu)) as [s |]; [| discriminate Hpriv].
    apply orb_false_iff in Hpriv as [-> ->]. discriminate. }
  unfold riscv_cpu_realize in Hrun.
  rewrite (realize_steps_prefix_state cpu Hpriv) in Hrun.
  fold c in Hrun.
  set (e1 := set_resetvec _ _) in Hrun.
  match type of Hrun with
  | match ?run with _ => _ end = _ =>
      destruct run as [s' [err | []]] eqn:Hrest; [discriminate |]
  end.
  injection Hrun as <- <-.
  apply SE_bind_inr_inv in Hrest as ([] & s2 & Hblock & Hreset).
  injection Hreset as <-.
  set (P := fun s : realizing =>
    resetvec (rz_env s) = resetvec e1 /\
    priv_ver (rz_env s) = priv_ver e1 /\
    features (rz_env s) = features e1).
  assert (HP : P s2).
  { assert (Hpres : preserves P
      (when ((misa (env cpu) =? RV32) || (misa (env cpu) =? RV64))
         (realize_misa_from_properties (misa (env cpu))
            BEXT_VERSION_0_93_0 VEXT_VERSION_0_07_1))).
    { preserves_steps;
        match goal with
        | HP : P _ |- _ => exact HP
        end. }
    refine (Hpres _ _ _ _ Hblock). unfold P. cbn. auto. }
  destruct HP as (Hrv & Hpv & Hft). unfold rz_env in *.
  cbn [rz_cpu]. unfold cpu_reset.
  destruct (riscv_cpu_reset_config (rz_cpu s2))
    as (_ & _ & _ & Hr1 & _ & _ & Hr2 & Hr3 & _).
  cbn zeta in Hr1, Hr2, Hr3.
  assert (Hfeat : features e1 = features (configured_features c (env cpu))).
  { unfold e1, configured_features.
    destruct (mmu c), (cfg_pmp c), (epmp c); reflexivity. }
  split; [rewrite Hr3, Hrv; reflexivity |].
  split; [change (pc (env (riscv_cpu_reset (rz_cpu s2))))
            with (resetvec (env (rz_cpu s2))); rewrite Hrv; reflexivity |].
  split; [reflexivity |].
  split; [rewrite Hr1, Hpv; unfold e1, configured_features;
          destruct (mmu c), (cfg_pmp c), (epmp c); reflexivity |].
  split; [rewrite Hr2, Hft; exact Hfeat |].
  split; [| reflexivity].
  intros Hpmp. rewrite Hr2, Hft, Hfeat. unfold configured_features.
  rewrite Hpmp. reflexivity.
Qed.

(** With G requested the check that I and E exclude each other passes on
    E alone, and the correction then adds I: realize succeeds and leaves
    the bits of both I and E in misa. *)
Theorem realize_e_with_g_sets_i_and_e (cpu : RISCVCPU) :
  misa (env cpu) = RV32 \/ misa (env cpu) = RV64 ->
  ext_e (cfg cpu) = true ->
  ext_i (cfg cpu) = false ->
  ext_g (cfg cpu) = true ->
  supported_priv_spec (cfg cpu) = true ->
  (ext_b (cfg cpu) = true -> supported_bext_spec (cfg cpu) = true) ->
  (ext_v (cfg cpu) = true ->
   vector_geometry_accepted (cfg cpu) = true /\
   supported_vext_spec (cfg cpu) = true) ->
  exists cpu' log,
    riscv_cpu_realize cpu None = (cpu', None, log) /\
    Z.land (misa (env cpu')) RVI = RVI /\
    Z.land (misa (env cpu')) RVE = RVE /\
    In (warn_report "Setting G will also set IMAFD") log.
Proof.
  intros Hbase He Hi Hg Hpriv Hb Hv.
  assert (Hmisa : (misa (env cpu) =? RV32) || (misa (env cpu) =? RV64) = true).
  { destruct Hbase as [-> | ->]; rewrite Z.eqb_refl;
      [reflexivity | apply orb_true_r]. }
  assert (Hie : ext_i (cfg cpu) <> ext_e (cfg cpu)) by congruence.
  destruct (realize_steps_prefix cpu Hpriv) as (e1 & He1 & Hsteps).
  destruct (realize_misa_from_properties_ok
              {| rz_cpu := cpu_set_env e1 cpu; rz_log := [] |}
              (misa (env cpu)) BEXT_VERSION_0_93_0 VEXT_VERSION_0_07_1
              eq_refl Hie Hb Hv)
    as (s' & Hblock & Hm & Hmm & Hlog).
  unfold riscv_cpu_realize. rewrite Hsteps, Hmisa.
  cbv beta iota delta [when mbind SE_bind modify].
  rewrite Hblock.
  exists (cpu_reset (rz_cpu s')), (rz_log s').
  split; [reflexivity |].
  unfold cpu_reset.
  destruct (riscv_cpu_reset_config (rz_cpu s')) as (_ & Hr1 & _).
  cbn zeta in Hr1. rewrite Hr1.
  unfold rz_env in Hm. rewrite Hm.
  unfold rz_cfg in *. cbn [rz_cpu cfg cpu_set_env] in *.
  split; [| split].
  - apply union_of_bits_has_bit. unfold requested_bits.
    rewrite Hg, orb_true_r. cbn [ext_bit]. left. reflexivity.
  - apply union_of_bits_has_bit. unfold requested_bits.
    rewrite He. cbn [ext_bit]. apply in_or_app. right.
    left. reflexivity.
  - apply Hlog. unfold g_corrects. rewrite Hg, Hi. reflexivity.
Qed.

End realize_frame.

(** ** More on the loader *)

Section load_frame.

Context `{!cpu_bits} `{!externals}.

Section preserves_records.

Variable P : loader -> Prop.

(** [P] does not depend on the stream or on the line buffer. *)
Hypothesis P_stream : forall s line rest,
  P s -> P {| ld_cpu := ld_cpu s; ld_fp := rest; ld_str_line := line |}.

Lemma preserves_ld_fgets : preserves P ld_fgets.
Proof.
  unfold ld_fgets. apply preserves_modify. intros s HP.
  destruct (Text.fgets _ _ _). apply P_stream, HP.
Qed.

Lemma preserves_load_scalar (fmt : string) (dst : field) (what : string) :
  (forall s v, P s -> P (ld_set_env (env_set dst v) s)) ->
  preserves P (load_scalar fmt dst what).
Proof.
  intros Hset. unfold load_scalar.
  apply preserves_bind; [apply preserves_ld_fgets | intros _].
  apply preserves_bind; [apply preserves_gets | intros line].
  destruct (Text.sscanf line fmt) as [| [v | t] [| ? ?]];
    try apply preserves_throw.
  apply preserves_modify. intros s HP. apply Hset, HP.
Qed.

Lemma preserves_load_reg set get (array : string) (i : nat) :
  (forall s v, P s -> P (ld_set_env (fun e => set (<[i := v]> (get e)) e) s)) ->
  preserves P (load_reg set get array i).
Proof.
  intros Hset. unfold load_reg.
  apply preserves_bind; [apply preserves_ld_fgets | intros _].
  apply preserves_bind; [apply preserves_gets | intros line].
  destruct (Text.sscanf line "%s %lx") as [| [v | t] [| [v' | t'] [| ? ?]]];
    try apply preserves_throw.
  apply preserves_modify. intros s HP. apply Hset, HP.
Qed.

Lemma preserves_load_pmp (fmt : string) csr_write (array : string) (i : nat) :
  (forall s (F : CPURISCVState -> pmp_table_t),
     P s -> P (ld_set_env (fun e => env_set_pmp_state (F e) e) s)) ->
  preserves P (load_pmp fmt csr_write array i).
Proof.
  intros Hset. unfold load_pmp.
  apply preserves_bind; [apply preserves_ld_fgets | intros _].
  apply preserves_bind; [apply preserves_gets | intros line].
  destruct (Text.sscanf line fmt) as [| [v | t] [| [v' | t'] [| ? ?]]];
    try apply preserves_throw.
  apply preserves_modify. intros s HP.
  apply (Hset s (fun e => csr_write e i v')), HP.
Qed.

End preserves_records.

(** What the loader can write: the fields of its scalar records, the
    elements of the two register arrays and, on a hart with PMP, the PMP
    state. *)
Lemma load_state_records_preserves (P : loader -> Prop) :
  (forall s line rest,
     P s -> P {| ld_cpu := ld_cpu s; ld_fp := rest; ld_str_line := line |}) ->
  (forall s f v,
     P s -> In f (map (fun r => snd (fst r)) scalar_records) ->
     P (ld_set_env (env_set f v) s)) ->
  (forall s i v,
     P s -> P (ld_set_env (fun e => env_set_gpr (<[i := v]> (gpr e)) e) s)) ->
  (forall s i v,
     P s -> P (ld_set_env (fun e => env_set_fpr (<[i := v]> (fpr e)) e) s)) ->
  (forall s (F : CPURISCVState -> pmp_table_t),
     P s -> cfg_pmp (cfg (ld_cpu s)) = true ->
     P (ld_set_env (fun e => env_set_pmp_state (F e) e) s)) ->
  preserves P load_state_records.
Proof.
  intros Hstream Hscalar Hgpr Hfpr Hpmp.
  assert (Hrec : forall fmt f what,
            In f (map (fun r => snd (fst r)) scalar_records) ->
            preserves P (load_scalar fmt f what)).
  { intros fmt f what Hin. apply preserves_load_scalar; [exact Hstream |].
    intros s v HP. apply Hscalar; assumption. }
  unfold load_state_records.
  do 36 (apply preserves_bind;
         [ apply Hrec; cbn [map scalar_records fst snd In];
           repeat first [left; reflexivity | right]
         | intros _ ]).
  apply preserves_bind; [apply preserves_gets | intros is_32bit].
  apply preserves_bind;
    [ apply preserves_when, Hrec; cbn [map scalar_records fst snd In];
      repeat first [left; reflexivity | right]
    | intros _ ].
  apply preserves_bind;
    [ apply preserves_for_range; intros i; apply preserves_load_reg;
      [exact Hstream | intros s v HP; apply Hgpr, HP]
    | intros _ ].
  apply preserves_bind;
    [ apply preserves_for_range; intros i; apply preserves_load_reg;
      [exact Hstream | intros s v HP; apply Hfpr, HP]
    | intros _ ].
  apply preserves_gets_bind. intros s s' r HP.
  destruct (cfg_pmp (cfg (ld_cpu s))) eqn:Hhas; [| intros [= <- _]; exact HP].
  set (P' := fun s => P s /\ cfg_pmp (cfg (ld_cpu s)) = true).
  intros Hrun.
  refine (proj1 (_ : P' s')).
  refine (_ s s' r (conj HP Hhas) Hrun).
  apply preserves_when.
  apply preserves_bind;
    [ apply preserves_modify; intros s0 [HP0 Hc0]; split; [| exact Hc0];
      apply (Hpmp s0 (fun _ => pmp_state_zero)); assumption
    | intros _ ].
  assert (Hstream' : forall s line rest,
            P' s ->
            P' {| ld_cpu := ld_cpu s; ld_fp := rest; ld_str_line := line |}).
  { intros s0 line rest [HP0 Hc0]. split; [apply Hstream, HP0 | exact Hc0]. }
  assert (Hpmp' : forall s (F : CPURISCVState -> pmp_table_t),
            P' s -> P' (ld_set_env (fun e => env_set_pmp_state (F e) e) s)).
  { intros s0 F [HP0 Hc0]. split; [apply Hpmp; assumption | exact Hc0]. }
  apply preserves_bind;
    [ apply preserves_for_range; intros i; apply preserves_load_pmp; assumption
    | intros _ ].
  apply preserves_bind;
    [ apply preserves_for_range; intros i; apply preserves_load_pmp; assumption
    | intros _ ].
  apply preserves_bind;
    [ apply preserves_for_range; intros i; apply preserves_modify;
      intros s0 HP0; apply (Hpmp' s0 (fun e => pmp_update_rule_addr e i)), HP0
    | intros _ ].
  apply preserves_modify. intros s0 HP0.
  apply (Hpmp' s0 (fun e => pmp_update_rule_nums e)), HP0.
Qed.

(** What a restore leaves alone, whether it succeeds or not: the
    properties, the generic state, the bitmanip version and the hypervisor
    registers (no record holds them), the two-stage-lookup flag, the FP
    status and the lengths of the register arrays; on a hart without PMP
    also the PMP state. *)
Theorem load_state_frame (cpu : RISCVCPU) (file buf : string) :
  let cpu' := fst (riscv_cpu_load_state cpu file buf) in
  cfg cpu' = cfg cpu /\
  parent_obj cpu' = parent_obj cpu /\
  (forall f,
     In f [BEXT_VER; HSTATUS; VSSTATUS; HTVAL; VSCAUSE; MTVAL2; HIDELEG;
           HEDELEG; VSTVEC; VSEPC] ->
     env_get f (env cpu') = env_get f (env cpu)) /\
  two_stage_lookup (env cpu') = two_stage_lookup (env cpu) /\
  fp_status (env cpu') = fp_status (env cpu) /\
  length (gpr (env cpu')) = length (gpr (env cpu)) /\
  length (fpr (env cpu')) = length (fpr (env cpu)) /\
  (cfg_pmp (cfg cpu) = false -> pmp_state (env cpu') = pmp_state (env cpu)).
Proof.
  set (Q := fun c : RISCVCPU =>
    cfg c = cfg cpu /\
    parent_obj c = parent_obj cpu /\
    (forall f,
       In f [BEXT_VER; HSTATUS; VSSTATUS; HTVAL; VSCAUSE; MTVAL2; HIDELEG;
             HEDELEG; VSTVEC; VSEPC] ->
       env_get f (env c) = env_get f (env cpu)) /\
    two_stage_lookup (env c) = two_stage_lookup (env cpu) /\
    fp_status (env c) = fp_status (env cpu) /\
    length (gpr (env c)) = length (gpr (env cpu)) /\
    length (fpr (env c)) = length (fpr (env cpu)) /\
    (cfg_pmp (cfg cpu) = false -> pmp_state (env c) = pmp_state (env cpu))).
  assert (Hsteps : preserves (fun s => Q (ld_cpu s)) load_state_records).
  { apply load_state_records_preserves.
    - intros s line rest HQ. exact HQ.
    - intros s f v (Hc & Hp & Hf & Ht & Hs & Hg & Hfl & Hpmp) Hin.
      unfold Q. cbn [ld_set_env ld_cpu cpu_set_env cfg parent_obj env].
      split; [exact Hc |]. split; [exact Hp |].
      split; [| split; [| split; [| split; [| split]]]].
      + intros g Hg'. rewrite <- (Hf g Hg'). apply env_get_set_other.
        intros ->. cbn [map scalar_records fst snd In] in Hin, Hg'.
        repeat (destruct Hin as [Hin | Hin];
                [subst g; repeat (destruct Hg' as [Hg' | Hg'];
                                  [discriminate Hg' |]); exact Hg' |]).
        exact Hin.
      + rewrite <- Ht. destruct f; reflexivity.
      + rewrite <- Hs. destruct f; reflexivity.
      + rewrite <- Hg. destruct f; reflexivity.
      + rewrite <- Hfl. destruct f; reflexivity.
      + intros Hno. rewrite <- (Hpmp Hno). destruct f; reflexivity.
    - intros s i v (Hc & Hp & Hf & Ht & Hs & Hg & Hfl & Hpmp).
      unfold Q. cbn [ld_set_env ld_cpu cpu_set_env cfg parent_obj env].
      split; [exact Hc |]. split; [exact Hp |].
      split; [| split; [| split; [| split; [| split]]]];
        try assumption.
      cbn. rewrite length_insert. exact Hg.
    - intros s i v (Hc & Hp & Hf & Ht & Hs & Hg & Hfl & Hpmp).
      unfold Q. cbn [ld_set_env ld_cpu cpu_set_env cfg parent_obj env].
      split; [exact Hc |]. split; [exact Hp |].
      split; [| split; [| split; [| split; [| split]]]];
        try assumption.
      cbn. rewrite length_insert. exact Hfl.
    - intros s F (Hc & Hp & Hf & Ht & Hs & Hg & Hfl & Hpmp) Hhas.
      unfold Q. cbn [ld_set_env ld_cpu cpu_set_env cfg parent_obj env].
      split; [exact Hc |]. split; [exact Hp |].
      split; [| split; [| split; [| split; [| split]]]];
        try assumption.
      intros Hno. rewrite Hc in Hhas. congruence. }
  assert (HQ0 : Q cpu) by (unfold Q; auto 10).
  cbn zeta. unfold riscv_cpu_load_state.
  destruct (load_state_records _) as [s' [msg | []]] eqn:Hrun;
    exact (Hsteps {| ld_cpu := cpu; ld_fp := file; ld_str_line := buf |}
             _ _ HQ0 Hrun).
Qed.

End load_frame.

(** ** What a successful restore stores *)

Section load_records.

Context `{!cpu_bits} `{!externals}.

Lemma lines_read_S (k : nat) (st : string * string) :
  lines_read (S k) st = next_line (lines_read k st).
Proof. reflexivity. Qed.

(** An accepted scalar record, on any state of the loader. *)
Lemma load_scalar_inr_stream (fmt : string) (dst : field) (what : string)
    (s s' : loader) :
  load_scalar fmt dst what s = (s', inr tt) ->
  exists v,
    Text.sscanf (fst (next_line (ld_stream s))) fmt = [Text.V_int v] /\
    s' = {| ld_cpu := cpu_set_env (env_set dst v (env (ld_cpu s))) (ld_cpu s);
            ld_fp := snd (next_line (ld_stream s));
            ld_str_line := fst (next_line (ld_stream s)) |}.
Proof.
  destruct s as [cpu fp line]. unfold ld_stream.
  cbn [ld_cpu ld_fp ld_str_line].
  apply (load_scalar_inr fmt dst what cpu (line, fp) s').
Qed.

(** The scalar records of a run that goes past them: each is accepted, and
    the field of a record holds its value unless a later record has the
    same field. *)
Lemma load_scalars_then_inr (l : list (string * field * string))
    (K : SE loader string unit) (s s' : loader) :
  load_scalars_then l K s = (s', inr tt) ->
  exists s1,
    K s1 = (s', inr tt) /\
    ld_stream s1 = lines_read (length l) (ld_stream s) /\
    cfg (ld_cpu s1) = cfg (ld_cpu s) /\
    (forall (A : Type) (g : CPURISCVState -> A),
       (forall rj, In rj l -> forall v e, g (env_set (snd (fst rj)) v e) = g e) ->
       g (env (ld_cpu s1)) = g (env (ld_cpu s))) /\
    (forall j rj,
       l !! j = Some rj ->
       (forall j' rj', (j < j')%nat -> l !! j' = Some rj' ->
          snd (fst rj') <> snd (fst rj)) ->
       Text.sscanf (fst (lines_read (S j) (ld_stream s))) (fst (fst rj))
       = [Text.V_int (env_get (snd (fst rj)) (env (ld_cpu s1)))]).
Proof.
  revert s. induction l as [| r0 l IH]; intros s Hrun.
  { exists s. split; [exact Hrun |]. split; [reflexivity |].
    split; [reflexivity |]. split; [reflexivity |].
    intros j rj Hj. discriminate Hj. }
  destruct s as [cpu fp line]. unfold ld_stream in *.
  cbn [ld_str_line ld_fp ld_cpu] in *.
  change (load_scalars_then (r0 :: l) K)
    with (load_scalar (fst (fst r0)) (snd (fst r0)) (snd r0) ;;
          load_scalars_then l K) in Hrun.
  apply SE_bind_inr_inv in Hrun as ([] & smid & Hs & Hrest).
  change fp with (snd (line, fp)) in Hs.
  change line with (fst (line, fp)) in Hs at 1.
  apply load_scalar_inr in Hs as (v & Hv & ->).
  destruct (IH _ Hrest) as (s1 & HK & Hstream & Hcfg & Hframe & Hrec).
  cbn [ld_str_line ld_fp ld_cpu cpu_set_env cfg env] in *.
  exists s1. split; [exact HK |]. split; [| split; [exact Hcfg |]; split].
  - rewrite Hstream, <- surjective_pairing, lines_read_next. reflexivity.
  - intros A g Hg. rewrite (Hframe A g).
    + apply (Hg r0). left. reflexivity.
    + intros rj Hin. apply Hg. right. exact Hin.
  - intros [| j] rj Hj Hlater.
    + injection Hj as <-.
      rewrite (Hframe Z (env_get (snd (fst r0)))).
      * rewrite env_get_set_same. exact Hv.
      * intros rj Hin v' e. apply env_get_set_other.
        apply list_elem_of_In, list_elem_of_lookup in Hin as [j' Hj'].
        apply (Hlater (S j') rj); [lia | exact Hj'].
    + rewrite <- (lines_read_next (S j)), (surjective_pairing (next_line _)).
      apply Hrec; [exact Hj |].
      intros j' rj' Hlt Hj'. apply (Hlater (S j') rj'); [lia | exact Hj'].
Qed.

(** The steps after the scalar records leave every scalar field but
    mstatus, which the mstatush record of a 32-bit hart is stored in. *)
Lemma load_state_tail_keeps (f : field) :
  f <> MSTATUS -> keeps (env_get f) load_state_tail.
Proof.
  intros Hf. unfold load_state_tail.
  apply keeps_bind; [apply keeps_gets | intros is_32bit].
  apply keeps_bind;
    [ apply keeps_when, keeps_load_scalar; intros v e;
      apply env_get_set_other; congruence
    | intros _ ].
  apply keeps_bind;
    [ apply keeps_for_range; intros i; apply keeps_load_reg; intros l e;
      destruct f; reflexivity
    | intros _ ].
  apply keeps_bind;
    [ apply keeps_for_range; intros i; apply keeps_load_reg; intros l e;
      destruct f; reflexivity
    | intros _ ].
  apply keeps_bind; [apply keeps_gets | intros has_pmp].
  apply keeps_when.
  apply keeps_bind;
    [ apply keeps_set_env; intros e; destruct f; reflexivity | intros _ ].
  apply keeps_bind;
    [ apply keeps_for_range; intros i; apply keeps_load_pmp; intros t e;
      destruct f; reflexivity
    | intros _ ].
  apply keeps_bind;
    [ apply keeps_for_range; intros i; apply keeps_load_pmp; intros t e;
      destruct f; reflexivity
    | intros _ ].
  apply keeps_bind;
    [ apply keeps_for_range; intros i; apply keeps_set_env; intros e;
      destruct f; reflexivity
    | intros _ ].
  apply keeps_set_env; intros e; destruct f; reflexivity.
Qed.

Lemma load_state_tail_unfold :
  load_state_tail
  = (is_32bit ← gets (fun s => riscv_cpu_is_32bit (env (ld_cpu s)));
     when is_32bit (load_scalar "mstatush %lx" MSTATUS "mstatush") ;;
     load_register_records).
Proof. reflexivity. Qed.

(** The PMP records leave the scalar fields and the registers. *)
Lemma load_pmp_records_preserves (P : loader -> Prop) :
  (forall s line rest,
     P s -> P {| ld_cpu := ld_cpu s; ld_fp := rest; ld_str_line := line |}) ->
  (forall s (F : CPURISCVState -> pmp_table_t),
     P s -> P (ld_set_env (fun e => env_set_pmp_state (F e) e) s)) ->
  preserves P load_pmp_records.
Proof.
  intros Hstream Hpmp. unfold load_pmp_records.
  apply preserves_bind; [apply preserves_gets | intros has_pmp].
  apply preserves_when.
  apply preserves_bind;
    [ apply preserves_modify; intros s0 HP0;
      apply (Hpmp s0 (fun _ => pmp_state_zero)), HP0
    | intros _ ].
  apply preserves_bind;
    [ apply preserves_for_range; intros i; apply preserves_load_pmp; assumption
    | intros _ ].
  apply preserves_bind;
    [ apply preserves_for_range; intros i; apply preserves_load_pmp; assumption
    | intros _ ].
  apply preserves_bind;
    [ apply preserves_for_range; intros i; apply preserves_modify;
      intros s0 HP0; apply (Hpmp s0 (fun e => pmp_update_rule_addr e i)), HP0
    | intros _ ].
  apply preserves_modify. intros s0 HP0.
  apply (Hpmp s0 (fun e => pmp_update_rule_nums e)), HP0.
Qed.

(** The records after the mstatush record leave every scalar field. *)
Lemma load_register_records_keep (f : field) :
  keeps (env_get f) load_register_records.
Proof.
  unfold load_register_records.
  apply keeps_bind;
    [ apply keeps_for_range; intros i; apply keeps_load_reg; intros l e;
      destruct f; reflexivity
    | intros _ ].
  apply keeps_bind;
    [ apply keeps_for_range; intros i; apply keeps_load_reg; intros l e;
      destruct f; reflexivity
    | intros _ ].
  intros s s' r Hrun.
  refine (load_pmp_records_preserves
            (fun s0 => env_get f (env (ld_cpu s0)) = env_get f (env (ld_cpu s)))
            _ _ s s' r eq_refl Hrun).
  - intros s0 line rest HP. exact HP.
  - intros s0 F HP. rewrite <- HP. destruct f; reflexivity.
Qed.

(** A restore that succeeds has stored the value of every scalar record in
    the field of the record; on a 32-bit hart the record of mstatush, the
    thirty-seventh, replaces what the record of mstatus stored. *)
Theorem load_state_stores_scalar_records (cpu cpu' : RISCVCPU)
    (file buf : string) :
  riscv_cpu_load_state cpu file buf = (cpu', None) ->
  (forall k fmt f what,
     scalar_records !! k = Some (fmt, f, what) ->
     f <> MSTATUS \/ riscv_cpu_is_32bit (env cpu') = false ->
     Text.sscanf (record_line k buf file) fmt
     = [Text.V_int (env_get f (env cpu'))]) /\
  (riscv_cpu_is_32bit (env cpu') = true ->
   Text.sscanf (record_line 36 buf file) "mstatush %lx"
   = [Text.V_int (mstatus (env cpu'))]).
Proof.
  unfold riscv_cpu_load_state.
  destruct (load_state_records _) as [s' [msg | []]] eqn:Hrun;
    [discriminate |].
  intros [= <-]. rewrite load_state_records_unfold in Hrun.
  apply load_scalars_then_inr in Hrun
    as (s1 & Htail & Hstream & _ & _ & Hrec).
  unfold ld_stream in Hrec. cbn [ld_str_line ld_fp ld_cpu] in Hrec.
  assert (Hstream' : (ld_str_line s1, ld_fp s1)
                     = lines_read (length scalar_records) (buf, file))
    by exact Hstream.
  clear Hstream. rename Hstream' into Hstream.
  assert (Hmisa : misa (env (ld_cpu s')) = misa (env (ld_cpu s1))).
  { apply (load_state_tail_keeps MISA ltac:(discriminate) _ _ _ Htail). }
  assert (H32 : riscv_cpu_is_32bit (env (ld_cpu s'))
                = riscv_cpu_is_32bit (env (ld_cpu s1))).
  { unfold riscv_cpu_is_32bit. rewrite Hmisa. reflexivity. }
  assert (Hvalue : forall k fmt f what,
            scalar_records !! k = Some (fmt, f, what) ->
            Text.sscanf (record_line k buf file) fmt
            = [Text.V_int (env_get f (env (ld_cpu s1)))]).
  { intros k fmt f what Hk. apply (Hrec k (fmt, f, what) Hk).
    intros j' rj' Hlt Hj' Heq.
    assert (j' = k); [| lia].
    eapply (NoDup_lookup _ _ _ _ scalar_records_fields_NoDup);
      rewrite list_lookup_fmap;
      [ rewrite Hj'; reflexivity
      | rewrite Hk; cbn; rewrite Heq; reflexivity ]. }
  rewrite load_state_tail_unfold in Htail.
  apply SE_bind_inr_inv in Htail as (is32 & s1' & Hgets & Htail).
  injection Hgets as <- <-.
  apply SE_bind_inr_inv in Htail as ([] & s2 & Hhigh & Hregs).
  split.
  - intros k fmt f what Hk Hf. rewrite (Hvalue k fmt f what Hk). do 2 f_equal.
    rewrite (load_register_records_keep f _ _ _ Hregs).
    destruct Hf as [Hf | H64].
    + assert (Hk2 : keeps (env_get f)
                (when (riscv_cpu_is_32bit (env (ld_cpu s1)))
                   (load_scalar "mstatush %lx" MSTATUS "mstatush"))).
      { apply keeps_when, keeps_load_scalar. intros v e.
        apply env_get_set_other. congruence. }
      symmetry. exact (Hk2 _ _ _ Hhigh).
    + rewrite H32 in H64. rewrite H64 in Hhigh.
      injection Hhigh as <-. reflexivity.
  - intros Hyes. rewrite H32 in Hyes. rewrite Hyes in Hhigh.
    cbn [when] in Hhigh.
    apply load_scalar_inr_stream in Hhigh as (v & Hv & ->).
    unfold ld_stream at 1 in Hv. rewrite Hstream in Hv.
    change (length scalar_records) with 36%nat in Hv.
    rewrite <- (lines_read_S 36) in Hv.
    unfold record_line. rewrite Hv. do 2 f_equal.
    change (mstatus (env (ld_cpu s'))) with (env_get MSTATUS (env (ld_cpu s'))).
    rewrite (load_register_records_keep MSTATUS _ _ _ Hregs).
    reflexivity.
Qed.

End load_records.

(** ** The register records *)

Section load_registers.

Context `{!cpu_bits} `{!externals}.

Section one_array.

Variable set : list Z -> CPURISCVState -> CPURISCVState.
Variable get : CPURISCVState -> list Z.
Variable array : string.

Hypothesis get_set : forall l e, get (set l e) = l.

(** One register record: the line read is accepted or not by the pattern
    alone, and element [i] gets the value. *)
Lemma load_reg_run (i : nat) (s : loader) :
  load_reg set get array i s
  = match register_value (fst (next_line (ld_stream s))) with
    | Some v =>
        ({| ld_cpu :=
              cpu_set_env
                (set (<[i := v]> (get (env (ld_cpu s)))) (env (ld_cpu s)))
                (ld_cpu s);
            ld_fp := snd (next_line (ld_stream s));
            ld_str_line := fst (next_line (ld_stream s)) |}, inr tt)
    | None =>
        ({| ld_cpu := ld_cpu s;
            ld_fp := snd (next_line (ld_stream s));
            ld_str_line := fst (next_line (ld_stream s)) |},
         inl ("Error: failed to read " +:+
              (array +:+ "[" +:+ Text.fmt_d (Z.of_nat i) +:+ "]") +:+ nl))
    end.
Proof.
  destruct s as [cpu fp line].
  unfold load_reg, ld_fgets, modify, gets, mbind, SE_bind, failed_to_read,
    throw, next_line, ld_stream, register_value.
  cbn [ld_cpu ld_fp ld_str_line fst snd].
  destruct (Text.fgets _ _ _) as [l rest]. cbn [fst snd ld_str_line ld_cpu].
  destruct (Text.sscanf l "%s %lx") as [| [x | t] [| [x' | t'] [| ? ?]]];
    reflexivity.
Qed.

(** The loop over a register array, when it ends without error: it has
    read one line for each element, each line was accepted, and the elements
    in range hold the values; nothing else of the hart state changed. *)
Lemma for_range_load_reg_inr (n lo : nat) (s s' : loader) :
  for_range lo n (load_reg set get array) s = (s', inr tt) ->
  ld_stream s' = lines_read n (ld_stream s) /\
  cfg (ld_cpu s') = cfg (ld_cpu s) /\
  (forall (A : Type) (g : CPURISCVState -> A),
     (forall l e, g (set l e) = g e) ->
     g (env (ld_cpu s')) = g (env (ld_cpu s))) /\
  length (get (env (ld_cpu s'))) = length (get (env (ld_cpu s))) /\
  (forall i, (i < lo)%nat ->
     get (env (ld_cpu s')) !! i = get (env (ld_cpu s)) !! i) /\
  (forall k, (k < n)%nat ->
     (lo + k < length (get (env (ld_cpu s))))%nat ->
     exists v,
       register_value (fst (lines_read (S k) (ld_stream s))) = Some v /\
       get (env (ld_cpu s')) !! (lo + k)%nat = Some v).
Proof.
  revert lo s. induction n as [| n IH]; intros lo s Hrun.
  { injection Hrun as <-. repeat split; try reflexivity. intros k Hk. lia. }
  cbn [for_range] in Hrun.
  apply SE_bind_inr_inv in Hrun as ([] & smid & Hbody & Hrest).
  rewrite load_reg_run in Hbody.
  destruct (register_value _) as [v |] eqn:Hv; [| discriminate].
  injection Hbody as <-.
  destruct (IH _ _ Hrest) as (Hstream & Hcfg & Hframe & Hlen & Hlow & Hval).
  unfold ld_stream in Hstream at 2.
  cbn [ld_cpu ld_fp ld_str_line cpu_set_env cfg env] in *.
  rewrite get_set in *. rewrite length_insert in *.
  split; [rewrite Hstream, <- surjective_pairing; apply lines_read_next |].
  split; [exact Hcfg |].
  split; [intros A g Hg; rewrite (Hframe A g Hg); apply Hg |].
  split; [exact Hlen |].
  split.
  - intros i Hi. rewrite Hlow by lia. apply list_lookup_insert_ne. lia.
  - intros [| k] Hk Hin.
    + exists v. split; [exact Hv |].
      rewrite Nat.add_0_r in *. rewrite Hlow by lia.
      apply list_lookup_insert_eq. exact Hin.
    + destruct (Hval k ltac:(lia) ltac:(lia)) as (x & Hx & Hget).
      exists x. split.
      * rewrite <- (lines_read_next (S k)).
        unfold ld_stream in Hx. cbn [ld_fp ld_str_line] in Hx.
        rewrite <- surjective_pairing in Hx. exact Hx.
      * rewrite <- Hget. f_equal. lia.
Qed.

(** The loop at the end of the stream: when the call of [fgets] that
    follows leaves [line] in the buffer and the stream at its end, every
    later call leaves the same line there, and the loop stores the
    value of that line in every element it runs over. *)
Lemma for_range_load_reg_eof (n lo : nat) (s : loader) (line : string)
    (v : Z) :
  next_line (ld_stream s) = (line, ""%string) ->
  register_value line = Some v ->
  exists s',
    for_range lo n (load_reg set get array) s = (s', inr tt) /\
    next_line (ld_stream s') = (line, ""%string) /\
    cfg (ld_cpu s') = cfg (ld_cpu s) /\
    (forall (A : Type) (g : CPURISCVState -> A),
       (forall l e, g (set l e) = g e) ->
       g (env (ld_cpu s')) = g (env (ld_cpu s))) /\
    length (get (env (ld_cpu s'))) = length (get (env (ld_cpu s))) /\
    (forall i, (i < lo)%nat ->
       get (env (ld_cpu s')) !! i = get (env (ld_cpu s)) !! i) /\
    (forall i, (lo <= i < lo + n)%nat ->
       (i < length (get (env (ld_cpu s))))%nat ->
       get (env (ld_cpu s')) !! i = Some v).
Proof.
  revert lo s. induction n as [| n IH]; intros lo s Hnext Hv.
  { exists s. split; [reflexivity |]. split; [exact Hnext |].
    repeat split; try reflexivity. intros i Hi. lia. }
  cbn [for_range]. unfold mbind, SE_bind.
  rewrite load_reg_run, Hnext. cbn [fst snd]. rewrite Hv.
  destruct (IH (S lo)
              {| ld_cpu :=
                   cpu_set_env
                     (set (<[lo := v]> (get (env (ld_cpu s)))) (env (ld_cpu s)))
                     (ld_cpu s);
                 ld_fp := ""; ld_str_line := line |})
    as (s' & Hrun & Hnext' & Hcfg & Hframe & Hlen & Hlow & Hval).
  { reflexivity. }
  { exact Hv. }
  cbn [ld_cpu ld_fp ld_str_line cpu_set_env cfg env] in *.
  rewrite get_set in *. rewrite length_insert in *.
  exists s'. split; [exact Hrun |]. split; [exact Hnext' |].
  split; [exact Hcfg |].
  split; [intros A g Hg; rewrite (Hframe A g Hg); apply Hg |].
  split; [exact Hlen |].
  split.
  - intros i Hi. rewrite Hlow by lia. apply list_lookup_insert_ne. lia.
  - intros i Hi Hin. destruct (decide (i = lo)) as [-> | Hne].
    + rewrite Hlow by lia. apply list_lookup_insert_eq. exact Hin.
    + apply Hval; [lia | exact Hin].
Qed.

End one_array.

(** The scalar records, when every one is accepted. *)
Lemma load_scalars_then_accepts (l : list (string * field * string))
    (s : loader) :
  (forall j rj, l !! j = Some rj ->
     exists x,
       Text.sscanf (fst (lines_read (S j) (ld_stream s))) (fst (fst rj))
       = [Text.V_int x]) ->
  exists s1, forall K, load_scalars_then l K s = K s1.
Proof.
  revert s. induction l as [| r0 l IH]; intros s Hacc.
  { exists s. reflexivity. }
  destruct s as [cpu fp line]. unfold ld_stream in *.
  cbn [ld_str_line ld_fp ld_cpu] in *.
  destruct (Hacc 0%nat r0 eq_refl) as [v0 Hv0].
  destruct (IH {| ld_cpu := cpu_set_env (env_set (snd (fst r0)) v0 (env cpu)) cpu;
                  ld_fp := snd (next_line (line, fp));
                  ld_str_line := fst (next_line (line, fp)) |})
    as [s1 Hs1].
  { intros j rj Hj. unfold ld_stream. cbn [ld_str_line ld_fp].
    rewrite <- surjective_pairing, lines_read_next.
    apply (Hacc (S j) rj Hj). }
  exists s1. intros K.
  change (load_scalars_then (r0 :: l) K)
    with (load_scalar (fst (fst r0)) (snd (fst r0)) (snd r0) ;;
          load_scalars_then l K).
  unfold mbind, SE_bind.
  change fp with (snd (line, fp)) at 1.
  change line with (fst (line, fp)) at 1.
  rewrite (load_scalar_accepts _ _ _ _ _ _ Hv0). apply Hs1.
Qed.

Lemma lookup_all_replicate (l : list Z) (n : nat) (v : Z) :
  length l = n ->
  (forall i, (i < n)%nat -> l !! i = Some v) ->
  l = replicate n v.
Proof.
  intros Hlen Hall. apply list_eq. intros i.
  destruct (decide (i < n)%nat) as [Hi | Hi].
  - rewrite (Hall i Hi). symmetry. apply lookup_replicate_2. exact Hi.
  - rewrite !lookup_ge_None_2; [reflexivity | rewrite length_replicate; lia | lia].
Qed.

(** A snapshot that ends early is not refused once the scalar records are
    read: when the stream is at its end after 37 calls of [fgets], on a
    64-bit hart without PMP, the line the buffer then holds is taken for
    the record of every register, and the restore succeeds with all 64
    registers at the value of that line. *)
Theorem load_state_accepts_truncated_file (cpu : RISCVCPU)
    (file buf line : string) (m v : Z) :
  (forall j rj, scalar_records !! j = Some rj ->
     exists x,
       Text.sscanf (record_line j buf file) (fst (fst rj)) = [Text.V_int x]) ->
  Text.sscanf (record_line 25 buf file) "misa %lx" = [Text.V_int m] ->
  Z.land m RV64 <> 0 ->
  lines_read 37 (buf, file) = (line, ""%string) ->
  register_value line = Some v ->
  cfg_pmp (cfg cpu) = false ->
  length (gpr (env cpu)) = 32%nat ->
  length (fpr (env cpu)) = 32%nat ->
  exists cpu',
    riscv_cpu_load_state cpu file buf = (cpu', None) /\
    gpr (env cpu') = replicate 32 v /\
    fpr (env cpu') = replicate 32 v.
Proof.
  intros Hacc Hmisa H64 Hlast Hv Hpmp Hgl Hfl.
  set (s0 := {| ld_cpu := cpu; ld_fp := file; ld_str_line := buf |}).
  destruct (load_scalars_then_accepts scalar_records s0 Hacc) as [s1 Hs1].
  pose proof (Hs1 (mret tt)) as Hret.
  apply load_scalars_then_inr in Hret
    as (s1' & [= ->] & Hstream & Hcfg & Hframe & Hrec).
  assert (Hm : misa (env (ld_cpu s1)) = m).
  { pose proof (Hrec 25%nat ("misa %lx"%string, MISA, "misa"%string) eq_refl)
      as H25.
    cbn [fst snd] in H25.
    assert (Heq : [Text.V_int (env_get MISA (env (ld_cpu s1)))]
                  = [Text.V_int m]).
    { rewrite <- Hmisa. symmetry. apply H25.
      intros j' rj' Hlt Hj' Heq.
      assert (j' = 25%nat); [| lia].
      eapply (NoDup_lookup _ _ _ _ scalar_records_fields_NoDup);
        rewrite list_lookup_fmap;
        [ rewrite Hj'; reflexivity | cbn; rewrite Heq; reflexivity ]. }
    injection Heq as Heq. exact Heq. }
  assert (Hnext1 : next_line (ld_stream s1) = (line, ""%string)).
  { rewrite Hstream. change (length scalar_records) with 36%nat.
    rewrite <- (lines_read_S 36). exact Hlast. }
  destruct (for_range_load_reg_eof env_set_gpr gpr "gpr"
              ltac:(reflexivity) 32 0 s1 line v Hnext1 Hv)
    as (s2 & Hrun2 & Hnext2 & Hcfg2 & Hframe2 & Hlen2 & _ & Hval2).
  destruct (for_range_load_reg_eof env_set_fpr fpr "fpr"
              ltac:(reflexivity) 32 0 s2 line v Hnext2 Hv)
    as (s3 & Hrun3 & Hnext3 & Hcfg3 & Hframe3 & Hlen3 & _ & Hval3).
  exists (ld_cpu s3).
  assert (Hg1 : gpr (env (ld_cpu s1)) = gpr (env cpu))
    by (apply (Hframe _ gpr); intros rj _ x e; destruct (snd (fst rj)); reflexivity).
  assert (Hf1 : fpr (env (ld_cpu s1)) = fpr (env cpu))
    by (apply (Hframe _ fpr); intros rj _ x e; destruct (snd (fst rj)); reflexivity).
  split; [| split].
  - unfold riscv_cpu_load_state. fold s0.
    rewrite load_state_records_unfold, Hs1. unfold load_state_tail.
    unfold mbind at 1, SE_bind at 1, gets at 1.
    unfold riscv_cpu_is_32bit. rewrite Hm.
    apply Z.eqb_neq in H64. rewrite H64. cbn [when].
    unfold mbind at 1, SE_bind at 1, mret at 1, SE_ret at 1.
    unfold mbind at 1, SE_bind at 1. rewrite Hrun2.
    unfold mbind at 1, SE_bind at 1. rewrite Hrun3.
    unfold mbind at 1, SE_bind at 1, gets at 1.
    rewrite Hcfg3, Hcfg2, Hcfg. cbn [s0 ld_cpu]. rewrite Hpmp.
    reflexivity.
  - rewrite (Hframe3 _ gpr) by reflexivity.
    apply lookup_all_replicate; [rewrite Hlen2, Hg1; exact Hgl |].
    intros i Hi. apply Hval2; [lia | rewrite Hg1, Hgl; exact Hi].
  - assert (Hf2 : fpr (env (ld_cpu s2)) = fpr (env cpu))
      by (rewrite (Hframe2 _ fpr) by reflexivity; exact Hf1).
    apply lookup_all_replicate; [rewrite Hlen3, Hf2; exact Hfl |].
    intros i Hi. apply Hval3; [lia | rewrite Hf2, Hfl; exact Hi].
Qed.

Lemma lines_read_add (a b : nat) (st : string * string) :
  lines_read a (lines_read b st) = lines_read (a + b) st.
Proof.
  induction a as [| a IH]; [reflexivity |].
  cbn [lines_read Nat.add]. rewrite IH. reflexivity.
Qed.

(** A restore that succeeds has stored the value of every register record
    in the register of its position: the records of the integer registers
    follow the scalar records, those of the floating-point registers follow
    them; the name a record carries plays no part. *)
Theorem load_state_stores_registers (cpu cpu' : RISCVCPU)
    (file buf : string) (i : nat) :
  riscv_cpu_load_state cpu file buf = (cpu', None) ->
  length (gpr (env cpu)) = 32%nat ->
  length (fpr (env cpu)) = 32%nat ->
  (i < 32)%nat ->
  let n0 := if riscv_cpu_is_32bit (env cpu') then 37%nat else 36%nat in
  register_value (record_line (n0 + i) buf file)
  = Some (elt 0 (gpr (env cpu')) i) /\
  register_value (record_line (n0 + 32 + i) buf file)
  = Some (elt 0 (fpr (env cpu')) i).
Proof.
  unfold riscv_cpu_load_state.
  destruct (load_state_records _) as [s' [msg | []]] eqn:Hrun;
    [discriminate |].
  intros [= <-] Hgl Hfl Hi. rewrite load_state_records_unfold in Hrun.
  apply load_scalars_then_inr in Hrun
    as (s1 & Htail & Hstream & _ & Hframe & _).
  unfold ld_stream in Hstream at 2. cbn [ld_str_line ld_fp ld_cpu] in *.
  change (length scalar_records) with 36%nat in Hstream.
  assert (Hg1 : gpr (env (ld_cpu s1)) = gpr (env cpu))
    by (apply (Hframe _ gpr); intros rj _ x e; destruct (snd (fst rj));
        reflexivity).
  assert (Hf1 : fpr (env (ld_cpu s1)) = fpr (env cpu))
    by (apply (Hframe _ fpr); intros rj _ x e; destruct (snd (fst rj));
        reflexivity).
  assert (Hmisa : misa (env (ld_cpu s')) = misa (env (ld_cpu s1))).
  { apply (load_state_tail_keeps MISA ltac:(discriminate) _ _ _ Htail). }
  assert (H32 : riscv_cpu_is_32bit (env (ld_cpu s'))
                = riscv_cpu_is_32bit (env (ld_cpu s1))).
  { unfold riscv_cpu_is_32bit. rewrite Hmisa. reflexivity. }
  rewrite load_state_tail_unfold in Htail.
  apply SE_bind_inr_inv in Htail as (is32 & s1' & Hgets & Htail).
  injection Hgets as <- <-.
  apply SE_bind_inr_inv in Htail as ([] & s2 & Hhigh & Hregs).
  rewrite H32. cbn zeta.
  set (n0 := if riscv_cpu_is_32bit (env (ld_cpu s1)) then 37%nat else 36%nat).
  assert (Hs2 : ld_stream s2 = lines_read n0 (buf, file) /\
                gpr (env (ld_cpu s2)) = gpr (env cpu) /\
                fpr (env (ld_cpu s2)) = fpr (env cpu)).
  { unfold n0. destruct (riscv_cpu_is_32bit (env (ld_cpu s1))).
    - cbn [when] in Hhigh.
      apply load_scalar_inr_stream in Hhigh as (x & _ & ->).
      unfold ld_stream at 1. cbn [ld_str_line ld_fp ld_cpu cpu_set_env env].
      rewrite <- surjective_pairing, Hstream, <- (lines_read_S 36).
      split; [reflexivity | split; assumption].
    - injection Hhigh as <-.
      split; [exact Hstream | split; assumption]. }
  destruct Hs2 as (Hstream2 & Hg2 & Hf2).
  unfold load_register_records in Hregs.
  apply SE_bind_inr_inv in Hregs as ([] & s3 & Hgpr & Hregs).
  apply SE_bind_inr_inv in Hregs as ([] & s4 & Hfpr & Hpmp).
  apply (for_range_load_reg_inr env_set_gpr gpr "gpr" ltac:(reflexivity))
    in Hgpr as (Hstream3 & _ & Hframe3 & _ & _ & Hval3).
  apply (for_range_load_reg_inr env_set_fpr fpr "fpr" ltac:(reflexivity))
    in Hfpr as (_ & _ & Hframe4 & _ & _ & Hval4).
  assert (Hkeep : gpr (env (ld_cpu s')) = gpr (env (ld_cpu s4)) /\
                  fpr (env (ld_cpu s')) = fpr (env (ld_cpu s4))).
  { refine (load_pmp_records_preserves
              (fun s0 => gpr (env (ld_cpu s0)) = gpr (env (ld_cpu s4)) /\
                         fpr (env (ld_cpu s0)) = fpr (env (ld_cpu s4)))
              _ _ s4 s' _ (conj eq_refl eq_refl) Hpmp).
    - intros s0 line rest HP. exact HP.
    - intros s0 F HP. exact HP. }
  destruct Hkeep as [Hg' Hf'].
  destruct (Hval3 i Hi ltac:(rewrite Hg2, Hgl; exact Hi)) as (x & Hx & Hgx).
  destruct (Hval4 i Hi
              ltac:(rewrite (Hframe3 _ fpr), Hf2, Hfl by reflexivity; exact Hi))
    as (y & Hy & Hfy).
  cbn [Nat.add] in Hgx, Hfy.
  rewrite Hstream3, Hstream2, !lines_read_add in Hy.
  rewrite Hstream2, lines_read_add in Hx.
  unfold record_line, elt.
  rewrite Hg', (Hframe4 _ gpr) by reflexivity. rewrite Hgx.
  rewrite Hf', Hfy. cbn [default id].
  replace (S (n0 + i)) with (S i + n0)%nat by lia.
  replace (S (n0 + 32 + i)) with (S i + 32 + n0)%nat by lia.
  split; assumption.
Qed.

End load_registers.

(** ** The properties above on concrete harts and machines *)

(** The witness of [riscv_cpu_list_entry_strips_suffix]: the class of the
    base 64-bit model. *)
Lemma riscv_cpu_list_entry_strips_suffix_witness :
  Z.of_nat (String.length "rv64") <= Int.INT_MAX /\
  riscv_cpu_list_entry "-riscv-cpu" (RISCV_CPU_TYPE_NAME "-riscv-cpu" "rv64")
  = ("rv64" +:+ nl)%string.
Proof.
  assert (Hlen : Z.of_nat (String.length "rv64") <= Int.INT_MAX)
    by (vm_compute; discriminate).
  split; [exact Hlen |].
  exact (riscv_cpu_list_entry_strips_suffix "-riscv-cpu" "rv64" Hlen).
Defined.

(** The witness of [riscv_cpu_list_entry_short_name]. *)
Lemma riscv_cpu_list_entry_short_name_witness :
  (String.length "cpu" < String.length "-riscv-cpu")%nat /\
  riscv_cpu_list_entry "-riscv-cpu" "cpu" = ("cpu" +:+ nl)%string.
Proof.
  assert (Hshort : (String.length "cpu" < String.length "-riscv-cpu")%nat)
    by (vm_compute; lia).
  assert (Hlen : Z.of_nat (String.length "-riscv-cpu") <= Int.INT_MAX)
    by (vm_compute; discriminate).
  split; [exact Hshort |].
  exact (riscv_cpu_list_entry_short_name "-riscv-cpu" "cpu" Hshort Hlen).
Defined.

(** The witness of [d_reset_write_system_reset]: the upper bits of the
    value are not looked at. *)
Lemma d_reset_write_system_reset_witness :
  Z.land 0xabcd7777 0xffff = FINISHER_RESET /\
  d_reset_write four_harts 0 0xabcd7777 4
  = Return {| cpus := cpus four_harts;
              reset_requests := [SHUTDOWN_CAUSE_GUEST_RESET];
              guest_errors := [] |}.
Proof.
  assert (Hst : Z.land 0xabcd7777 0xffff = FINISHER_RESET) by reflexivity.
  split; [exact Hst |].
  exact (d_reset_write_system_reset four_harts 0xabcd7777 4 Hst).
Defined.

(** The witness of [d_reset_write_unknown_status]. *)
Lemma d_reset_write_unknown_status_witness :
  Z.land 0x1234 0xffff <> FINISHER_FAIL /\
  Z.land 0x1234 0xffff <> FINISHER_PASS /\
  Z.land 0x1234 0xffff <> FINISHER_RESET /\
  d_reset_write four_harts 8 0x1234 4
  = Return {| cpus := cpus four_harts;
              reset_requests := [];
              guest_errors := [(8, 0x1234)] |}.
Proof.
  assert (Hf : Z.land 0x1234 0xffff <> FINISHER_FAIL) by discriminate.
  assert (Hp : Z.land 0x1234 0xffff <> FINISHER_PASS) by discriminate.
  assert (Hr : Z.land 0x1234 0xffff <> FINISHER_RESET) by discriminate.
  split; [exact Hf |]. split; [exact Hp |]. split; [exact Hr |].
  exact (d_reset_write_unknown_status four_harts 8 0x1234 4 Hf Hp Hr).
Defined.

(** The witness of [d_reset_write_missing_hart]: a machine of four harts
    has no hart 4. *)
Lemma d_reset_write_missing_hart_witness :
  (1 <= 4)%nat /\
  Z.of_nat 4 <= Int.INT_MAX /\
  (length (cpus four_harts) <= 4)%nat /\
  Z.land 0x7777 0xffff = FINISHER_RESET /\
  d_reset_write four_harts (4 * Z.of_nat 4) 0x7777 4 = NullDereference.
Proof.
  assert (H1 : (1 <= 4)%nat) by lia.
  assert (H2 : Z.of_nat 4 <= Int.INT_MAX) by (vm_compute; discriminate).
  assert (H3 : (length (cpus four_harts) <= 4)%nat) by (vm_compute; lia).
  assert (H4 : Z.land 0x7777 0xffff = FINISHER_RESET) by reflexivity.
  split; [exact H1 |]. split; [exact H2 |]. split; [exact H3 |].
  split; [exact H4 |].
  exact (d_reset_write_missing_hart four_harts 4 0x7777 4 H1 H2 H3 H4).
Defined.

(** The machine of four harts after the reset of hart 2. *)
Lemma d_reset_write_frame_witness :
  let m' := machine_set_cpu 2
              (riscv_cpu_reset (elt cpu_zero (cpus four_harts) 2))
              four_harts in
  d_reset_write four_harts 8 0x7777 4 = Return m' /\
  length (cpus m') = length (cpus four_harts) /\
  (reset_requests m' = reset_requests four_harts \/
   (8 = 0 /\ cpus m' = cpus four_harts /\
    reset_requests m'
    = reset_requests four_harts ++ [SHUTDOWN_CAUSE_GUEST_RESET])).
Proof.
  intros m'.
  assert (Hrun : d_reset_write four_harts 8 0x7777 4 = Return m')
    by reflexivity.
  split; [exact Hrun |].
  destruct (d_reset_write_frame four_harts m' 8 0x7777 4 Hrun)
    as (Hlen & _ & Hreq).
  split; [exact Hlen | exact Hreq].
Defined.

(** The witness of [d_reset_write_keeps_hart_0]: the same write. *)
Lemma d_reset_write_keeps_hart_0_witness :
  let m' := machine_set_cpu 2
              (riscv_cpu_reset (elt cpu_zero (cpus four_harts) 2))
              four_harts in
  0 <= 8 < 2 ^ 33 /\
  8 mod 4 = 0 /\
  d_reset_write four_harts 8 0x7777 4 = Return m' /\
  cpus m' !! 0%nat = cpus four_harts !! 0%nat.
Proof.
  intros m'.
  assert (Hrange : 0 <= 8 < 2 ^ 33) by lia.
  assert (Halign : 8 mod 4 = 0) by reflexivity.
  assert (Hrun : d_reset_write four_harts 8 0x7777 4 = Return m')
    by reflexivity.
  split; [exact Hrange |]. split; [exact Halign |]. split; [exact Hrun |].
  exact (d_reset_write_keeps_hart_0 four_harts m' 8 0x7777 4
           Hrange Halign Hrun).
Defined.

(** The witness of [realize_early_error_leaves_hart]: the base model, with
    an error of [cpu_exec_realizefn]. *)
Lemma realize_early_error_leaves_hart_witness :
  let cpu := rv64_base_with riscv_cpu_properties in
  (Some "no accelerator"%string <> None \/
   supported_priv_spec (cfg cpu) = false) /\
  exists err,
    riscv_cpu_realize cpu (Some "no accelerator"%string)
    = (cpu, Some err, []) /\
    err = E_exec_realize "no accelerator".
Proof.
  intros cpu.
  assert (Hearly : Some "no accelerator"%string <> None \/
                   supported_priv_spec (cfg cpu) = false)
    by (left; discriminate).
  split; [exact Hearly |].
  exact (realize_early_error_leaves_hart cpu (Some "no accelerator"%string)
           Hearly).
Defined.

(** The witness of [realize_success_state]: the SiFive U54 model presets
    the privilege version 1.10; realized with the property defaults it has
    the version 1.11. *)
Lemma realize_success_state_witness :
  let cpu := sifive_u54_with riscv_cpu_properties in
  let cpu' := fst (fst (riscv_cpu_realize cpu None)) in
  let log := snd (riscv_cpu_realize cpu None) in
  riscv_cpu_realize cpu None = (cpu', None, log) /\
  priv_ver (env cpu) = PRIV_VERSION_1_10_0 /\
  priv_ver (env cpu') = PRIV_VERSION_1_11_0 /\
  pc (env cpu') = DEFAULT_RSTVEC.
Proof.
  intros cpu cpu' log.
  assert (Hrun : riscv_cpu_realize cpu None = (cpu', None, log))
    by (vm_compute; reflexivity).
  split; [exact Hrun |]. split; [reflexivity |].
  destruct (realize_success_state cpu cpu' None log Hrun)
    as (_ & Hpc & _ & Hpv & _).
  split; [exact Hpv | exact Hpc].
Defined.

(** The witness of [realize_e_with_g_sets_i_and_e]: the base model with E
    requested in place of I, G being requested by default. *)
Lemma realize_e_with_g_sets_i_and_e_witness :
  let cpu := rv64_base_with (cfg_set_i_e false true riscv_cpu_properties) in
  ext_e (cfg cpu) = true /\ ext_i (cfg cpu) = false /\
  ext_g (cfg cpu) = true /\
  exists cpu' log,
    riscv_cpu_realize cpu None = (cpu', None, log) /\
    Z.land (misa (env cpu')) RVI = RVI /\
    Z.land (misa (env cpu')) RVE = RVE.
Proof.
  intros cpu.
  assert (Hbase : misa (env cpu) = RV32 \/ misa (env cpu) = RV64)
    by (right; reflexivity).
  assert (He : ext_e (cfg cpu) = true) by reflexivity.
  assert (Hi : ext_i (cfg cpu) = false) by reflexivity.
  assert (Hg : ext_g (cfg cpu) = true) by reflexivity.
  assert (Hpriv : supported_priv_spec (cfg cpu) = true) by reflexivity.
  assert (Hb : ext_b (cfg cpu) = true -> supported_bext_spec (cfg cpu) = true)
    by (intros _; reflexivity).
  assert (Hv : ext_v (cfg cpu) = true ->
               vector_geometry_accepted (cfg cpu) = true /\
               supported_vext_spec (cfg cpu) = true)
    by (intros _; split; reflexivity).
  split; [exact He |]. split; [exact Hi |]. split; [exact Hg |].
  destruct (realize_e_with_g_sets_i_and_e cpu Hbase He Hi Hg Hpriv Hb Hv)
    as (cpu' & log & Hrun & HI & HE & _).
  exists cpu', log. auto.
Defined.

(** The witness of [load_state_stores_scalar_records]: the snapshot of the
    32-bit hart restored into hart 0. *)
Lemma load_state_stores_scalar_records_witness :
  let file := snapshot_of hart_rv32 in
  let cpu' := fst (riscv_cpu_load_state hart_0 file "") in
  riscv_cpu_load_state hart_0 file "" = (cpu', None) /\
  riscv_cpu_is_32bit (env cpu') = true /\
  Text.sscanf (record_line 0 "" file) "pc %lx"
  = [Text.V_int (pc (env cpu'))] /\
  Text.sscanf (record_line 36 "" file) "mstatush %lx"
  = [Text.V_int (mstatus (env cpu'))].
Proof.
  intros file cpu'.
  assert (Hrun : riscv_cpu_load_state hart_0 file "" = (cpu', None))
    by (vm_compute; reflexivity).
  assert (H32 : riscv_cpu_is_32bit (env cpu') = true)
    by (vm_compute; reflexivity).
  split; [exact Hrun |]. split; [exact H32 |].
  destruct (load_state_stores_scalar_records hart_0 cpu' file "" Hrun)
    as [Hrec Hhigh].
  split.
  - apply (Hrec 0%nat "pc %lx"%string PC "pc"%string eq_refl).
    left. discriminate.
  - exact (Hhigh H32).
Defined.

(** The witness of [load_state_stores_registers]: the record of x5 in the
    snapshot of hart 1. *)
Lemma load_state_stores_registers_witness :
  let file := snapshot_of hart_1 in
  let cpu' := fst (riscv_cpu_load_state hart_0 file "") in
  riscv_cpu_load_state hart_0 file "" = (cpu', None) /\
  (5 < 32)%nat /\
  register_value (record_line 41 "" file) = Some (elt 0 (gpr (env cpu')) 5) /\
  register_value (record_line 73 "" file) = Some (elt 0 (fpr (env cpu')) 5).
Proof.
  intros file cpu'.
  assert (Hrun : riscv_cpu_load_state hart_0 file "" = (cpu', None))
    by (vm_compute; reflexivity).
  assert (Hgl : length (gpr (env hart_0)) = 32%nat) by (vm_compute; reflexivity).
  assert (Hfl : length (fpr (env hart_0)) = 32%nat) by (vm_compute; reflexivity).
  assert (Hi : (5 < 32)%nat) by lia.
  split; [exact Hrun |]. split; [exact Hi |].
  pose proof (load_state_stores_registers hart_0 cpu' file "" 5
                Hrun Hgl Hfl Hi) as Hregs.
  assert (H64 : riscv_cpu_is_32bit (env cpu') = false)
    by (vm_compute; reflexivity).
  cbn zeta in Hregs. rewrite H64 in Hregs. exact Hregs.
Defined.

(** The witness of [load_state_accepts_truncated_file]: a snapshot cut
    after its scalar records.  The restore succeeds, and every register
    holds the value of the last scalar record, that of timecmp. *)
Lemma load_state_accepts_truncated_file_witness :
  let cpu := cpu_set_env (env_set TIMECMP 0x55 (env hart_1)) hart_1 in
  let file := first_lines 36 (snapshot_of cpu) in
  let line := ("timecmp    0000000000000055" +:+ nl)%string in
  lines_read 37 (""%string, file) = (line, ""%string) /\
  register_value line = Some 0x55 /\
  exists cpu',
    riscv_cpu_load_state hart_0 file "" = (cpu', None) /\
    gpr (env cpu') = replicate 32 0x55 /\
    fpr (env cpu') = replicate 32 0x55.
Proof.
  intros cpu file line.
  assert (Hlast : lines_read 37 (""%string, file) = (line, ""%string))
    by (vm_compute; reflexivity).
  assert (Hv : register_value line = Some 0x55) by (vm_compute; reflexivity).
  split; [exact Hlast |]. split; [exact Hv |].
  apply (load_state_accepts_truncated_file hart_0 file "" line
           (misa (env hart_1)) 0x55).
  - intros j rj Hj.
    assert (Hlt : (j < 36)%nat) by (apply lookup_lt_Some in Hj; exact Hj).
    do 36 (destruct j as [| j];
           [injection Hj as <-; eexists; vm_compute; reflexivity |]).
    lia.
  - vm_compute. reflexivity.
  - vm_compute. discriminate.
  - exact Hlast.
  - exact Hv.
  - reflexivity.
  - vm_compute. reflexivity.
  - vm_compute. reflexivity.
Defined.

(** * The snapshot round trip *)

(** ** The text of a record, written and read back *)

Lemma append_assoc (a b c : string) : ((a +:+ b) +:+ c)%string = (a +:+ b +:+ c)%string.
Proof.
  induction a as [| x a IH]; [reflexivity |].
  change (String x a +:+ b) with (String x (a +:+ b)).
  change (String x (a +:+ b) +:+ c) with (String x ((a +:+ b) +:+ c)).
  rewrite IH. reflexivity.
Qed.

Lemma append_nil_r (a : string) : (a +:+ "")%string = a.
Proof.
  induction a as [| x a IH]; [reflexivity |].
  change (String x a +:+ "") with (String x (a +:+ "")).
  rewrite IH. reflexivity.
Qed.

(** *** Hexadecimal digits *)

Lemma digits_acc (base : Z) (n : nat) (v : Z) (acc : string) :
  Text.digits base n v acc = (Text.digits base n v "" +:+ acc)%string.
Proof.
  revert v acc. induction n as [| n IH]; intros v acc; [reflexivity |].
  cbn [Text.digits]. rewrite IH, (IH _ (String _ "")), append_assoc.
  reflexivity.
Qed.

Lemma hex_value_digit_char (d : Z) :
  0 <= d < 16 -> Text.hex_value (Text.digit_char d) = Some d.
Proof.
  intros Hd.
  assert (Hcases : d = 0 \/ d = 1 \/ d = 2 \/ d = 3 \/ d = 4 \/ d = 5 \/
                   d = 6 \/ d = 7 \/ d = 8 \/ d = 9 \/ d = 10 \/ d = 11 \/
                   d = 12 \/ d = 13 \/ d = 14 \/ d = 15) by lia.
  repeat (destruct Hcases as [-> | Hcases]; [reflexivity |]).
  subst d. reflexivity.
Qed.

Lemma all_chars_app (p : ascii -> bool) (a b : string) :
  all_chars p (a +:+ b) = all_chars p a && all_chars p b.
Proof.
  induction a as [| x a IH]; [reflexivity |].
  change (String x a +:+ b) with (String x (a +:+ b)).
  cbn [all_chars]. rewrite IH, andb_assoc. reflexivity.
Qed.

Lemma all_chars_impl (p q : ascii -> bool) (s : string) :
  (forall c, p c = true -> q c = true) ->
  all_chars p s = true -> all_chars q s = true.
Proof.
  intros Hpq. induction s as [| c s IH]; [reflexivity |].
  cbn [all_chars]. intros [Hc Hs]%andb_prop.
  rewrite (Hpq c Hc), (IH Hs). reflexivity.
Qed.

Lemma is_hex_digit_char (d : Z) :
  0 <= d < 16 -> is_hex (Text.digit_char d) = true.
Proof.
  intros Hd. unfold is_hex. rewrite hex_value_digit_char by exact Hd.
  reflexivity.
Qed.

Lemma all_hex_digits (n : nat) (v : Z) :
  all_chars is_hex (Text.digits 16 n v "") = true.
Proof.
  revert v. induction n as [| n IH]; intros v; [reflexivity |].
  cbn [Text.digits]. rewrite digits_acc, all_chars_app, IH.
  cbn [all_chars]. rewrite is_hex_digit_char by (apply Z.mod_pos_bound; lia).
  reflexivity.
Qed.

Lemma scan_digits_all_hex (acc : Z) (h rest : string) :
  all_chars is_hex h = true ->
  Text.scan_digits Text.hex_value 16 acc (h +:+ rest)
  = Text.scan_digits Text.hex_value 16
      (fst (Text.scan_digits Text.hex_value 16 acc h)) rest.
Proof.
  revert acc. induction h as [| c h IH]; intros acc Hh.
  - destruct rest; reflexivity.
  - cbn [all_chars] in Hh. apply andb_prop in Hh as [Hc Hh].
    unfold is_hex in Hc.
    change (String c h +:+ rest) with (String c (h +:+ rest)).
    cbn [Text.scan_digits].
    destruct (Text.hex_value c) as [d |]; [| discriminate Hc].
    apply IH, Hh.
Qed.

Lemma scan_digits_digits (n : nat) (v acc : Z) :
  0 <= acc ->
  fst (Text.scan_digits Text.hex_value 16 acc (Text.digits 16 n v ""))
  = acc * 16 ^ Z.of_nat n + v mod 16 ^ Z.of_nat n.
Proof.
  revert v acc. induction n as [| n IH]; intros v acc Hacc.
  { cbn. rewrite Z.mod_1_r. lia. }
  cbn [Text.digits]. rewrite digits_acc.
  rewrite scan_digits_all_hex by apply all_hex_digits.
  rewrite IH by assumption.
  cbn [Text.scan_digits].
  rewrite hex_value_digit_char by (apply Z.mod_pos_bound; lia).
  cbn [fst].
  rewrite Nat2Z.inj_succ, Z.pow_succ_r by lia.
  rewrite (Z.rem_mul_r v 16 (16 ^ Z.of_nat n)) by lia.
  lia.
Qed.

(** Leading zeros do not change the number read. *)
Lemma scan_digits_strip_zeros (h : string) :
  fst (Text.scan_digits Text.hex_value 16 0 (Text.strip_zeros h))
  = fst (Text.scan_digits Text.hex_value 16 0 h).
Proof.
  induction h as [| c h IH]; [reflexivity |].
  destruct h as [| c' h']; [reflexivity |].
  change (Text.strip_zeros (String c (String c' h')))
    with (if Ascii.eqb c "0" then Text.strip_zeros (String c' h')
          else String c (String c' h')).
  destruct (Ascii.eqb_spec c "0") as [-> | Hne]; [| reflexivity].
  rewrite IH.
  change (Text.scan_digits Text.hex_value 16 0 (String "0" (String c' h')))
    with (Text.scan_digits Text.hex_value 16 0 (String c' h')).
  reflexivity.
Qed.

Lemma all_hex_strip_zeros (h : string) :
  all_chars is_hex h = true -> all_chars is_hex (Text.strip_zeros h) = true.
Proof.
  induction h as [| c h IH]; intros Hh; [exact Hh |].
  destruct h as [| c' h']; [exact Hh |].
  change (Text.strip_zeros (String c (String c' h')))
    with (if Ascii.eqb c "0" then Text.strip_zeros (String c' h')
          else String c (String c' h')).
  destruct (Ascii.eqb c "0"); [| exact Hh].
  apply IH. cbn [all_chars] in Hh. apply andb_prop in Hh as [_ Hh]. exact Hh.
Qed.

Lemma strip_zeros_not_empty (h : string) :
  h <> EmptyString -> Text.strip_zeros h <> EmptyString.
Proof.
  induction h as [| c h IH]; intros Hne; [congruence |].
  destruct h as [| c' h']; [discriminate |].
  change (Text.strip_zeros (String c (String c' h')))
    with (if Ascii.eqb c "0" then Text.strip_zeros (String c' h')
          else String c (String c' h')).
  destruct (Ascii.eqb c "0"); [| discriminate].
  apply IH. discriminate.
Qed.

Lemma digits_not_empty (n : nat) (v : Z) :
  Text.digits 16 (S n) v "" <> EmptyString.
Proof.
  cbn [Text.digits]. rewrite digits_acc.
  destruct (Text.digits 16 n (v / 16) ""); discriminate.
Qed.

(** The conversion [%lx] on a number followed by the line feed: the
    number is read whole. *)
Lemma scan_lx_all_hex (h rest : string) :
  h <> EmptyString -> all_chars is_hex h = true ->
  Text.scan_lx (h +:+ String Text.LF rest)
  = Some (Text.strtoul_value false
            (fst (Text.scan_digits Text.hex_value 16 0 h)),
          String Text.LF rest).
Proof.
  intros Hne Hh. destruct h as [| c h]; [congruence |].
  pose proof Hh as Hall.
  cbn [all_chars] in Hh. apply andb_prop in Hh as [Hc Hh'].
  unfold is_hex in Hc.
  destruct (Text.hex_value c) as [d |] eqn:Hd; [clear Hc | discriminate Hc].
  change (String c h +:+ String Text.LF rest)
    with (String c (h +:+ String Text.LF rest)).
  assert (Hsp : Text.isspace c = false).
  { destruct c as [[] [] [] [] [] [] [] []]; try reflexivity;
      discriminate Hd. }
  assert (Hsign : Text.scan_sign (String c (h +:+ String Text.LF rest))
                  = (false, String c (h +:+ String Text.LF rest))).
  { destruct c as [[] [] [] [] [] [] [] []]; try reflexivity;
      discriminate Hd. }
  assert (Hmag : Text.scan_magnitude Text.hex_value 16
                   (String c (h +:+ String Text.LF rest))
                 = Some (Text.scan_digits Text.hex_value 16 0
                           (String c (h +:+ String Text.LF rest)))).
  { cbn [Text.scan_digits]. rewrite Hd.
    destruct (Ascii.eqb_spec c "0") as [-> | Hc].
    - injection Hd as <-.
      destruct h as [| c2 h2].
      + reflexivity.
      + cbn [all_chars] in Hh'. apply andb_prop in Hh' as [Hc2 _].
        unfold is_hex in Hc2.
        change (String c2 h2 +:+ String Text.LF rest)
          with (String c2 (h2 +:+ String Text.LF rest)).
        unfold Text.scan_magnitude.
        assert (Hx : (16 =? 16) && (Ascii.eqb c2 "x" || Ascii.eqb c2 "X")
                     = false).
        { destruct c2 as [[] [] [] [] [] [] [] []]; try reflexivity;
            discriminate Hc2. }
        rewrite Hx. reflexivity.
    - unfold Text.scan_magnitude.
      destruct c as [[] [] [] [] [] [] [] []];
        try discriminate Hd; try congruence; rewrite Hd; reflexivity. }
  unfold Text.scan_lx. cbn [Text.skip_space]. rewrite Hsp, Hsign, Hmag.
  change (String c (h +:+ String Text.LF rest))
    with (String c h +:+ String Text.LF rest).
  rewrite scan_digits_all_hex by assumption.
  reflexivity.
Qed.

Lemma to_u64_range (v : Z) : 0 <= Int.to_u64 v < 2 ^ 64.
Proof. apply Z.mod_pos_bound. reflexivity. Qed.

(** [TARGET_FMT_lx] written and read back with [%lx]. *)
Lemma scan_lx_fmt_016lx (v : Z) (rest : string) :
  Text.scan_lx (Text.fmt_016lx v +:+ String Text.LF rest)
  = Some (Int.to_u64 v, String Text.LF rest).
Proof.
  unfold Text.fmt_016lx.
  rewrite scan_lx_all_hex by (apply digits_not_empty || apply all_hex_digits).
  rewrite scan_digits_digits by lia.
  pose proof (to_u64_range v) as Hr.
  change (Z.of_nat 16) with 16. change (16 ^ 16) with (2 ^ 64).
  rewrite Z.mod_small by exact Hr.
  unfold Text.strtoul_value, Int.ULONG_MAX, Int.u64_modulus.
  destruct (Z.ltb_spec (2 ^ 64 - 1) (0 * 2 ^ 64 + Int.to_u64 v)); [lia |].
  f_equal.
Qed.

Lemma to_u32_range (v : Z) : 0 <= Int.to_u32 v < 2 ^ 32.
Proof. apply Z.mod_pos_bound. reflexivity. Qed.

(** [%x] written and read back with [%x]. *)
Lemma scan_x_fmt_x (v : Z) (rest : string) :
  Text.scan_x (Text.fmt_x v +:+ String Text.LF rest)
  = Some (Int.to_u32 v, String Text.LF rest).
Proof.
  unfold Text.fmt_x, Text.scan_x.
  rewrite scan_lx_all_hex
    by (apply strip_zeros_not_empty, digits_not_empty
        || apply all_hex_strip_zeros, all_hex_digits).
  rewrite scan_digits_strip_zeros.
  rewrite scan_digits_digits by lia.
  pose proof (to_u32_range v) as Hr.
  change (Z.of_nat 8) with 8. change (16 ^ 8) with (2 ^ 32).
  rewrite Z.mod_small by exact Hr.
  unfold Text.strtoul_value, Int.ULONG_MAX, Int.u64_modulus.
  destruct (Z.ltb_spec (2 ^ 64 - 1) (0 * 2 ^ 32 + Int.to_u32 v)); [lia |].
  replace (0 * 2 ^ 32 + Int.to_u32 v) with (Int.to_u32 v) by lia.
  unfold Int.to_u32 at 1. unfold Int.u32_modulus.
  rewrite Z.mod_small by exact Hr. reflexivity.
Qed.
(** *** C strings and lines *)

Lemma c_str_inline (s r : string) :
  all_chars is_inline s = true ->
  Text.c_str (s +:+ r) = (s +:+ Text.c_str r)%string.
Proof.
  induction s as [| c s IH]; intros Hs; [reflexivity |].
  cbn [all_chars] in Hs. apply andb_prop in Hs as [Hc Hs].
  unfold is_inline in Hc. apply andb_prop in Hc as [Hnul _].
  change (String c s +:+ r) with (String c (s +:+ r)).
  cbn [Text.c_str]. apply negb_true_iff in Hnul. rewrite Hnul, IH by exact Hs.
  reflexivity.
Qed.

Lemma is_hex_inline (c : ascii) : is_hex c = true -> is_inline c = true.
Proof.
  destruct c as [[] [] [] [] [] [] [] []]; try reflexivity; discriminate.
Qed.

Lemma is_blank_inline (c : ascii) : is_blank c = true -> is_inline c = true.
Proof.
  destruct c as [[] [] [] [] [] [] [] []]; try reflexivity; discriminate.
Qed.

Lemma skip_space_blanks (pad s : string) :
  all_chars is_blank pad = true ->
  Text.skip_space (pad +:+ s) = Text.skip_space s.
Proof.
  induction pad as [| c pad IH]; intros Hpad; [reflexivity |].
  cbn [all_chars] in Hpad. apply andb_prop in Hpad as [Hc Hpad].
  change (String c pad +:+ s) with (String c (pad +:+ s)).
  cbn [Text.skip_space].
  assert (Hsp : Text.isspace c = true).
  { unfold is_blank in Hc. apply Ascii.eqb_eq in Hc. subst c. reflexivity. }
  rewrite Hsp. apply IH, Hpad.
Qed.

(** The digits of a value, the line feed and nothing else, read with
    [%lx] and with [%x]. *)
Lemma scan_D_lx_fmt_016lx (v : Z) :
  Text.scan [Text.D_lx] (Text.fmt_016lx v +:+ nl) = [Text.V_int (Int.to_u64 v)].
Proof.
  unfold nl. cbn [Text.scan]. rewrite scan_lx_fmt_016lx. reflexivity.
Qed.

Lemma scan_D_x_fmt_x (v : Z) :
  Text.scan [Text.D_x] (Text.fmt_x v +:+ nl) = [Text.V_int (Int.to_u32 v)].
Proof.
  unfold nl. cbn [Text.scan]. rewrite scan_x_fmt_x. reflexivity.
Qed.

Lemma fmt_016lx_inline (v : Z) : all_chars is_inline (Text.fmt_016lx v) = true.
Proof.
  apply (all_chars_impl is_hex); [apply is_hex_inline |].
  apply all_hex_digits.
Qed.

Lemma fmt_x_inline (v : Z) : all_chars is_inline (Text.fmt_x v) = true.
Proof.
  apply (all_chars_impl is_hex); [apply is_hex_inline |].
  apply all_hex_strip_zeros, all_hex_digits.
Qed.

Lemma c_str_digits_line (h : string) :
  all_chars is_inline h = true -> Text.c_str (h +:+ nl) = (h +:+ nl)%string.
Proof. intros Hh. rewrite c_str_inline by exact Hh. reflexivity. Qed.

(** *** A register record *)

Lemma token_inline (name : string) :
  token name -> all_chars is_inline name = true.
Proof.
  intros [_ Hall]. induction name as [| c name IH]; [reflexivity |].
  cbn [list_ascii_of_string] in Hall.
  inversion Hall as [| ? ? [Hsp Hnul] Hname]; subst.
  cbn [all_chars]. rewrite (IH Hname), andb_true_r.
  unfold is_inline. apply andb_true_intro. split.
  - apply negb_true_iff, Ascii.eqb_neq, Hnul.
  - apply negb_true_iff, Ascii.eqb_neq. intros ->. discriminate Hsp.
Qed.

(** A blank before a record read with [%s] is skipped. *)
Lemma sscanf_s_skips_blank (line fmt : string) :
  Text.sscanf (String " " line) (String "%" (String "s" fmt))
  = Text.sscanf line (String "%" (String "s" fmt)).
Proof. reflexivity. Qed.

(** The record of a register as the dump writes it, leading blank
    included, is accepted by the pattern of the register records, and the
    value read back is the value written. *)
Theorem register_record_round_trip (name : string) (v : Z) :
  token name ->
  register_value (fprintf_lx name v) = Some (Int.to_u64 v).
Proof.
  intros Hname. unfold register_value, fprintf_lx.
  change (" " +:+ name +:+ " " +:+ Text.fmt_016lx v +:+ nl)
    with (String " " (name +:+ " " +:+ (Text.fmt_016lx v +:+ nl))).
  rewrite sscanf_s_skips_blank.
  rewrite sscanf_register_record by exact Hname.
  unfold Text.sscanf at 1.
  rewrite c_str_digits_line by apply fmt_016lx_inline.
  change (Text.parse_format "%lx") with [Text.D_lx].
  rewrite scan_D_lx_fmt_016lx. reflexivity.
Qed.

(** *** A scalar record *)

Lemma scan_tag (tag conv line : string) :
  all_chars ordinary tag = true ->
  Text.scan (Text.parse_format (tag +:+ conv)) (tag +:+ line)
  = Text.scan (Text.parse_format conv) line.
Proof.
  induction tag as [| c tag IH]; intros Htag; [reflexivity |].
  cbn [all_chars] in Htag. apply andb_prop in Htag as [Hc Htag].
  change (String c tag +:+ conv) with (String c (tag +:+ conv)).
  change (String c tag +:+ line) with (String c (tag +:+ line)).
  rewrite parse_format_ordinary by exact Hc.
  cbn [Text.scan]. rewrite Ascii.eqb_refl. apply IH, Htag.
Qed.

(** A scalar record without the leading blank: the tag, blanks, the digits
    of the value and the line feed.  The pattern of the tag reads the
    value back. *)
Lemma sscanf_scalar_record (tag pad : string) (v : Z) :
  all_chars ordinary tag = true ->
  all_chars is_inline tag = true ->
  all_chars is_blank pad = true ->
  Text.sscanf ((tag +:+ pad) +:+ " " +:+ Text.fmt_016lx v +:+ nl)
    (tag +:+ " %lx")
  = [Text.V_int (Int.to_u64 v)].
Proof.
  intros Hord Hin Hpad. unfold Text.sscanf.
  rewrite !append_assoc.
  rewrite c_str_inline by exact Hin.
  rewrite c_str_inline
    by (apply (all_chars_impl is_blank); [apply is_blank_inline | exact Hpad]).
  change (" " +:+ Text.fmt_016lx v +:+ nl)
    with (String " " (Text.fmt_016lx v +:+ nl)).
  change (Text.c_str (String " " (Text.fmt_016lx v +:+ nl)))
    with (String " " (Text.c_str (Text.fmt_016lx v +:+ nl))).
  rewrite c_str_digits_line by apply fmt_016lx_inline.
  rewrite scan_tag by exact Hord.
  change (Text.parse_format " %lx") with [Text.D_space; Text.D_lx].
  cbn [Text.scan]. rewrite skip_space_blanks by exact Hpad.
  change (Text.skip_space (String " " (Text.fmt_016lx v +:+ nl)))
    with (Text.skip_space (Text.fmt_016lx v +:+ nl)).
  rewrite scan_lx_skip_space.
  change (match Text.scan_lx (Text.fmt_016lx v +:+ nl) with
          | Some (v0, r) => Text.V_int v0 :: Text.scan [] r
          | None => []
          end)
    with (Text.scan [Text.D_lx] (Text.fmt_016lx v +:+ nl)).
  apply scan_D_lx_fmt_016lx.
Qed.

Lemma scan_x_skip_space (s : string) :
  Text.scan_x (Text.skip_space s) = Text.scan_x s.
Proof. unfold Text.scan_x. rewrite scan_lx_skip_space. reflexivity. Qed.

(** The same for the record of the features, written and read with [%x]. *)
Lemma sscanf_scalar_record_x (tag pad : string) (v : Z) :
  all_chars ordinary tag = true ->
  all_chars is_inline tag = true ->
  all_chars is_blank pad = true ->
  Text.sscanf ((tag +:+ pad) +:+ " " +:+ Text.fmt_x v +:+ nl)
    (tag +:+ " %x")
  = [Text.V_int (Int.to_u32 v)].
Proof.
  intros Hord Hin Hpad. unfold Text.sscanf.
  rewrite !append_assoc.
  rewrite c_str_inline by exact Hin.
  rewrite c_str_inline
    by (apply (all_chars_impl is_blank); [apply is_blank_inline | exact Hpad]).
  change (" " +:+ Text.fmt_x v +:+ nl)
    with (String " " (Text.fmt_x v +:+ nl)).
  change (Text.c_str (String " " (Text.fmt_x v +:+ nl)))
    with (String " " (Text.c_str (Text.fmt_x v +:+ nl))).
  rewrite c_str_digits_line by apply fmt_x_inline.
  rewrite scan_tag by exact Hord.
  change (Text.parse_format " %x") with [Text.D_space; Text.D_x].
  cbn [Text.scan]. rewrite skip_space_blanks by exact Hpad.
  change (Text.skip_space (String " " (Text.fmt_x v +:+ nl)))
    with (Text.skip_space (Text.fmt_x v +:+ nl)).
  rewrite scan_x_skip_space.
  change (match Text.scan_x (Text.fmt_x v +:+ nl) with
          | Some (v0, r) => Text.V_int v0 :: Text.scan [] r
          | None => []
          end)
    with (Text.scan [Text.D_x] (Text.fmt_x v +:+ nl)).
  apply scan_D_x_fmt_x.
Qed.

(** *** Lines of a text *)

Lemma unindent_inline (body rest : string) :
  all_chars is_inline body = true ->
  unindent false (body +:+ String Text.LF rest)
  = (body +:+ String Text.LF (unindent true rest))%string.
Proof.
  induction body as [| c body IH]; intros Hb; [reflexivity |].
  cbn [all_chars] in Hb. apply andb_prop in Hb as [Hc Hb].
  unfold is_inline in Hc. apply andb_prop in Hc as [_ Hlf].
  apply negb_true_iff in Hlf.
  change (String c body +:+ String Text.LF rest)
    with (String c (body +:+ String Text.LF rest)).
  cbn [unindent andb]. rewrite Hlf, IH by exact Hb. reflexivity.
Qed.

(** A name a record begins with: not empty, not beginning with a blank,
    without NUL and line feed. *)
Lemma unindent_record (name body rest : string) :
  (match name with
   | String c _ => negb (is_blank c)
   | EmptyString => false
   end) = true ->
  all_chars is_inline (name +:+ body) = true ->
  unindent true (String " " ((name +:+ body) +:+ String Text.LF rest))
  = ((name +:+ body) +:+ String Text.LF (unindent true rest))%string.
Proof.
  intros Hfirst Hin. destruct name as [| c name]; [discriminate Hfirst |].
  change (unindent true
            (String " " ((String c name +:+ body) +:+ String Text.LF rest)))
    with (unindent true ((String c name +:+ body) +:+ String Text.LF rest)).
  change ((String c name +:+ body) +:+ String Text.LF rest)
    with (String c ((name +:+ body) +:+ String Text.LF rest)).
  change (String c name +:+ body) with (String c (name +:+ body)) in Hin.
  cbn [all_chars] in Hin. apply andb_prop in Hin as [Hc Hin].
  unfold is_inline in Hc. apply andb_prop in Hc as [_ Hlf].
  apply negb_true_iff in Hlf, Hfirst. unfold is_blank in Hfirst.
  cbn [unindent andb]. rewrite Hfirst, Hlf.
  rewrite unindent_inline by exact Hin. reflexivity.
Qed.

Lemma read_line_inline (n : nat) (body rest : string) :
  all_chars is_inline body = true ->
  (String.length body < n)%nat ->
  Text.read_line n (body +:+ String Text.LF rest)
  = ((body +:+ nl)%string, rest).
Proof.
  revert n. induction body as [| c body IH]; intros n Hb Hlen.
  - destruct n as [| n]; [cbn in Hlen; lia |]. reflexivity.
  - destruct n as [| n]; [cbn in Hlen; lia |].
    cbn [all_chars] in Hb. apply andb_prop in Hb as [Hc Hb].
    unfold is_inline in Hc. apply andb_prop in Hc as [_ Hlf].
    apply negb_true_iff in Hlf.
    change (String c body +:+ String Text.LF rest)
      with (String c (body +:+ String Text.LF rest)).
    rewrite read_line_cons, Hlf.
    rewrite IH by (try exact Hb; cbn [String.length] in Hlen; lia).
    reflexivity.
Qed.

(** One call of [fgets] on a text that begins with a line shorter than the
    buffer: the line is read, the rest of the text is left. *)
Lemma next_line_inline (buf body rest : string) :
  all_chars is_inline body = true ->
  (String.length body < 99)%nat ->
  next_line (buf, (body +:+ String Text.LF rest)%string)
  = ((body +:+ nl)%string, rest).
Proof.
  intros Hb Hlen. unfold next_line, Text.fgets. cbn [fst snd].
  change (FILE_LINE_MAX - 1)%nat with 99%nat.
  rewrite read_line_inline by assumption.
  destruct (body +:+ String Text.LF rest) eqn:Hcat; [| reflexivity].
  destruct body; discriminate Hcat.
Qed.
(** ** The snapshot, record by record *)

Lemma text_of_app (a b : list string) (rest : string) :
  text_of (a ++ b) rest = text_of a (text_of b rest).
Proof. unfold text_of. apply fold_right_app. Qed.

Lemma record_name_first (name : string) :
  record_name name = true ->
  (match name with
   | String c _ => negb (is_blank c)
   | EmptyString => false
   end) = true /\ all_chars is_inline name = true.
Proof. unfold record_name. intros H. apply andb_prop in H. exact H. Qed.

Lemma record_body_inline (name digits : string) :
  all_chars is_inline name = true ->
  all_chars is_inline digits = true ->
  all_chars is_inline (record_body name digits) = true.
Proof.
  intros Hn Hd. unfold record_body.
  rewrite all_chars_app, Hn, all_chars_app, Hd. reflexivity.
Qed.

(** A record the dump writes with [TARGET_FMT_lx], with its leading blank
    removed. *)
Lemma unindent_fprintf_lx (name : string) (v : Z) (rest : string) :
  record_name name = true ->
  unindent true (fprintf_lx name v +:+ rest)
  = (record_body name (Text.fmt_016lx v)
     +:+ String Text.LF (unindent true rest))%string.
Proof.
  intros Hname. apply record_name_first in Hname as [Hfirst Hin].
  unfold fprintf_lx, record_body, nl.
  replace ((" " +:+ name +:+ " " +:+ Text.fmt_016lx v +:+ String Text.LF "")
           +:+ rest)%string
    with (String " " ((name +:+ " " +:+ Text.fmt_016lx v)
                      +:+ String Text.LF rest))
    by (rewrite !append_assoc; reflexivity).
  apply unindent_record; [exact Hfirst |].
  apply (record_body_inline name (Text.fmt_016lx v) Hin), fmt_016lx_inline.
Qed.

Lemma unindent_fprintf_x (name : string) (v : Z) (rest : string) :
  record_name name = true ->
  unindent true (fprintf_x name v +:+ rest)
  = (record_body name (Text.fmt_x v)
     +:+ String Text.LF (unindent true rest))%string.
Proof.
  intros Hname. apply record_name_first in Hname as [Hfirst Hin].
  unfold fprintf_x, record_body, nl.
  replace ((" " +:+ name +:+ " " +:+ Text.fmt_x v +:+ String Text.LF "")
           +:+ rest)%string
    with (String " " ((name +:+ " " +:+ Text.fmt_x v)
                      +:+ String Text.LF rest))
    by (rewrite !append_assoc; reflexivity).
  apply unindent_record; [exact Hfirst |].
  apply (record_body_inline name (Text.fmt_x v) Hin), fmt_x_inline.
Qed.

Lemma concat_cons (x : string) (l : list string) :
  String.concat "" (x :: l) = (x +:+ String.concat "" l)%string.
Proof.
  destruct l as [| y l]; [cbn; rewrite append_nil_r; reflexivity |].
  reflexivity.
Qed.

(** The records a loop of the dump writes, with their blanks removed. *)
Lemma unindent_fprintf_for (names : nat -> string) (vals : nat -> Z)
    (lo n : nat) (rest : string) :
  (forall i, (lo <= i < lo + n)%nat -> record_name (names i) = true) ->
  unindent true
    (fprintf_for lo n (fun i => fprintf_lx (names i) (vals i)) +:+ rest)
  = text_of
      (map (fun i => record_body (names i) (Text.fmt_016lx (vals i)))
         (seq lo n))
      (unindent true rest).
Proof.
  unfold fprintf_for. revert lo.
  induction n as [| n IH]; intros lo Hnames; [reflexivity |].
  cbn [seq map]. rewrite concat_cons, append_assoc.
  rewrite unindent_fprintf_lx by (apply Hnames; lia).
  cbn [text_of fold_right]. f_equal. f_equal.
  apply IH. intros i Hi. apply Hnames. lia.
Qed.

Lemma riscv_int_regnames_ok (i : nat) :
  (i < 32)%nat ->
  record_name (elt "" riscv_int_regnames i) = true /\
  is_token (elt "" riscv_int_regnames i) = true /\
  (String.length (elt "" riscv_int_regnames i) <= 8)%nat.
Proof.
  intros Hi.
  do 32 (destruct i as [| i]; [vm_compute; repeat split; lia |]). lia.
Qed.

Lemma riscv_fpr_regnames_ok (i : nat) :
  (i < 32)%nat ->
  record_name (elt "" riscv_fpr_regnames i) = true /\
  is_token (elt "" riscv_fpr_regnames i) = true /\
  (String.length (elt "" riscv_fpr_regnames i) <= 8)%nat.
Proof.
  intros Hi.
  do 32 (destruct i as [| i]; [vm_compute; repeat split; lia |]). lia.
Qed.

Section snapshot_text.

Context `{!cpu_bits} `{!externals}.

(** The dump of a hart without the leading blanks is the text of its
    records, followed by the PMP records the dump writes. *)
Lemma unindent_dump_text (cpu : RISCVCPU) :
  unindent true (riscv_cpu_dump_state cpu)
  = text_of (snapshot_bodies cpu) (unindent true (dump_pmp_text cpu)).
Proof.
  unfold riscv_cpu_dump_state, snapshot_bodies. cbv zeta.
  rewrite !text_of_app.
  repeat first [ rewrite unindent_fprintf_lx by reflexivity
               | rewrite unindent_fprintf_x by reflexivity ].
  cbn [map dump_scalars text_of fold_right fst snd scalar_digits env_get].
  do 36 (f_equal; f_equal).
  assert (Hregs : forall rest,
    unindent true
      (fprintf_for 0 32
         (fun i => fprintf_lx (elt "" riscv_int_regnames i)
                     (elt 0 (gpr (env cpu)) i)) +:+
       fprintf_for 0 32
         (fun i => fprintf_lx (elt "" riscv_fpr_regnames i)
                     (elt 0 (fpr (env cpu)) i)) +:+
       rest)
    = text_of
        (map (fun i => record_body (elt "" riscv_int_regnames i)
                         (Text.fmt_016lx (elt 0 (gpr (env cpu)) i)))
           (seq 0 32))
        (text_of
           (map (fun i => record_body (elt "" riscv_fpr_regnames i)
                            (Text.fmt_016lx (elt 0 (fpr (env cpu)) i)))
              (seq 0 32))
           (unindent true rest))).
  { intros rest.
    rewrite unindent_fprintf_for
      by (intros i Hi; apply riscv_int_regnames_ok; lia).
    rewrite unindent_fprintf_for
      by (intros i Hi; apply riscv_fpr_regnames_ok; lia).
    reflexivity. }
  destruct (riscv_cpu_is_32bit (env cpu)).
  - rewrite unindent_fprintf_lx by reflexivity.
    rewrite Hregs. reflexivity.
  - apply Hregs.
Qed.

End snapshot_text.
(** *** The lines the loader reads from a text of records *)

Lemma lines_read_text_of (bodies : list string) (rest buf : string)
    (j : nat) (b : string) :
  Forall (fun b => all_chars is_inline b = true /\
                   (String.length b < 99)%nat) bodies ->
  bodies !! j = Some b ->
  lines_read (S j) (buf, text_of bodies rest)
  = ((b +:+ nl)%string, text_of (drop (S j) bodies) rest).
Proof.
  revert buf j. induction bodies as [| b0 bodies IH]; intros buf j Hok Hj.
  { discriminate Hj. }
  inversion Hok as [| ? ? [Hin Hlen] Hok']; subst.
  change (text_of (b0 :: bodies) rest)
    with (b0 +:+ String Text.LF (text_of bodies rest))%string.
  destruct j as [| j].
  - injection Hj as <-. rewrite lines_read_S. cbn [lines_read drop].
    apply next_line_inline; assumption.
  - rewrite <- lines_read_next, next_line_inline by assumption.
    cbn [drop]. apply IH; assumption.
Qed.

Lemma digits_length (base : Z) (n : nat) (v : Z) (acc : string) :
  String.length (Text.digits base n v acc) = (n + String.length acc)%nat.
Proof.
  revert v acc. induction n as [| n IH]; intros v acc; [reflexivity |].
  cbn [Text.digits]. rewrite IH. cbn [String.length]. lia.
Qed.

Lemma strip_zeros_length (h : string) :
  (String.length (Text.strip_zeros h) <= String.length h)%nat.
Proof.
  induction h as [| c h IH]; [reflexivity |].
  destruct h as [| c' h']; [reflexivity |].
  change (Text.strip_zeros (String c (String c' h')))
    with (if Ascii.eqb c "0" then Text.strip_zeros (String c' h')
          else String c (String c' h')).
  destruct (Ascii.eqb c "0"); [| reflexivity].
  cbn [String.length] in *. lia.
Qed.

Lemma record_body_length (name digits : string) :
  String.length (record_body name digits)
  = (String.length name + 1 + String.length digits)%nat.
Proof.
  unfold record_body. rewrite !length_append. cbn [String.length]. lia.
Qed.

Lemma scalar_digits_ok (e : CPURISCVState) (f : field) :
  all_chars is_inline (scalar_digits e f) = true /\
  (String.length (scalar_digits e f) <= 16)%nat.
Proof.
  assert (H16 : forall v,
            all_chars is_inline (Text.fmt_016lx v) = true /\
            (String.length (Text.fmt_016lx v) <= 16)%nat).
  { intros v. split; [apply fmt_016lx_inline |].
    unfold Text.fmt_016lx. rewrite digits_length. cbn. lia. }
  destruct f; try apply H16.
  cbn [scalar_digits]. split; [apply fmt_x_inline |].
  unfold Text.fmt_x.
  pose proof (strip_zeros_length
                (Text.digits 16 8 (Int.to_u32 (features e)) "")) as Hs.
  rewrite digits_length in Hs. cbn [String.length] in Hs. lia.
Qed.

Lemma dump_scalars_names :
  Forall (fun d => record_name (fst d) = true /\
                   (String.length (fst d) <= 21)%nat) dump_scalars.
Proof. repeat constructor; cbn; lia. Qed.

Section snapshot_lines.

Context `{!cpu_bits}.

(** Every record of a snapshot fits the line buffer of the loader. *)
Lemma snapshot_bodies_ok (cpu : RISCVCPU) :
  Forall (fun b => all_chars is_inline b = true /\
                   (String.length b < 99)%nat) (snapshot_bodies cpu).
Proof.
  assert (Hbody : forall name digits,
            record_name name = true -> (String.length name <= 21)%nat ->
            all_chars is_inline digits = true ->
            (String.length digits <= 16)%nat ->
            all_chars is_inline (record_body name digits) = true /\
            (String.length (record_body name digits) < 99)%nat).
  { intros name digits Hn Hl Hd Hdl.
    apply record_name_first in Hn as [_ Hn].
    split; [apply record_body_inline; assumption |].
    rewrite record_body_length. lia. }
  assert (H16 : forall v,
            all_chars is_inline (Text.fmt_016lx v) = true /\
            (String.length (Text.fmt_016lx v) <= 16)%nat).
  { intros v. split; [apply fmt_016lx_inline |].
    unfold Text.fmt_016lx. rewrite digits_length. cbn. lia. }
  unfold snapshot_bodies. cbv zeta.
  apply Forall_app. split; [| apply Forall_app; split;
                              [| apply Forall_app; split]].
  - apply Forall_map. eapply Forall_impl; [apply dump_scalars_names |].
    intros d [Hn Hl]. cbn beta.
    apply Hbody; [exact Hn | exact Hl | apply scalar_digits_ok ..].
  - destruct (riscv_cpu_is_32bit (env cpu)); [| constructor].
    repeat constructor; apply Hbody;
      solve [reflexivity | cbn; lia | apply H16].
  - apply Forall_map, Forall_forall. intros i Hi.
    apply elem_of_seq in Hi.
    destruct (riscv_int_regnames_ok i ltac:(lia)) as (Hn & _ & Hl).
    apply Hbody; [exact Hn | lia | apply H16 ..].
  - apply Forall_map, Forall_forall. intros i Hi.
    apply elem_of_seq in Hi.
    destruct (riscv_fpr_regnames_ok i ltac:(lia)) as (Hn & _ & Hl).
    apply Hbody; [exact Hn | lia | apply H16 ..].
Qed.

End snapshot_lines.

(** *** The records of the dump and the patterns of the loader *)

(** The name the dump writes before a scalar field is the tag of the
    pattern the loader reads the field with, followed by blanks, and the
    conversions agree. *)
Lemma dump_scalars_records :
  Forall2
    (fun d r =>
       snd d = snd (fst r) /\
       exists pad,
         fst d = (snd r +:+ pad)%string /\
         all_chars is_blank pad = true /\
         all_chars ordinary (snd r) = true /\
         all_chars is_inline (snd r) = true /\
         fst (fst r)
         = (snd r +:+ match snd d with
                      | FEATURES => " %x"
                      | _ => " %lx"
                      end)%string)
    dump_scalars scalar_records.
Proof.
  repeat constructor;
    (eexists; split; [reflexivity | repeat split; reflexivity]).
Qed.

(** A scalar record of a snapshot, read with the pattern of its
    position. *)
Lemma sscanf_snapshot_scalar (e : CPURISCVState) (j : nat)
    (d : string * field) (r : string * field * string) :
  dump_scalars !! j = Some d ->
  scalar_records !! j = Some r ->
  snd d = snd (fst r) /\
  Text.sscanf (record_body (fst d) (scalar_digits e (snd d)) +:+ nl)
    (fst (fst r))
  = [Text.V_int (scalar_read_back e (snd (fst r)))].
Proof.
  intros Hd Hr.
  destruct (Forall2_lookup_lr _ _ _ _ _ _ dump_scalars_records Hd Hr)
    as (Hf & pad & Hname & Hpad & Hord & Hin & Hfmt).
  split; [exact Hf |].
  rewrite Hfmt, Hname, <- Hf. unfold record_body.
  rewrite (append_assoc _ _ nl), (append_assoc " " _ nl).
  destruct (snd d); cbn [scalar_digits scalar_read_back];
    solve [ apply sscanf_scalar_record; assumption
          | apply sscanf_scalar_record_x; assumption ].
Qed.

Lemma is_token_token (name : string) : is_token name = true -> token name.
Proof.
  unfold is_token. intros H. apply andb_prop in H as [Hne Hall].
  split; [destruct name; [discriminate Hne | discriminate] |].
  clear Hne. induction name as [| c name IH]; [constructor |].
  cbn [all_chars] in Hall. apply andb_prop in Hall as [Hc Hall].
  apply andb_prop in Hc as [Hsp Hnul].
  cbn [list_ascii_of_string]. constructor; [| apply IH, Hall].
  split; [apply negb_true_iff, Hsp |].
  apply Ascii.eqb_neq, negb_true_iff, Hnul.
Qed.

(** A register record without its leading blank, read with the pattern of
    the register records. *)
Lemma register_value_body (name : string) (v : Z) :
  token name ->
  register_value (record_body name (Text.fmt_016lx v) +:+ nl)
  = Some (Int.to_u64 v).
Proof.
  intros Hname. unfold register_value, record_body.
  rewrite (append_assoc _ _ nl), (append_assoc " " _ nl).
  rewrite sscanf_register_record by exact Hname.
  unfold Text.sscanf at 1.
  rewrite c_str_digits_line by apply fmt_016lx_inline.
  change (Text.parse_format "%lx") with [Text.D_lx].
  rewrite scan_D_lx_fmt_016lx. reflexivity.
Qed.
(** ** The dump of a hart, restored *)

Lemma to_u64_small (v : Z) : 0 <= v < Int.u64_modulus -> Int.to_u64 v = v.
Proof. intros Hv. apply Z.mod_small. exact Hv. Qed.

Lemma scalar_read_back_valid (e : CPURISCVState) (f : field) :
  env_valid e -> scalar_read_back e f = env_get f e.
Proof.
  intros (Hall & Hfeat & _).
  assert (H64 : Int.to_u64 (env_get f e) = env_get f e)
    by apply to_u64_small, Hall.
  destruct f; try exact H64.
  cbn [scalar_read_back env_get]. apply Z.mod_small.
  pose proof (Hall FEATURES) as Hf. cbn [env_get] in Hf. lia.
Qed.

Lemma elt_lookup {A} (d : A) (l : list A) (i : nat) :
  (i < length l)%nat -> l !! i = Some (elt d l i).
Proof.
  intros Hi. unfold elt.
  destruct (lookup_lt_is_Some_2 l i Hi) as [x Hx]. rewrite Hx. reflexivity.
Qed.

(** A register array whose elements are those of another of the same
    length is that array. *)
Lemma registers_restored (l l' : list Z) :
  length l = 32%nat -> length l' = 32%nat ->
  (forall k, (k < 32)%nat -> l' !! k = Some (elt 0 l k)) ->
  l' = l.
Proof.
  intros Hl Hl' Hall. apply list_eq. intros i.
  destruct (decide (i < 32)%nat) as [Hi | Hi].
  - rewrite (Hall i Hi). symmetry. apply elt_lookup. lia.
  - rewrite !lookup_ge_None_2 by lia. reflexivity.
Qed.

Section snapshot_round_trip.

Context `{!cpu_bits} `{!externals}.

(** Where the records of a snapshot are. *)
Lemma snapshot_bodies_lookup (cpu : RISCVCPU) :
  let e := env cpu in
  let n0 := if riscv_cpu_is_32bit e then 37%nat else 36%nat in
  (forall j d, dump_scalars !! j = Some d ->
     snapshot_bodies cpu !! j
     = Some (record_body (fst d) (scalar_digits e (snd d)))) /\
  (riscv_cpu_is_32bit e = true ->
   snapshot_bodies cpu !! 36%nat
   = Some (record_body "mstatush "
             (Text.fmt_016lx (Z.shiftr (mstatus e) 32)))) /\
  (forall i, (i < 32)%nat ->
     snapshot_bodies cpu !! (i + n0)%nat
     = Some (record_body (elt "" riscv_int_regnames i)
               (Text.fmt_016lx (elt 0 (gpr e) i)))) /\
  (forall i, (i < 32)%nat ->
     snapshot_bodies cpu !! (i + 32 + n0)%nat
     = Some (record_body (elt "" riscv_fpr_regnames i)
               (Text.fmt_016lx (elt 0 (fpr e) i)))).
Proof.
  cbv zeta. unfold snapshot_bodies. cbv zeta.
  set (A := map _ dump_scalars).
  set (C := map _ (seq 0 32)).
  set (D := map _ (seq 0 32)).
  assert (HA : length A = 36%nat) by (unfold A; rewrite length_map; reflexivity).
  assert (HC : length C = 32%nat)
    by (unfold C; rewrite length_map, length_seq; reflexivity).
  assert (HCi : forall i, (i < 32)%nat ->
            C !! i = Some (record_body (elt "" riscv_int_regnames i)
                             (Text.fmt_016lx (elt 0 (gpr (env cpu)) i)))).
  { intros i Hi. unfold C. rewrite list_lookup_fmap, lookup_seq_lt by exact Hi.
    reflexivity. }
  assert (HDi : forall i, (i < 32)%nat ->
            D !! i = Some (record_body (elt "" riscv_fpr_regnames i)
                             (Text.fmt_016lx (elt 0 (fpr (env cpu)) i)))).
  { intros i Hi. unfold D. rewrite list_lookup_fmap, lookup_seq_lt by exact Hi.
    reflexivity. }
  split; [| split; [| split]].
  - intros j d Hj. rewrite lookup_app_l
      by (rewrite HA; apply lookup_lt_Some in Hj; exact Hj).
    unfold A. rewrite list_lookup_fmap, Hj. reflexivity.
  - intros ->. rewrite lookup_app_r by (rewrite HA; lia).
    rewrite HA. reflexivity.
  - intros i Hi. destruct (riscv_cpu_is_32bit (env cpu)).
    + rewrite lookup_app_r by (rewrite HA; lia). rewrite HA.
      rewrite lookup_app_r by (cbn [length]; lia). cbn [length].
      replace (i + 37 - 36 - 1)%nat with i by lia.
      rewrite lookup_app_l by (rewrite HC; exact Hi). apply HCi, Hi.
    + rewrite lookup_app_r by (rewrite HA; lia). rewrite HA.
      replace (i + 36 - 36)%nat with i by lia. cbn [app].
      rewrite lookup_app_l by (rewrite HC; exact Hi). apply HCi, Hi.
  - intros i Hi. destruct (riscv_cpu_is_32bit (env cpu)).
    + rewrite lookup_app_r by (rewrite HA; lia). rewrite HA.
      rewrite lookup_app_r by (cbn [length]; lia). cbn [length].
      rewrite lookup_app_r by (rewrite HC; lia). rewrite HC.
      replace (i + 32 + 37 - 36 - 1 - 32)%nat with i by lia. apply HDi, Hi.
    + rewrite lookup_app_r by (rewrite HA; lia). rewrite HA.
      replace (i + 32 + 36 - 36)%nat with (i + 32)%nat by lia. cbn [app].
      rewrite lookup_app_r by (rewrite HC; lia). rewrite HC.
      replace (i + 32 - 32)%nat with i by lia. apply HDi, Hi.
Qed.

Lemma load_scalar_accepts_stream (fmt : string) (dst : field) (what : string)
    (s : loader) (v : Z) :
  Text.sscanf (fst (next_line (ld_stream s))) fmt = [Text.V_int v] ->
  load_scalar fmt dst what s
  = ({| ld_cpu := cpu_set_env (env_set dst v (env (ld_cpu s))) (ld_cpu s);
        ld_fp := snd (next_line (ld_stream s));
        ld_str_line := fst (next_line (ld_stream s)) |}, inr tt).
Proof.
  destruct s as [cpu fp line]. unfold ld_stream.
  cbn [ld_cpu ld_fp ld_str_line].
  apply (load_scalar_accepts fmt dst what cpu (line, fp) v).
Qed.

(** The loop over a register array, when each of the lines it reads is
    accepted: it ends without error. *)
Lemma for_range_load_reg_accepts
    (set : list Z -> CPURISCVState -> CPURISCVState)
    (get : CPURISCVState -> list Z) (array : string) (n lo : nat)
    (s : loader) :
  (forall k, (k < n)%nat ->
     exists v,
       register_value (fst (lines_read (S k) (ld_stream s))) = Some v) ->
  exists s', for_range lo n (load_reg set get array) s = (s', inr tt).
Proof.
  revert lo s. induction n as [| n IH]; intros lo s Hacc.
  { exists s. reflexivity. }
  cbn [for_range]. unfold mbind, SE_bind. rewrite load_reg_run.
  destruct (Hacc 0%nat ltac:(lia)) as [v Hv].
  rewrite lines_read_S in Hv. cbn [lines_read] in Hv. rewrite Hv.
  apply IH. intros k Hk. unfold ld_stream at 1. cbn [ld_str_line ld_fp].
  rewrite <- surjective_pairing, lines_read_next.
  apply Hacc. lia.
Qed.

(** The round trip of the snapshot, with the leading blank of each record
    of the dump removed: restoring the dump of a hart into a hart gives the
    scalar fields the records hold and the 64 registers the values of the
    dumped hart, except that on a 32-bit hart mstatus is left with its upper
    half, the value of the mstatush record; the restore succeeds when the
    hart restored into has no PMP. *)
Theorem load_state_restores_dump (cpu target : RISCVCPU) (buf : string) :
  env_valid (env cpu) ->
  length (gpr (env target)) = 32%nat ->
  length (fpr (env target)) = 32%nat ->
  exists cpu' err,
    riscv_cpu_load_state target (unindent true (riscv_cpu_dump_state cpu)) buf
    = (cpu', err) /\
    (cfg_pmp (cfg target) = false -> err = None) /\
    (forall f,
       In f (map (fun r => snd (fst r)) scalar_records) -> f <> MSTATUS ->
       env_get f (env cpu') = env_get f (env cpu)) /\
    mstatus (env cpu')
    = (if riscv_cpu_is_32bit (env cpu) then Z.shiftr (mstatus (env cpu)) 32
       else mstatus (env cpu)) /\
    gpr (env cpu') = gpr (env cpu) /\
    fpr (env cpu') = fpr (env cpu).
Proof.
  intros Hvalid Hgl Hfl.
  pose proof Hvalid as (Hrange & _ & Hgl0 & Hfl0 & Hgr & Hfr).
  rewrite unindent_dump_text.
  pose proof (snapshot_bodies_ok cpu) as Hok.
  destruct (snapshot_bodies_lookup cpu) as (Hsc & Hhi & Hgp & Hfp).
  cbv zeta in Hsc, Hhi, Hgp, Hfp.
  set (bodies := snapshot_bodies cpu) in *.
  set (text := text_of bodies (unindent true (dump_pmp_text cpu))).
  set (e := env cpu) in *.
  set (st0 := (buf, text)).
  assert (Hline : forall j b, bodies !! j = Some b ->
            lines_read (S j) st0
            = ((b +:+ nl)%string,
               text_of (drop (S j) bodies)
                 (unindent true (dump_pmp_text cpu)))).
  { intros j b Hj. apply lines_read_text_of; assumption. }
  set (s0 := {| ld_cpu := target; ld_fp := text; ld_str_line := buf |}).
  (* the scalar records *)
  assert (Hscalar : forall j d r,
            dump_scalars !! j = Some d -> scalar_records !! j = Some r ->
            Text.sscanf (fst (lines_read (S j) st0)) (fst (fst r))
            = [Text.V_int (env_get (snd (fst r)) e)]).
  { intros j d r Hd Hr. rewrite (Hline j _ (Hsc j d Hd)). cbn [fst].
    destruct (sscanf_snapshot_scalar e j d r Hd Hr) as [_ ->].
    rewrite scalar_read_back_valid by exact Hvalid. reflexivity. }
  assert (Hdump : forall j r, scalar_records !! j = Some r ->
            exists d, dump_scalars !! j = Some d).
  { intros j r Hr. apply lookup_lt_is_Some_2.
    apply lookup_lt_Some in Hr. exact Hr. }
  destruct (load_scalars_then_accepts scalar_records s0) as [s1 Hs1].
  { intros j rj Hr. destruct (Hdump j rj Hr) as [d Hd].
    eexists. apply (Hscalar j d rj Hd Hr). }
  pose proof (Hs1 (mret tt)) as Hret.
  apply load_scalars_then_inr in Hret
    as (s1' & [= ->] & Hstream1 & Hcfg1 & Hframe1 & Hrec1).
  change (ld_stream s0) with st0 in Hstream1, Hrec1.
  change (length scalar_records) with 36%nat in Hstream1.
  assert (Hfield1 : forall f,
            In f (map (fun r => snd (fst r)) scalar_records) ->
            env_get f (env (ld_cpu s1)) = env_get f e).
  { intros f Hin. apply in_map_iff in Hin as (r & <- & Hin).
    apply list_elem_of_In, list_elem_of_lookup in Hin as [j Hr].
    destruct (Hdump j r Hr) as [d Hd].
    assert (Heq : [Text.V_int (env_get (snd (fst r)) (env (ld_cpu s1)))]
                  = [Text.V_int (env_get (snd (fst r)) e)]).
    { rewrite <- (Hscalar j d r Hd Hr). symmetry. apply (Hrec1 j r Hr).
      intros j' rj' Hlt Hj' Heq.
      assert (j' = j); [| lia].
      eapply (NoDup_lookup _ _ _ _ scalar_records_fields_NoDup);
        rewrite list_lookup_fmap;
        [ rewrite Hj'; reflexivity
        | rewrite Hr; cbn; rewrite Heq; reflexivity ]. }
    injection Heq as Heq. exact Heq. }
  assert (Hg1 : gpr (env (ld_cpu s1)) = gpr (env target))
    by (apply (Hframe1 _ gpr); intros rj _ x e0; destruct (snd (fst rj));
        reflexivity).
  assert (Hf1 : fpr (env (ld_cpu s1)) = fpr (env target))
    by (apply (Hframe1 _ fpr); intros rj _ x e0; destruct (snd (fst rj));
        reflexivity).
  assert (H32 : riscv_cpu_is_32bit (env (ld_cpu s1)) = riscv_cpu_is_32bit e).
  { unfold riscv_cpu_is_32bit.
    change (misa (env (ld_cpu s1))) with (env_get MISA (env (ld_cpu s1))).
    rewrite Hfield1 by (cbn; tauto). reflexivity. }
  (* the record of mstatush *)
  set (n0 := if riscv_cpu_is_32bit e then 37%nat else 36%nat) in *.
  assert (Hhigh : exists s2,
            when (riscv_cpu_is_32bit (env (ld_cpu s1)))
              (load_scalar "mstatush %lx" MSTATUS "mstatush") s1
            = (s2, inr tt) /\
            ld_stream s2 = lines_read n0 st0 /\
            cfg (ld_cpu s2) = cfg (ld_cpu s1) /\
            gpr (env (ld_cpu s2)) = gpr (env target) /\
            fpr (env (ld_cpu s2)) = fpr (env target) /\
            (forall f, f <> MSTATUS ->
               env_get f (env (ld_cpu s2)) = env_get f (env (ld_cpu s1))) /\
            mstatus (env (ld_cpu s2))
            = (if riscv_cpu_is_32bit e then Z.shiftr (mstatus e) 32
               else mstatus e)).
  { rewrite H32. unfold n0. destruct (riscv_cpu_is_32bit e) eqn:His.
    - assert (Hv : Text.sscanf (fst (next_line (ld_stream s1)))
                     "mstatush %lx"
                   = [Text.V_int (Z.shiftr (mstatus e) 32)]).
      { rewrite Hstream1, <- (lines_read_S 36), (Hline 36%nat _ (Hhi eq_refl)).
        cbn [fst]. unfold record_body.
        rewrite (append_assoc _ _ nl), (append_assoc " " _ nl).
        rewrite (sscanf_scalar_record "mstatush" " ") by reflexivity.
        f_equal. f_equal. apply to_u64_small.
        pose proof (Hrange MSTATUS) as Hm. cbn [env_get] in Hm.
        unfold Int.u64_modulus in *.
        split; [apply Z.shiftr_nonneg; lia |].
        rewrite Z.shiftr_div_pow2 by lia.
        apply Z.div_lt_upper_bound; lia. }
      eexists. cbn [when]. split; [apply load_scalar_accepts_stream, Hv |].
      unfold ld_stream at 1. cbn [ld_str_line ld_fp ld_cpu cpu_set_env env cfg].
      rewrite <- surjective_pairing, Hstream1, <- (lines_read_S 36).
      split; [reflexivity |]. split; [reflexivity |].
      split; [exact Hg1 |]. split; [exact Hf1 |].
      split; [| reflexivity].
      intros f Hf. apply env_get_set_other. congruence.
    - exists s1. split; [reflexivity |]. split; [exact Hstream1 |].
      split; [reflexivity |]. split; [exact Hg1 |]. split; [exact Hf1 |].
      split; [reflexivity |].
      change (mstatus (env (ld_cpu s1)))
        with (env_get MSTATUS (env (ld_cpu s1))).
      rewrite Hfield1 by (cbn; tauto). reflexivity. }
  destruct Hhigh as (s2 & Hrun2 & Hstream2 & Hcfg2 & Hg2 & Hf2 & Hkeep2 & Hms2).
  (* the integer registers *)
  assert (Hgline : forall k, (k < 32)%nat ->
            register_value (fst (lines_read (S k) (ld_stream s2)))
            = Some (elt 0 (gpr e) k)).
  { intros k Hk. rewrite Hstream2, lines_read_add.
    change (S k + n0)%nat with (S (k + n0)).
    rewrite (Hline _ _ (Hgp k Hk)). cbn [fst].
    rewrite register_value_body
      by (apply is_token_token, riscv_int_regnames_ok, Hk).
    f_equal. apply to_u64_small.
    pose proof (elt_lookup 0 (gpr e) k ltac:(lia)) as Hlk.
    rewrite Forall_lookup in Hgr. exact (Hgr k _ Hlk). }
  destruct (for_range_load_reg_accepts env_set_gpr gpr "gpr" 32 0 s2)
    as [s3 Hrun3].
  { intros k Hk. eexists. apply Hgline, Hk. }
  pose proof Hrun3 as Hinv3.
  apply (for_range_load_reg_inr env_set_gpr gpr "gpr" ltac:(reflexivity))
    in Hinv3 as (Hstream3 & Hcfg3 & Hframe3 & Hlen3 & _ & Hval3).
  assert (Hg3 : gpr (env (ld_cpu s3)) = gpr e).
  { apply registers_restored; [exact Hgl0 | rewrite Hlen3, Hg2; exact Hgl |].
    intros k Hk.
    destruct (Hval3 k Hk ltac:(rewrite Hg2, Hgl; exact Hk)) as (v & Hv & Hget).
    rewrite (Hgline k Hk) in Hv. injection Hv as <-. exact Hget. }
  (* the floating-point registers *)
  assert (Hfline : forall k, (k < 32)%nat ->
            register_value (fst (lines_read (S k) (ld_stream s3)))
            = Some (elt 0 (fpr e) k)).
  { intros k Hk. rewrite Hstream3, Hstream2, !lines_read_add.
    change (S k + 32 + n0)%nat with (S (k + 32 + n0)).
    rewrite (Hline _ _ (Hfp k Hk)). cbn [fst].
    rewrite register_value_body
      by (apply is_token_token, riscv_fpr_regnames_ok, Hk).
    f_equal. apply to_u64_small.
    pose proof (elt_lookup 0 (fpr e) k ltac:(lia)) as Hlk.
    rewrite Forall_lookup in Hfr. exact (Hfr k _ Hlk). }
  destruct (for_range_load_reg_accepts env_set_fpr fpr "fpr" 32 0 s3)
    as [s4 Hrun4].
  { intros k Hk. eexists. apply Hfline, Hk. }
  pose proof Hrun4 as Hinv4.
  apply (for_range_load_reg_inr env_set_fpr fpr "fpr" ltac:(reflexivity))
    in Hinv4 as (_ & Hcfg4 & Hframe4 & Hlen4 & _ & Hval4).
  assert (Hf3 : fpr (env (ld_cpu s3)) = fpr (env target))
    by (rewrite (Hframe3 _ fpr) by reflexivity; exact Hf2).
  assert (Hf4 : fpr (env (ld_cpu s4)) = fpr e).
  { apply registers_restored; [exact Hfl0 | rewrite Hlen4, Hf3; exact Hfl |].
    intros k Hk.
    destruct (Hval4 k Hk ltac:(rewrite Hf3, Hfl; exact Hk)) as (v & Hv & Hget).
    rewrite (Hfline k Hk) in Hv. injection Hv as <-. exact Hget. }
  (* the PMP records *)
  destruct (load_pmp_records s4) as [s' r] eqn:Hrun5.
  assert (Hkeep5 :
            (forall f, env_get f (env (ld_cpu s')) = env_get f (env (ld_cpu s4)))
            /\ gpr (env (ld_cpu s')) = gpr (env (ld_cpu s4))
            /\ fpr (env (ld_cpu s')) = fpr (env (ld_cpu s4))).
  { refine (load_pmp_records_preserves
              (fun s => (forall f, env_get f (env (ld_cpu s))
                                   = env_get f (env (ld_cpu s4))) /\
                        gpr (env (ld_cpu s)) = gpr (env (ld_cpu s4)) /\
                        fpr (env (ld_cpu s)) = fpr (env (ld_cpu s4)))
              _ _ s4 s' r _ Hrun5).
    - intros s line rest HP. exact HP.
    - intros s F (Hf & Hg & Hfp'). split; [| split; assumption].
      intros f. rewrite <- (Hf f). destruct f; reflexivity.
    - split; [reflexivity | split; reflexivity]. }
  destruct Hkeep5 as (Hkeep5 & Hg5 & Hf5).
  exists (ld_cpu s'),
    (match r with inl msg => Some msg | inr _ => None end).
  assert (Hrun : load_state_records s0 = (s', r)).
  { rewrite load_state_records_unfold, Hs1, load_state_tail_unfold.
    unfold mbind at 1, SE_bind at 1, gets at 1.
    unfold mbind at 1, SE_bind at 1. rewrite Hrun2.
    unfold load_register_records.
    unfold mbind at 1, SE_bind at 1. rewrite Hrun3.
    unfold mbind at 1, SE_bind at 1. rewrite Hrun4.
    exact Hrun5. }
  split; [| split; [| split; [| split; [| split]]]].
  - unfold riscv_cpu_load_state. fold s0. rewrite Hrun.
    destruct r as [msg | []]; reflexivity.
  - intros Hpmp. unfold load_pmp_records in Hrun5.
    unfold mbind, SE_bind, gets in Hrun5.
    rewrite Hcfg4, Hcfg3, Hcfg2, Hcfg1 in Hrun5. cbn [s0 ld_cpu] in Hrun5.
    rewrite Hpmp in Hrun5. injection Hrun5 as <- <-. reflexivity.
  - intros f Hin Hf.
    rewrite Hkeep5, (Hframe4 _ (env_get f)), (Hframe3 _ (env_get f)),
      (Hkeep2 f Hf) by (intros l e0; destruct f; reflexivity).
    apply Hfield1, Hin.
  - change (mstatus (env (ld_cpu s')))
      with (env_get MSTATUS (env (ld_cpu s'))).
    rewrite Hkeep5, (Hframe4 _ (env_get MSTATUS)),
      (Hframe3 _ (env_get MSTATUS)) by reflexivity.
    exact Hms2.
  - rewrite Hg5, (Hframe4 _ gpr) by reflexivity. exact Hg3.
  - rewrite Hf5. exact Hf4.
Qed.

End snapshot_round_trip.
(** ** The scalar records, as written and without the blank *)

Lemma scalar_records_tags :
  Forall (fun r => exists c t, snd r = String c t /\ ordinary c = true)
    scalar_records.
Proof. repeat constructor; do 2 eexists; split; reflexivity. Qed.

Section scalar_round_trip.

Context `{!cpu_bits} `{!externals}.

(** The dump begins with the records of [dump_scalars], in order. *)
Lemma riscv_cpu_dump_state_scalars (cpu : RISCVCPU) :
  exists rest,
    riscv_cpu_dump_state cpu
    = fold_right (fun d t => dump_scalar_record (env cpu) d +:+ t) rest
        dump_scalars.
Proof. eexists. reflexivity. Qed.

End scalar_round_trip.

(** Every scalar record is refused by the pattern of its field as the dump
    writes it, the leading blank not being matched by the tag, and is
    accepted, with the value written, once the blank is removed. *)
Theorem scalar_record_round_trip (e : CPURISCVState) (j : nat)
    (d : string * field) (r : string * field * string) :
  dump_scalars !! j = Some d ->
  scalar_records !! j = Some r ->
  snd d = snd (fst r) /\
  Text.sscanf (dump_scalar_record e d) (fst (fst r)) = [] /\
  Text.sscanf (unindent true (dump_scalar_record e d)) (fst (fst r))
  = [Text.V_int (scalar_read_back e (snd (fst r)))].
Proof.
  intros Hd Hr.
  destruct (sscanf_snapshot_scalar e j d r Hd Hr) as [Hf Hread].
  split; [exact Hf |]. split.
  - destruct (Forall2_lookup_lr _ _ _ _ _ _ dump_scalars_records Hd Hr)
      as (_ & pad & _ & _ & _ & _ & Hfmt).
    pose proof scalar_records_tags as Htags.
    rewrite Forall_lookup in Htags.
    destruct (Htags j r Hr) as (c & t & Htag & Hc).
    rewrite Hfmt, Htag.
    assert (Hblank : forall line conv,
              Text.sscanf (String " " line) (String c t +:+ conv) = []).
    { intros line conv. unfold Text.sscanf.
      change (String c t +:+ conv) with (String c (t +:+ conv)).
      rewrite parse_format_ordinary by exact Hc.
      change (Text.c_str (String " " line))
        with (String " " (Text.c_str line)).
      cbn [Text.scan].
      destruct (Ascii.eqb_spec c " ") as [-> | _]; [discriminate Hc |].
      reflexivity. }
    unfold dump_scalar_record.
    destruct (snd d); apply Hblank.
  - assert (Hun : unindent true (dump_scalar_record e d)
                  = (record_body (fst d) (scalar_digits e (snd d)) +:+ nl)%string).
    { pose proof dump_scalars_names as Hnames.
      rewrite Forall_lookup in Hnames. destruct (Hnames j d Hd) as [Hname _].
      unfold dump_scalar_record.
      destruct (snd d);
        first [ rewrite <- (append_nil_r (fprintf_x _ _)),
                  unindent_fprintf_x by exact Hname; reflexivity
              | rewrite <- (append_nil_r (fprintf_lx _ _)),
                  unindent_fprintf_lx by exact Hname; reflexivity ]. }
    rewrite Hun. exact Hread.
Qed.

(** ** The round trips on concrete harts *)

(** The witness of [register_record_round_trip]: the record of x5. *)
Lemma register_record_round_trip_witness :
  token "x5/t0" /\
  fprintf_lx "x5/t0" 0x1f = (" x5/t0 000000000000001f" +:+ nl)%string /\
  register_value (fprintf_lx "x5/t0" 0x1f) = Some 0x1f.
Proof.
  assert (Hname : token "x5/t0") by (apply is_token_token; reflexivity).
  split; [exact Hname |]. split; [vm_compute; reflexivity |].
  exact (register_record_round_trip "x5/t0" 0x1f Hname).
Defined.

(** The witness of [scalar_record_round_trip]: the record of mip of
    hart 1. *)
Lemma scalar_record_round_trip_witness :
  dump_scalars !! 3%nat = Some ("mip     "%string, MIP) /\
  scalar_records !! 3%nat = Some ("mip %lx"%string, MIP, "mip"%string) /\
  Text.sscanf (fprintf_lx "mip     " (mip (env hart_1))) "mip %lx" = [] /\
  Text.sscanf (unindent true (fprintf_lx "mip     " (mip (env hart_1))))
    "mip %lx"
  = [Text.V_int (Int.to_u64 (mip (env hart_1)))].
Proof.
  assert (Hd : dump_scalars !! 3%nat = Some ("mip     "%string, MIP))
    by reflexivity.
  assert (Hr : scalar_records !! 3%nat
               = Some ("mip %lx"%string, MIP, "mip"%string)) by reflexivity.
  split; [exact Hd |]. split; [exact Hr |].
  destruct (scalar_record_round_trip (env hart_1) 3 _ _ Hd Hr)
    as (_ & Hwritten & Hread).
  split; [exact Hwritten | exact Hread].
Defined.

Lemma hart_1_valid : env_valid (env hart_1).
Proof.
  unfold env_valid. split; [| split; [| split; [| split; [| split]]]].
  - intros f. destruct f; vm_compute; split; congruence.
  - vm_compute. reflexivity.
  - vm_compute. reflexivity.
  - vm_compute. reflexivity.
  - apply Forall_forall. intros v Hv.
    rewrite list_elem_of_In in Hv. vm_compute in Hv.
    repeat (destruct Hv as [<- | Hv]; [vm_compute; split; congruence |]).
    destruct Hv.
  - apply Forall_forall. intros v Hv.
    rewrite list_elem_of_In in Hv. vm_compute in Hv.
    repeat (destruct Hv as [<- | Hv]; [vm_compute; split; congruence |]).
    destruct Hv.
Qed.

(** The witness of [load_state_restores_dump]: the dump of hart 1 restored
    into hart 0, which has no PMP. *)
Lemma load_state_restores_dump_witness :
  env_valid (env hart_1) /\
  length (gpr (env hart_0)) = 32%nat /\
  length (fpr (env hart_0)) = 32%nat /\
  cfg_pmp (cfg hart_0) = false /\
  exists cpu',
    riscv_cpu_load_state hart_0 (unindent true (riscv_cpu_dump_state hart_1)) ""
    = (cpu', None) /\
    pc (env cpu') = pc (env hart_1) /\
    mhartid (env cpu') = mhartid (env hart_1) /\
    gpr (env cpu') = gpr (env hart_1) /\
    fpr (env cpu') = fpr (env hart_1).
Proof.
  assert (Hgl : length (gpr (env hart_0)) = 32%nat) by (vm_compute; reflexivity).
  assert (Hfl : length (fpr (env hart_0)) = 32%nat) by (vm_compute; reflexivity).
  assert (Hpmp : cfg_pmp (cfg hart_0) = false) by reflexivity.
  split; [exact hart_1_valid |]. split; [exact Hgl |]. split; [exact Hfl |].
  split; [exact Hpmp |].
  destruct (load_state_restores_dump hart_1 hart_0 "" hart_1_valid Hgl Hfl)
    as (cpu' & err & Hrun & Herr & Hfields & _ & Hg & Hf).
  exists cpu'. rewrite (Herr Hpmp) in Hrun.
  split; [exact Hrun |].
  split; [apply (Hfields PC); [cbn; tauto | discriminate] |].
  split; [apply (Hfields MHARTID); [cbn; tauto | discriminate] |].
  split; [exact Hg | exact Hf].
Defined.
